(** * ADSBee ESP32 communications manager: WiFi connectivity, feed forwarding
      and access-point broadcast (firmware/esp/main/comms_wifi.cpp), and the
      contract exercised by the SPI coprocessor hardware tests
      (firmware/pico/src/target_test/test_spi_coprocessor.cc).

    The C++ code is embedded shallowly: member variables of [CommsManager]
    become fields of a record that is threaded through every operation, every
    call into ESP-IDF, FreeRTOS or lwIP is recorded in a trace of [effect]s,
    and the value such a call returns is an explicit input of the model. *)

From Stdlib Require Import ZArith List Bool String Ascii Lia.
Import ListNotations.
Open Scope Z_scope.

(** ** Constants of comms_wifi.cpp *)

Definition kWiFiNumRetries : nat := 3.
Definition kWiFiRetryWaitTimeMs : Z := 100.
Definition kWiFiStaMaxNumReconnectAttempts : Z := 5.
Definition kWiFiScanDefaultListSize : Z := 20.
Definition kWiFiTCPSocketReconnectIntervalMs : Z := 5000.

(** BIT0 and BIT1 of the FreeRTOS event group. *)
Definition WIFI_CONNECTED_BIT : Z := 1.
Definition WIFI_FAIL_BIT : Z := 2.

(** Values fixed by the platform headers (esp_err.h, errno.h, FreeRTOS). *)
Definition ESP_OK : Z := 0.
Definition ENOMEM : Z := 12.
Definition pdTRUE : Z := 1.
Definition errQUEUE_FULL : Z := 0.

(** Modelled from the spec: kMsPerSec is declared outside comms_wifi.cpp; the
    statistics interval is "once per fixed interval (1000 ms)". *)
Definition kMsPerSec : Z := 1000.

(** uint32_t arithmetic of the millisecond clock. *)
Definition u32 (x : Z) : Z := x mod 2 ^ 32.
Definition sub32 (a b : Z) : Z := u32 (a - b).

(** ** External collaborators

    The decoded packet and the Beast codec live in other translation units;
    the forwarder only uses the validity predicate and the framing function.
    The integer type of the per-feed message counter is declared in comms.hh,
    so its width is a parameter too. *)

Class BeastCodec := {
  DecodedTransponderPacket : Type;
  IsValid : DecodedTransponderPacket -> bool;
  (* packet, receiver id -> frame bytes written to beast_message_buf *)
  TransponderPacketToBeastFramePrependReceiverID :
    DecodedTransponderPacket -> list Z -> list Z;
  feed_mps_counter_bits : Z
}.

(** ** Data model *)

Definition MACAddress := list Z.

Definition mac_eqb (a b : MACAddress) : bool :=
  if list_eq_dec Z.eq_dec a b then true else false.

Record ClientRecord := {
  client_mac : MACAddress;
  client_ip : Z;
  client_active : bool
}.

Record NetworkMessage := {
  msg_data : list Z;
  msg_len : Z;
  msg_port : Z
}.

(** A FreeRTOS queue: bounded FIFO, copied by value. *)
Record Queue (A : Type) := {
  q_items : list A;
  q_capacity : nat
}.
Arguments q_items {A} _.
Arguments q_capacity {A} _.

Definition queue_full {A} (q : Queue A) : bool :=
  (q_capacity q <=? List.length (q_items q))%nat.

(** xQueueSend(q, item, 0): never blocks; errQUEUE_FULL when no slot is free. *)
Definition xQueueSend {A} (q : Queue A) (item : A) : Z * Queue A :=
  if queue_full q then (errQUEUE_FULL, q)
  else (pdTRUE, {| q_items := q_items q ++ [item]; q_capacity := q_capacity q |}).

Definition xQueueReset {A} (q : Queue A) : Queue A :=
  {| q_items := []; q_capacity := q_capacity q |}.

(** xQueueReceive: the oldest item, or nothing when the queue stayed empty. *)
Definition xQueueReceive {A} (q : Queue A) : option (A * Queue A) :=
  match q_items q with
  | [] => None
  | x :: rest => Some (x, {| q_items := rest; q_capacity := q_capacity q |})
  end.

Inductive log_level := LOG_INFO | LOG_WARNING | LOG_ERROR.

Inductive task_name := wifi_ap_task | wifi_sta_task.

Inductive wifi_mode := WIFI_MODE_STA | WIFI_MODE_AP | WIFI_MODE_APSTA.

(** Calls that leave the component, in program order. *)
Inductive effect :=
| console (lvl : log_level)
| esp_wifi_connect
| xEventGroupSetBits (bits : Z)
| xEventGroupClearBits (bits : Z)
| esp_wifi_init
| esp_event_handler_register
| IPInit
| esp_wifi_set_mode (mode : wifi_mode)
| esp_wifi_set_config (iface : wifi_mode)
| esp_wifi_stop
| esp_wifi_start
| xTaskCreatePinnedToCore (t : task_name)
| esp_restart
| vTaskDelay (ms : Z)
| sys_socket (fd : Z)
| sys_close (fd : Z)
| sys_shutdown (fd : Z)
| sys_getaddrinfo (uri : string)
| sys_connect (fd : Z) (sin_addr : Z) (port : Z)
| sys_send (fd : Z) (bytes : list Z)
| sys_sendto (fd : Z) (ip : Z) (port : Z) (bytes : list Z).

Section Model.
Context {codec : BeastCodec}.

(** Members of [CommsManager] used by comms_wifi.cpp, together with the
    function-local static [s_retry_num] of [WiFiEventHandler]. *)
Record CommsManager := {
  s_retry_num : Z;
  wifi_event_group_ : Z;
  wifi_sta_has_ip_ : bool;
  wifi_clients_list_ : list ClientRecord;
  wifi_was_initialized_ : bool;
  ip_event_handler_was_initialized_ : bool;
  run_wifi_ap_task_ : bool;
  run_wifi_sta_task_ : bool;
  wifi_ap_message_queue_ : Queue NetworkMessage;
  wifi_sta_decoded_transponder_packet_queue_ : Queue DecodedTransponderPacket;
  feed_mps_last_update_timestamp_ms_ : Z
}.

Definition set_s_retry_num (v : Z) (cm : CommsManager) : CommsManager :=
  {| s_retry_num := v;
     wifi_event_group_ := wifi_event_group_ cm;
     wifi_sta_has_ip_ := wifi_sta_has_ip_ cm;
     wifi_clients_list_ := wifi_clients_list_ cm;
     wifi_was_initialized_ := wifi_was_initialized_ cm;
     ip_event_handler_was_initialized_ := ip_event_handler_was_initialized_ cm;
     run_wifi_ap_task_ := run_wifi_ap_task_ cm;
     run_wifi_sta_task_ := run_wifi_sta_task_ cm;
     wifi_ap_message_queue_ := wifi_ap_message_queue_ cm;
     wifi_sta_decoded_transponder_packet_queue_ :=
       wifi_sta_decoded_transponder_packet_queue_ cm;
     feed_mps_last_update_timestamp_ms_ := feed_mps_last_update_timestamp_ms_ cm |}.

Definition set_wifi_event_group_ (v : Z) (cm : CommsManager) : CommsManager :=
  {| s_retry_num := s_retry_num cm;
     wifi_event_group_ := v;
     wifi_sta_has_ip_ := wifi_sta_has_ip_ cm;
     wifi_clients_list_ := wifi_clients_list_ cm;
     wifi_was_initialized_ := wifi_was_initialized_ cm;
     ip_event_handler_was_initialized_ := ip_event_handler_was_initialized_ cm;
     run_wifi_ap_task_ := run_wifi_ap_task_ cm;
     run_wifi_sta_task_ := run_wifi_sta_task_ cm;
     wifi_ap_message_queue_ := wifi_ap_message_queue_ cm;
     wifi_sta_decoded_transponder_packet_queue_ :=
       wifi_sta_decoded_transponder_packet_queue_ cm;
     feed_mps_last_update_timestamp_ms_ := feed_mps_last_update_timestamp_ms_ cm |}.

Definition set_wifi_sta_has_ip_ (v : bool) (cm : CommsManager) : CommsManager :=
  {| s_retry_num := s_retry_num cm;
     wifi_event_group_ := wifi_event_group_ cm;
     wifi_sta_has_ip_ := v;
     wifi_clients_list_ := wifi_clients_list_ cm;
     wifi_was_initialized_ := wifi_was_initialized_ cm;
     ip_event_handler_was_initialized_ := ip_event_handler_was_initialized_ cm;
     run_wifi_ap_task_ := run_wifi_ap_task_ cm;
     run_wifi_sta_task_ := run_wifi_sta_task_ cm;
     wifi_ap_message_queue_ := wifi_ap_message_queue_ cm;
     wifi_sta_decoded_transponder_packet_queue_ :=
       wifi_sta_decoded_transponder_packet_queue_ cm;
     feed_mps_last_update_timestamp_ms_ := feed_mps_last_update_timestamp_ms_ cm |}.

Definition set_wifi_clients_list_ (v : list ClientRecord) (cm : CommsManager)
  : CommsManager :=
  {| s_retry_num := s_retry_num cm;
     wifi_event_group_ := wifi_event_group_ cm;
     wifi_sta_has_ip_ := wifi_sta_has_ip_ cm;
     wifi_clients_list_ := v;
     wifi_was_initialized_ := wifi_was_initialized_ cm;
     ip_event_handler_was_initialized_ := ip_event_handler_was_initialized_ cm;
     run_wifi_ap_task_ := run_wifi_ap_task_ cm;
     run_wifi_sta_task_ := run_wifi_sta_task_ cm;
     wifi_ap_message_queue_ := wifi_ap_message_queue_ cm;
     wifi_sta_decoded_transponder_packet_queue_ :=
       wifi_sta_decoded_transponder_packet_queue_ cm;
     feed_mps_last_update_timestamp_ms_ := feed_mps_last_update_timestamp_ms_ cm |}.

Definition set_wifi_was_initialized_ (v : bool) (cm : CommsManager) : CommsManager :=
  {| s_retry_num := s_retry_num cm;
     wifi_event_group_ := wifi_event_group_ cm;
     wifi_sta_has_ip_ := wifi_sta_has_ip_ cm;
     wifi_clients_list_ := wifi_clients_list_ cm;
     wifi_was_initialized_ := v;
     ip_event_handler_was_initialized_ := ip_event_handler_was_initialized_ cm;
     run_wifi_ap_task_ := run_wifi_ap_task_ cm;
     run_wifi_sta_task_ := run_wifi_sta_task_ cm;
     wifi_ap_message_queue_ := wifi_ap_message_queue_ cm;
     wifi_sta_decoded_transponder_packet_queue_ :=
       wifi_sta_decoded_transponder_packet_queue_ cm;
     feed_mps_last_update_timestamp_ms_ := feed_mps_last_update_timestamp_ms_ cm |}.

Definition set_run_wifi_ap_task_ (v : bool) (cm : CommsManager) : CommsManager :=
  {| s_retry_num := s_retry_num cm;
     wifi_event_group_ := wifi_event_group_ cm;
     wifi_sta_has_ip_ := wifi_sta_has_ip_ cm;
     wifi_clients_list_ := wifi_clients_list_ cm;
     wifi_was_initialized_ := wifi_was_initialized_ cm;
     ip_event_handler_was_initialized_ := ip_event_handler_was_initialized_ cm;
     run_wifi_ap_task_ := v;
     run_wifi_sta_task_ := run_wifi_sta_task_ cm;
     wifi_ap_message_queue_ := wifi_ap_message_queue_ cm;
     wifi_sta_decoded_transponder_packet_queue_ :=
       wifi_sta_decoded_transponder_packet_queue_ cm;
     feed_mps_last_update_timestamp_ms_ := feed_mps_last_update_timestamp_ms_ cm |}.

Definition set_run_wifi_sta_task_ (v : bool) (cm : CommsManager) : CommsManager :=
  {| s_retry_num := s_retry_num cm;
     wifi_event_group_ := wifi_event_group_ cm;
     wifi_sta_has_ip_ := wifi_sta_has_ip_ cm;
     wifi_clients_list_ := wifi_clients_list_ cm;
     wifi_was_initialized_ := wifi_was_initialized_ cm;
     ip_event_handler_was_initialized_ := ip_event_handler_was_initialized_ cm;
     run_wifi_ap_task_ := run_wifi_ap_task_ cm;
     run_wifi_sta_task_ := v;
     wifi_ap_message_queue_ := wifi_ap_message_queue_ cm;
     wifi_sta_decoded_transponder_packet_queue_ :=
       wifi_sta_decoded_transponder_packet_queue_ cm;
     feed_mps_last_update_timestamp_ms_ := feed_mps_last_update_timestamp_ms_ cm |}.

Definition set_wifi_ap_message_queue_ (v : Queue NetworkMessage) (cm : CommsManager)
  : CommsManager :=
  {| s_retry_num := s_retry_num cm;
     wifi_event_group_ := wifi_event_group_ cm;
     wifi_sta_has_ip_ := wifi_sta_has_ip_ cm;
     wifi_clients_list_ := wifi_clients_list_ cm;
     wifi_was_initialized_ := wifi_was_initialized_ cm;
     ip_event_handler_was_initialized_ := ip_event_handler_was_initialized_ cm;
     run_wifi_ap_task_ := run_wifi_ap_task_ cm;
     run_wifi_sta_task_ := run_wifi_sta_task_ cm;
     wifi_ap_message_queue_ := v;
     wifi_sta_decoded_transponder_packet_queue_ :=
       wifi_sta_decoded_transponder_packet_queue_ cm;
     feed_mps_last_update_timestamp_ms_ := feed_mps_last_update_timestamp_ms_ cm |}.

Definition set_wifi_sta_decoded_transponder_packet_queue_
  (v : Queue DecodedTransponderPacket) (cm : CommsManager) : CommsManager :=
  {| s_retry_num := s_retry_num cm;
     wifi_event_group_ := wifi_event_group_ cm;
     wifi_sta_has_ip_ := wifi_sta_has_ip_ cm;
     wifi_clients_list_ := wifi_clients_list_ cm;
     wifi_was_initialized_ := wifi_was_initialized_ cm;
     ip_event_handler_was_initialized_ := ip_event_handler_was_initialized_ cm;
     run_wifi_ap_task_ := run_wifi_ap_task_ cm;
     run_wifi_sta_task_ := run_wifi_sta_task_ cm;
     wifi_ap_message_queue_ := wifi_ap_message_queue_ cm;
     wifi_sta_decoded_transponder_packet_queue_ := v;
     feed_mps_last_update_timestamp_ms_ := feed_mps_last_update_timestamp_ms_ cm |}.

Definition set_feed_mps_last_update_timestamp_ms_ (v : Z) (cm : CommsManager)
  : CommsManager :=
  {| s_retry_num := s_retry_num cm;
     wifi_event_group_ := wifi_event_group_ cm;
     wifi_sta_has_ip_ := wifi_sta_has_ip_ cm;
     wifi_clients_list_ := wifi_clients_list_ cm;
     wifi_was_initialized_ := wifi_was_initialized_ cm;
     ip_event_handler_was_initialized_ := ip_event_handler_was_initialized_ cm;
     run_wifi_ap_task_ := run_wifi_ap_task_ cm;
     run_wifi_sta_task_ := run_wifi_sta_task_ cm;
     wifi_ap_message_queue_ := wifi_ap_message_queue_ cm;
     wifi_sta_decoded_transponder_packet_queue_ :=
       wifi_sta_decoded_transponder_packet_queue_ cm;
     feed_mps_last_update_timestamp_ms_ := v |}.

(** ** WiFiEventHandler *)

Inductive wifi_event :=
| WIFI_EVENT_AP_STACONNECTED (mac : MACAddress) (aid : Z)
| WIFI_EVENT_AP_STADISCONNECTED (mac : MACAddress) (aid : Z)
| WIFI_EVENT_STA_START
| WIFI_EVENT_STA_DISCONNECTED (reason : Z)
| WIFI_EVENT_STA_CONNECTED
| WIFI_EVENT_OTHER (event_id : Z).

(** Modelled from the spec: WiFiRemoveClient is defined outside comms_wifi.cpp.
    "Client disassociate -> deactivate the matching ClientRecord (matched by
    hardware address)"; records are "never physically removed, only
    deactivated". *)
Definition WiFiRemoveClient (mac : MACAddress) (clients : list ClientRecord)
  : list ClientRecord :=
  map (fun c =>
         if mac_eqb (client_mac c) mac
         then {| client_mac := client_mac c; client_ip := client_ip c;
                 client_active := false |}
         else c) clients.

(** One invocation of the handler. [connect_ret] is what esp_wifi_connect()
    returns if the handler calls it; ESP_ERROR_CHECK aborts the firmware on
    anything but ESP_OK, which is the [None] result. The counter is an int
    that is only incremented below 5, so it never wraps. *)
Definition WiFiEventHandler (event : wifi_event) (connect_ret : Z) (cm : CommsManager)
  : option (CommsManager * list effect) :=
  match event with
  | WIFI_EVENT_AP_STACONNECTED mac aid =>
      Some (cm, [console LOG_INFO])
  | WIFI_EVENT_AP_STADISCONNECTED mac aid =>
      Some (set_wifi_clients_list_ (WiFiRemoveClient mac (wifi_clients_list_ cm)) cm,
            [console LOG_INFO])
  | WIFI_EVENT_STA_START =>
      if connect_ret =? ESP_OK
      then Some (cm, [console LOG_INFO; esp_wifi_connect])
      else None
  | WIFI_EVENT_STA_DISCONNECTED reason =>
      let cm1 :=
        set_wifi_event_group_
          (Z.ldiff (wifi_event_group_ cm) WIFI_CONNECTED_BIT) cm in
      let cm2 := set_wifi_sta_has_ip_ false cm1 in
      if s_retry_num cm2 <? kWiFiStaMaxNumReconnectAttempts then
        if connect_ret =? ESP_OK
        then Some (set_s_retry_num (s_retry_num cm2 + 1) cm2,
                   [console LOG_WARNING; xEventGroupClearBits WIFI_CONNECTED_BIT;
                    esp_wifi_connect; console LOG_INFO])
        else None
      else
        Some (set_wifi_event_group_
                (Z.lor (wifi_event_group_ cm2) WIFI_FAIL_BIT) cm2,
              [console LOG_WARNING; xEventGroupClearBits WIFI_CONNECTED_BIT;
               xEventGroupSetBits WIFI_FAIL_BIT; console LOG_ERROR])
  | WIFI_EVENT_STA_CONNECTED =>
      Some (set_wifi_event_group_
              (Z.lor (wifi_event_group_ cm) WIFI_CONNECTED_BIT) cm,
            [xEventGroupSetBits WIFI_CONNECTED_BIT; console LOG_INFO])
  | WIFI_EVENT_OTHER _ => Some (cm, [])
  end.

(** The event loop task delivers events one after the other. *)
Fixpoint handle_events (evs : list (wifi_event * Z)) (cm : CommsManager)
  : option (CommsManager * list effect) :=
  match evs with
  | [] => Some (cm, [])
  | (ev, connect_ret) :: rest =>
      match WiFiEventHandler ev connect_ret cm with
      | None => None
      | Some (cm1, effs1) =>
          match handle_events rest cm1 with
          | None => None
          | Some (cm2, effs2) => Some (cm2, effs1 ++ effs2)
          end
      end
  end.

(** ** WiFiAccessPointTask *)

(** What one sendto() call produced: its return value and the errno it left. *)
Record SendResult := { sr_ret : Z; sr_errno : Z }.

(** The retry loop [for (num_tries = 0; num_tries < kWiFiNumRetries; num_tries++)].
    [remaining] is kWiFiNumRetries - num_tries; [results k] is the outcome of
    the call made with num_tries = k. Returns (ret, num_tries) at loop exit. *)
Fixpoint sendto_retry_loop (remaining num_tries : nat) (ret : Z)
    (results : nat -> SendResult) (call : effect) : Z * nat * list effect :=
  match remaining with
  | O => (ret, num_tries, [])
  | S remaining' =>
      let r := results num_tries in
      if (0 <=? sr_ret r) || negb (sr_errno r =? ENOMEM)
      then (sr_ret r, num_tries, [call])
      else
        let '(ret', n', effs) :=
          sendto_retry_loop remaining' (S num_tries) (sr_ret r) results call in
        (ret', n', call :: vTaskDelay kWiFiRetryWaitTimeMs :: effs)
  end.

(** Body of the client loop for slot [i] of wifi_clients_list_. *)
Definition send_to_client (sock : Z) (message : NetworkMessage) (c : ClientRecord)
    (results : nat -> SendResult) : list effect :=
  if client_active c then
    let call := sys_sendto sock (client_ip c) (msg_port message)
                  (firstn (Z.to_nat (msg_len message)) (msg_data message)) in
    let '(ret, num_tries, effs) :=
      sendto_retry_loop kWiFiNumRetries 0 0 results call in
    if ret <? 0 then effs ++ [console LOG_ERROR] else effs
  else [].

(** [for (int i = 0; i < kWiFiMaxNumClients; i++)]: the table is the list, the
    trace is tagged with the slot index. [results i k] belongs to attempt [k]
    for slot [i]. *)
Fixpoint broadcast_loop (sock : Z) (message : NetworkMessage) (i : nat)
    (clients : list ClientRecord) (results : nat -> nat -> SendResult)
  : list (nat * effect) :=
  match clients with
  | [] => []
  | c :: rest =>
      map (pair i) (send_to_client sock message c (results i))
      ++ broadcast_loop sock message (S i) rest results
  end.

(** One turn of [while (run_wifi_ap_task_)]: xQueueReceive with portMAX_DELAY
    keeps the task blocked while the queue is empty. *)
Definition WiFiAccessPointTask_iteration (sock : Z)
    (results : nat -> nat -> SendResult) (cm : CommsManager)
  : CommsManager * list (nat * effect) :=
  match xQueueReceive (wifi_ap_message_queue_ cm) with
  | None => (cm, [])
  | Some (message, q) =>
      (set_wifi_ap_message_queue_ q cm,
       broadcast_loop sock message 0 (wifi_clients_list_ cm) results)
  end.

(** ** Enqueue operations *)

Definition WiFiStationSendDecodedTransponderPacket
    (decoded_packet : DecodedTransponderPacket) (cm : CommsManager)
  : bool * CommsManager * list effect :=
  if negb (run_wifi_sta_task_ cm) then (false, cm, [console LOG_WARNING])
  else
    let '(err, q) :=
      xQueueSend (wifi_sta_decoded_transponder_packet_queue_ cm) decoded_packet in
    if err =? errQUEUE_FULL then
      (false, set_wifi_sta_decoded_transponder_packet_queue_ (xQueueReset q) cm,
       [console LOG_WARNING])
    else if negb (err =? pdTRUE) then
      (false, set_wifi_sta_decoded_transponder_packet_queue_ q cm,
       [console LOG_WARNING])
    else (true, set_wifi_sta_decoded_transponder_packet_queue_ q cm, []).

Definition WiFiAccessPointSendMessageToAllStations
    (message : NetworkMessage) (cm : CommsManager)
  : bool * CommsManager * list effect :=
  if negb (run_wifi_ap_task_ cm) then (false, cm, [console LOG_WARNING])
  else
    let '(err, q) := xQueueSend (wifi_ap_message_queue_ cm) message in
    if err =? errQUEUE_FULL then
      (false, set_wifi_ap_message_queue_ (xQueueReset q) cm, [console LOG_WARNING])
    else if negb (err =? pdTRUE) then
      (false, set_wifi_ap_message_queue_ q cm, [console LOG_WARNING])
    else (true, set_wifi_ap_message_queue_ q cm, []).

(** ** WiFiInit and WiFiDeInit *)

Record WiFiConfig := {
  wifi_ap_enabled : bool;
  wifi_sta_enabled : bool
}.

(** Results of the ESP-IDF calls made by WiFiInit. *)
Record InitEnv := {
  netif_ap_created : bool;
  netif_sta_created : bool;
  esp_netif_set_hostname_ret : Z;
  esp_wifi_init_ret : Z;
  esp_event_handler_register_ret : Z;
  esp_wifi_set_mode_ret : Z;
  esp_wifi_set_config_ap_ret : Z;
  esp_wifi_set_config_sta_ret : Z;
  esp_wifi_stop_ret : Z;
  esp_wifi_start_ret : Z
}.

(** ESP_ERROR_CHECK(x): abort unless x == ESP_OK. *)
Definition ESP_ERROR_CHECK {A} (ret : Z) (k : option A) : option A :=
  if ret =? ESP_OK then k else None.

(** xEventGroupWaitBits(group, bits, pdFALSE, pdFALSE, portMAX_DELAY): returns
    the group's value as soon as one of [bits] is set. While the caller is
    blocked the event task runs the handler on the pending [events]; with none
    left and no bit set the caller stays blocked (inner [None]). *)
Fixpoint xEventGroupWaitBits (bits : Z) (events : list (wifi_event * Z))
    (cm : CommsManager) : option (option Z * CommsManager * list effect) :=
  if negb (Z.land (wifi_event_group_ cm) bits =? 0)
  then Some (Some (wifi_event_group_ cm), cm, [])
  else
    match events with
    | [] => Some (None, cm, [])
    | (ev, connect_ret) :: rest =>
        match WiFiEventHandler ev connect_ret cm with
        | None => None
        | Some (cm1, effs1) =>
            match xEventGroupWaitBits bits rest cm1 with
            | None => None
            | Some (r, cm2, effs2) => Some (r, cm2, effs1 ++ effs2)
            end
        end
    end.

Inductive InitResult := InitBlocked | InitReturned (ok : bool).

(** [None]: the firmware aborted (assert or ESP_ERROR_CHECK). *)
Definition WiFiInit (cfg : WiFiConfig) (env : InitEnv)
    (events : list (wifi_event * Z)) (cm : CommsManager)
  : option (InitResult * CommsManager * list effect) :=
  if negb (netif_ap_created env) then None else
  if negb (netif_sta_created env) then None else
  ESP_ERROR_CHECK (esp_netif_set_hostname_ret env) (
  ESP_ERROR_CHECK (esp_wifi_init_ret env) (
  ESP_ERROR_CHECK (esp_event_handler_register_ret env) (
  let effs_ip :=
    if negb (ip_event_handler_was_initialized_ cm) then [IPInit] else [] in
  let mode :=
    if wifi_ap_enabled cfg && wifi_sta_enabled cfg then WIFI_MODE_APSTA
    else if wifi_ap_enabled cfg then WIFI_MODE_AP
    else WIFI_MODE_STA in
  ESP_ERROR_CHECK (esp_wifi_set_mode_ret env) (
  let cm1 := set_wifi_was_initialized_ true cm in
  ESP_ERROR_CHECK
    (if wifi_ap_enabled cfg then esp_wifi_set_config_ap_ret env else ESP_OK) (
  ESP_ERROR_CHECK
    (if wifi_sta_enabled cfg then esp_wifi_set_config_sta_ret env else ESP_OK) (
  let effs_setup :=
    [esp_wifi_init; esp_event_handler_register] ++ effs_ip
    ++ [esp_wifi_set_mode mode]
    ++ (if wifi_ap_enabled cfg then [esp_wifi_set_config WIFI_MODE_AP] else [])
    ++ (if wifi_sta_enabled cfg then [esp_wifi_set_config WIFI_MODE_STA] else []) in
  if negb (wifi_ap_enabled cfg) && negb (wifi_sta_enabled cfg) then
    ESP_ERROR_CHECK (esp_wifi_stop_ret env)
      (Some (InitReturned true, cm1,
             effs_setup ++ [esp_wifi_stop; console LOG_INFO]))
  else
  ESP_ERROR_CHECK (esp_wifi_start_ret env) (
  let cm2 :=
    if wifi_ap_enabled cfg then set_run_wifi_ap_task_ true cm1 else cm1 in
  let effs_ap :=
    if wifi_ap_enabled cfg
    then [console LOG_INFO; xTaskCreatePinnedToCore wifi_ap_task] else [] in
  let effs_started := effs_setup ++ [esp_wifi_start] ++ effs_ap in
  if wifi_sta_enabled cfg then
    match xEventGroupWaitBits (Z.lor WIFI_CONNECTED_BIT WIFI_FAIL_BIT) events cm2 with
    | None => None
    | Some (None, cm3, effs_wait) =>
        Some (InitBlocked, cm3, effs_started ++ [console LOG_INFO] ++ effs_wait)
    | Some (Some bits, cm3, effs_wait) =>
        let effs_waited := effs_started ++ [console LOG_INFO] ++ effs_wait in
        if negb (Z.land bits WIFI_CONNECTED_BIT =? 0) then
          Some (InitReturned true, set_run_wifi_sta_task_ true cm3,
                effs_waited
                ++ [console LOG_INFO; xTaskCreatePinnedToCore wifi_sta_task])
        else if negb (Z.land bits WIFI_FAIL_BIT =? 0) then
          Some (InitReturned false, cm3, effs_waited ++ [console LOG_ERROR])
        else
          Some (InitReturned false, cm3, effs_waited ++ [console LOG_ERROR])
    end
  else Some (InitReturned true, cm2, effs_started)))))))).

(** esp_restart() does not return: [None]. *)
Definition WiFiDeInit (cm : CommsManager) : option (bool * CommsManager) :=
  if negb (wifi_was_initialized_ cm) then Some (true, cm) else None.

(** ** WiFiStationTask (feed forwarder) *)

(** SettingsManager::ReportingProtocol: the two values the switch names; every
    other enumerator takes the default branch. *)
Inductive ReportingProtocol := kBeast | kBeastRaw | kProtocolOther (id : Z).

(** settings_manager.settings, entry [i] of the feed_* arrays. *)
Record FeedConfig := {
  feed_is_active : bool;
  feed_uris : string;
  feed_ports : Z;
  feed_protocols : ReportingProtocol;
  feed_receiver_ids : list Z
}.

(** Entry [i] of the task-local arrays feed_sock, feed_sock_is_connected and
    feed_sock_last_connect_timestamp_ms, and of the statistics arrays feed_mps
    and feed_mps_counter_. *)
Record FeedSlot := {
  feed_sock : Z;
  feed_sock_is_connected : bool;
  feed_sock_last_connect_timestamp_ms : Z;
  feed_mps : Z;
  feed_mps_counter_ : Z
}.

Definition set_feed_sock (v : Z) (s : FeedSlot) : FeedSlot :=
  {| feed_sock := v;
     feed_sock_is_connected := feed_sock_is_connected s;
     feed_sock_last_connect_timestamp_ms := feed_sock_last_connect_timestamp_ms s;
     feed_mps := feed_mps s;
     feed_mps_counter_ := feed_mps_counter_ s |}.

Definition set_feed_sock_is_connected (v : bool) (s : FeedSlot) : FeedSlot :=
  {| feed_sock := feed_sock s;
     feed_sock_is_connected := v;
     feed_sock_last_connect_timestamp_ms := feed_sock_last_connect_timestamp_ms s;
     feed_mps := feed_mps s;
     feed_mps_counter_ := feed_mps_counter_ s |}.

Definition set_feed_sock_last_connect_timestamp_ms (v : Z) (s : FeedSlot) : FeedSlot :=
  {| feed_sock := feed_sock s;
     feed_sock_is_connected := feed_sock_is_connected s;
     feed_sock_last_connect_timestamp_ms := v;
     feed_mps := feed_mps s;
     feed_mps_counter_ := feed_mps_counter_ s |}.

Definition set_feed_mps (v : Z) (s : FeedSlot) : FeedSlot :=
  {| feed_sock := feed_sock s;
     feed_sock_is_connected := feed_sock_is_connected s;
     feed_sock_last_connect_timestamp_ms := feed_sock_last_connect_timestamp_ms s;
     feed_mps := v;
     feed_mps_counter_ := feed_mps_counter_ s |}.

Definition set_feed_mps_counter_ (v : Z) (s : FeedSlot) : FeedSlot :=
  {| feed_sock := feed_sock s;
     feed_sock_is_connected := feed_sock_is_connected s;
     feed_sock_last_connect_timestamp_ms := feed_sock_last_connect_timestamp_ms s;
     feed_mps := feed_mps s;
     feed_mps_counter_ := v |}.

(** What the platform answers while one feed slot is processed. Each call is
    made at most once per slot and pass. [inet_pton text] is the address
    inet_pton(AF_INET, text, &dest_addr.sin_addr) writes when it returns 1,
    and nothing when the text is no IPv4 address: it then leaves the field as
    it is, and the code does not look at what it returns.
    [dest_addr_sin_addr] is that field of [struct sockaddr_in dest_addr] as
    declared, without initialiser: whatever the stack holds there, for
    instance the address the pass over an earlier slot has left. *)
Record FeedIO := {
  get_time_since_boot_ms_ret : Z;
  socket_ret : Z;
  getaddrinfo_err : Z;
  getaddrinfo_res : option string;
  inet_pton : string -> option Z;
  dest_addr_sin_addr : Z;
  connect_ret : Z;
  send_ret : Z
}.

Definition isalpha (c : ascii) : bool :=
  let n := nat_of_ascii c in
  (((65 <=? n) && (n <=? 90)) || ((97 <=? n) && (n <=? 122)))%nat.

Definition IsNotIPAddress (uri : string) : bool :=
  existsb isalpha (list_ascii_of_string uri).

(** [res] is the dotted address inet_ntop writes for the first result. *)
Definition ResolveURIToIP (url : string) (err : Z) (res : option string)
  : option string * list effect :=
  match (if negb (err =? 0) then None else res) with
  | None => (None, [sys_getaddrinfo url; console LOG_ERROR])
  | Some ip => (Some ip, [sys_getaddrinfo url; console LOG_INFO])
  end.

(** feed_mps_counter_[i]++ in the counter's unsigned type. *)
Definition incr_counter (c : Z) : Z := (c + 1) mod 2 ^ feed_mps_counter_bits.

(** The shared kBeast / kBeastRaw case of the protocol switch. *)
Definition send_beast (cfg : FeedConfig) (io : FeedIO)
    (decoded_packet : DecodedTransponderPacket) (s : FeedSlot)
  : FeedSlot * list effect :=
  let beast_message_buf :=
    TransponderPacketToBeastFramePrependReceiverID decoded_packet
      (feed_receiver_ids cfg) in
  let call := sys_send (feed_sock s) beast_message_buf in
  if send_ret io <? 0 then
    (set_feed_sock_is_connected false s,
     [call; console LOG_ERROR; sys_close (feed_sock s)])
  else
    (set_feed_mps_counter_ (incr_counter (feed_mps_counter_ s)) s, [call]).

(** [switch (settings_manager.settings.feed_protocols[i])]. *)
Definition report_packet (cfg : FeedConfig) (io : FeedIO)
    (decoded_packet : DecodedTransponderPacket) (s : FeedSlot)
  : FeedSlot * list effect :=
  match feed_protocols cfg with
  | kBeast =>
      if negb (IsValid decoded_packet) then (s, [])
      else send_beast cfg io decoded_packet s
  | kBeastRaw => send_beast cfg io decoded_packet s
  | kProtocolOther _ => (s, [])
  end.

(** The block under [if (!feed_sock_is_connected[i])]. The boolean tells
    whether control reaches the protocol switch ([false] is a [continue]). *)
Definition open_socket (cfg : FeedConfig) (io : FeedIO) (s : FeedSlot)
  : FeedSlot * list effect * bool :=
  let timestamp_ms := get_time_since_boot_ms_ret io in
  if sub32 timestamp_ms (feed_sock_last_connect_timestamp_ms s)
     <=? kWiFiTCPSocketReconnectIntervalMs
  then (s, [], false)
  else
    let s1 := set_feed_sock_last_connect_timestamp_ms timestamp_ms s in
    let s2 := set_feed_sock (socket_ret io) s1 in
    if feed_sock s2 <=? 0 then
      (s2, [sys_socket (feed_sock s2); console LOG_ERROR], false)
    else
      let effs_sock := [sys_socket (feed_sock s2); console LOG_INFO] in
      let '(ip, effs_dns) :=
        if IsNotIPAddress (feed_uris cfg)
        then ResolveURIToIP (feed_uris cfg) (getaddrinfo_err io) (getaddrinfo_res io)
        else (Some (feed_uris cfg), []) in
      match ip with
      | None =>
          (set_feed_sock_is_connected false s2,
           effs_sock ++ effs_dns ++ [console LOG_ERROR; sys_close (feed_sock s2)],
           false)
      | Some ip =>
          (* inet_pton(AF_INET, ip, &dest_addr.sin_addr), result unchecked *)
          let sin_addr :=
            match inet_pton io ip with
            | Some addr => addr
            | None => dest_addr_sin_addr io
            end in
          let call := sys_connect (feed_sock s2) sin_addr (feed_ports cfg) in
          if negb (connect_ret io =? 0) then
            (set_feed_sock_is_connected false s2,
             effs_sock ++ effs_dns
             ++ [call; console LOG_ERROR; sys_close (feed_sock s2)],
             false)
          else
            (set_feed_sock_is_connected true s2,
             effs_sock ++ effs_dns ++ [call; console LOG_INFO], true)
      end.

(** Body of [for (uint16_t i = 0; i < kMaxNumFeeds; i++)] for one slot. *)
Definition feed_pass (cfg : FeedConfig) (io : FeedIO)
    (decoded_packet : DecodedTransponderPacket) (s : FeedSlot)
  : FeedSlot * list effect :=
  if negb (feed_is_active cfg) then
    if feed_sock_is_connected s then
      (set_feed_sock_is_connected false s,
       [sys_close (feed_sock s); console LOG_INFO])
    else (s, [])
  else
    let '(s1, effs1, reaches_switch) :=
      if negb (feed_sock_is_connected s) then open_socket cfg io s
      else (s, [], true) in
    if reaches_switch then
      let '(s2, effs2) := report_packet cfg io decoded_packet s1 in
      (s2, effs1 ++ effs2)
    else (s1, effs1).

(** The feed loop over all slots, in index order; the trace carries the slot. *)
Fixpoint feed_loop (settings : nat -> FeedConfig) (io : nat -> FeedIO)
    (decoded_packet : DecodedTransponderPacket) (i : nat) (feeds : list FeedSlot)
  : list FeedSlot * list (nat * effect) :=
  match feeds with
  | [] => ([], [])
  | s :: rest =>
      let '(s', effs) := feed_pass (settings i) (io i) decoded_packet s in
      let '(rest', effs') := feed_loop settings io decoded_packet (S i) rest in
      (s' :: rest', map (pair i) effs ++ effs')
  end.

(** Statistics block at the top of the task loop. *)
Definition update_feed_stats (timestamp_ms : Z) (cm : CommsManager)
    (feeds : list FeedSlot) : CommsManager * list FeedSlot * list effect :=
  if kMsPerSec <? sub32 timestamp_ms (feed_mps_last_update_timestamp_ms_ cm) then
    (set_feed_mps_last_update_timestamp_ms_ timestamp_ms cm,
     map (fun s => set_feed_mps_counter_ 0 (set_feed_mps (feed_mps_counter_ s) s)) feeds,
     [console LOG_INFO])
  else (cm, feeds, []).

(** Inputs of one turn of [while (run_wifi_sta_task_)]: the settings as they
    are during that turn, the clock and the platform's answers per slot. *)
Record IterationInput := {
  it_settings : nat -> FeedConfig;
  it_timestamp_ms : Z;
  it_io : nat -> FeedIO
}.

(** One turn of the task loop. A turn in which xQueueReceive times out ends at
    the [continue], before the feed loop. *)
Definition WiFiStationTask_iteration (inp : IterationInput)
    (st : CommsManager * list FeedSlot)
  : CommsManager * list FeedSlot * list effect * list (nat * effect) :=
  let '(cm, feeds) := st in
  let '(cm1, feeds1, effs_stats) :=
    update_feed_stats (it_timestamp_ms inp) cm feeds in
  match xQueueReceive (wifi_sta_decoded_transponder_packet_queue_ cm1) with
  | None => (cm1, feeds1, effs_stats, [])
  | Some (decoded_packet, q) =>
      let '(feeds2, trace) :=
        feed_loop (it_settings inp) (it_io inp) decoded_packet 0 feeds1 in
      (set_wifi_sta_decoded_transponder_packet_queue_ q cm1, feeds2, effs_stats, trace)
  end.

(** The arrays as declared at task entry: {0}, {false}, {0}. *)
Definition WiFiStationTask_start (feeds : list FeedSlot) : list FeedSlot :=
  map (fun s =>
         set_feed_sock_last_connect_timestamp_ms 0
           (set_feed_sock_is_connected false (set_feed_sock 0 s))) feeds.

(** "Close all sockets while exiting." *)
Fixpoint WiFiStationTask_shutdown (i : nat) (feeds : list FeedSlot)
  : list FeedSlot * list (nat * effect) :=
  match feeds with
  | [] => ([], [])
  | s :: rest =>
      let '(rest', effs') := WiFiStationTask_shutdown (S i) rest in
      if feed_sock_is_connected s
      then (set_feed_sock_is_connected false s :: rest',
            (i, sys_close (feed_sock s)) :: effs')
      else (s :: rest', effs')
  end.

(** Several turns of the task loop; the per-slot traces are concatenated. *)
Fixpoint WiFiStationTask_run (inputs : list IterationInput)
    (st : CommsManager * list FeedSlot)
  : CommsManager * list FeedSlot * list (nat * effect) :=
  match inputs with
  | [] => (fst st, snd st, [])
  | inp :: rest =>
      let '(cm1, feeds1, _, trace1) := WiFiStationTask_iteration inp st in
      let '(cm2, feeds2, trace2) := WiFiStationTask_run rest (cm1, feeds1) in
      (cm2, feeds2, trace1 ++ trace2)
  end.

(** ** The component as a whole

    Every entry point of comms_wifi.cpp as a transition on the manager and the
    forwarder's slots. [None]: the firmware aborted or restarted. *)
Inductive operation :=
| op_WiFiEventHandler (ev : wifi_event) (connect_ret : Z)
| op_WiFiInit (cfg : WiFiConfig) (env : InitEnv) (events : list (wifi_event * Z))
| op_WiFiDeInit
| op_WiFiStationSendDecodedTransponderPacket (p : DecodedTransponderPacket)
| op_WiFiAccessPointSendMessageToAllStations (m : NetworkMessage)
| op_WiFiAccessPointTask_iteration (sock : Z) (results : nat -> nat -> SendResult)
| op_WiFiStationTask_start
| op_WiFiStationTask_iteration (inp : IterationInput)
| op_WiFiStationTask_shutdown.

Definition step (op : operation) (st : CommsManager * list FeedSlot)
  : option (CommsManager * list FeedSlot) :=
  let '(cm, feeds) := st in
  match op with
  | op_WiFiEventHandler ev connect_ret =>
      match WiFiEventHandler ev connect_ret cm with
      | None => None
      | Some (cm', _) => Some (cm', feeds)
      end
  | op_WiFiInit cfg env events =>
      match WiFiInit cfg env events cm with
      | None => None
      | Some (_, cm', _) => Some (cm', feeds)
      end
  | op_WiFiDeInit =>
      match WiFiDeInit cm with
      | None => None
      | Some (_, cm') => Some (cm', feeds)
      end
  | op_WiFiStationSendDecodedTransponderPacket p =>
      let '(_, cm', _) := WiFiStationSendDecodedTransponderPacket p cm in
      Some (cm', feeds)
  | op_WiFiAccessPointSendMessageToAllStations m =>
      let '(_, cm', _) := WiFiAccessPointSendMessageToAllStations m cm in
      Some (cm', feeds)
  | op_WiFiAccessPointTask_iteration sock results =>
      (* while (run_wifi_ap_task_) *)
      if run_wifi_ap_task_ cm
      then Some (fst (WiFiAccessPointTask_iteration sock results cm), feeds)
      else Some (cm, feeds)
  | op_WiFiStationTask_start =>
      (* the task polls wifi_sta_has_ip_ before it declares its arrays *)
      if wifi_sta_has_ip_ cm then Some (cm, WiFiStationTask_start feeds)
      else Some (cm, feeds)
  | op_WiFiStationTask_iteration inp =>
      (* while (run_wifi_sta_task_) *)
      if run_wifi_sta_task_ cm then
        let '(cm', feeds', _, _) := WiFiStationTask_iteration inp (cm, feeds) in
        Some (cm', feeds')
      else Some (cm, feeds)
  | op_WiFiStationTask_shutdown =>
      Some (cm, fst (WiFiStationTask_shutdown 0 feeds))
  end.

Fixpoint run_operations (ops : list operation) (st : CommsManager * list FeedSlot)
  : option (CommsManager * list FeedSlot) :=
  match ops with
  | [] => Some st
  | op :: rest =>
      match step op st with
      | None => None
      | Some st' => run_operations rest st'
      end
  end.

(** Modelled from the spec: the members are declared and initialised in
    comms.hh. Before initialization the connection state is "Uninitialized":
    no signal is set, no task has been started (the enqueue guards speak of
    "Task not started yet") and the freshly created queues hold nothing.
    [s_retry_num] starts at 0, its initialiser in WiFiEventHandler. *)
Definition boot_state (ap_queue_len sta_queue_len : nat)
    (clients : list ClientRecord) : CommsManager :=
  {| s_retry_num := 0;
     wifi_event_group_ := 0;
     wifi_sta_has_ip_ := false;
     wifi_clients_list_ := clients;
     wifi_was_initialized_ := false;
     ip_event_handler_was_initialized_ := false;
     run_wifi_ap_task_ := false;
     run_wifi_sta_task_ := false;
     wifi_ap_message_queue_ := {| q_items := []; q_capacity := ap_queue_len |};
     wifi_sta_decoded_transponder_packet_queue_ :=
       {| q_items := []; q_capacity := sta_queue_len |};
     feed_mps_last_update_timestamp_ms_ := 0 |}.

End Model.

(** ** Observations on traces *)

Definition is_esp_wifi_connect (e : effect) : bool :=
  match e with esp_wifi_connect => true | _ => false end.

Definition is_fail_signal (e : effect) : bool :=
  match e with
  | xEventGroupSetBits bits => negb (Z.land bits WIFI_FAIL_BIT =? 0)
  | _ => false
  end.

Definition is_sys_sendto (e : effect) : bool :=
  match e with sys_sendto _ _ _ _ => true | _ => false end.

Definition is_sys_send (e : effect) : bool :=
  match e with sys_send _ _ => true | _ => false end.

Definition is_sys_socket (e : effect) : bool :=
  match e with sys_socket _ => true | _ => false end.

Definition is_task_create (t : task_name) (e : effect) : bool :=
  match e, t with
  | xTaskCreatePinnedToCore wifi_ap_task, wifi_ap_task => true
  | xTaskCreatePinnedToCore wifi_sta_task, wifi_sta_task => true
  | _, _ => false
  end.

(** The calls of a tagged trace that belong to slot [i]. *)
Definition slot_trace (i : nat) (trace : list (nat * effect)) : list effect :=
  map snd (filter (fun p => Nat.eqb (fst p) i) trace).

(** Descriptors the platform holds open after a trace: socket() hands out a
    descriptor unless it returns a negative value, close() gives it back. *)
Fixpoint sockets_open (effs : list effect) (open : list Z) : list Z :=
  match effs with
  | [] => open
  | sys_socket fd :: rest =>
      sockets_open rest (if 0 <=? fd then fd :: open else open)
  | sys_close fd :: rest => sockets_open rest (remove Z.eq_dec fd open)
  | _ :: rest => sockets_open rest open
  end.

Definition is_sta_disconnected (ev : wifi_event) : bool :=
  match ev with WIFI_EVENT_STA_DISCONNECTED _ => true | _ => false end.

(** Calls that matter for the retry policy: reconnects and the failure bit. *)
Definition retry_or_fail (e : effect) : bool :=
  is_esp_wifi_connect e || is_fail_signal e.

(** BIT1 of the event group. *)
Definition fail_bit_set {codec : BeastCodec} (cm : CommsManager) : bool :=
  Z.testbit (wifi_event_group_ cm) 1.

(** Number of times the terminal failure signal is raised in a trace. *)
Definition fail_emissions (effs : list effect) : nat :=
  List.length (filter is_fail_signal effs).

(** A sendto() that failed with errno == ENOMEM. *)
Definition enomem_failure (r : SendResult) : bool :=
  (sr_ret r <? 0) && (sr_errno r =? ENOMEM).

(** Number of sendto() calls in a trace. *)
Definition sendto_count (effs : list effect) : nat :=
  List.length (filter is_sys_sendto effs).

(** Consecutive clock readings more than the reconnect interval apart, in the
    uint32_t arithmetic of the code. *)
Fixpoint spaced (times : list Z) : Prop :=
  match times with
  | a :: (b :: _) as rest =>
      kWiFiTCPSocketReconnectIntervalMs < sub32 b a /\ spaced rest
  | _ => True
  end.

(** Clock readings at which slot [i] made a connection attempt (created a
    socket) during a run of the task loop. *)
Fixpoint connect_attempt_times {codec : BeastCodec} (i : nat)
    (inputs : list IterationInput) (st : CommsManager * list FeedSlot) : list Z :=
  match inputs with
  | [] => []
  | inp :: rest =>
      let '(cm1, feeds1, _, trace) := WiFiStationTask_iteration inp st in
      (if existsb is_sys_socket (slot_trace i trace)
       then [get_time_since_boot_ms_ret (it_io inp i)] else [])
      ++ connect_attempt_times i rest (cm1, feeds1)
  end.

(** The descriptors a slot holds open are exactly its connected socket. *)
Definition socket_accounted (s : FeedSlot) (open : list Z) : Prop :=
  open = if feed_sock_is_connected s then [feed_sock s] else [].

(** The connection part of a slot (the three task-local arrays). *)
Definition connection_of (s : FeedSlot) : Z * bool * Z :=
  (feed_sock s, feed_sock_is_connected s, feed_sock_last_connect_timestamp_ms s).

(** Every send() in the trace comes after a socket() of the same trace
    ([seen]: a socket() was already observed). *)
Fixpoint sends_follow_socket (seen : bool) (effs : list effect) : bool :=
  match effs with
  | [] => true
  | sys_socket _ :: rest => sends_follow_socket true rest
  | sys_send _ _ :: rest => seen && sends_follow_socket seen rest
  | _ :: rest => sends_follow_socket seen rest
  end.

(** The two signals of the event group, as WiFiInit reads them. *)
Definition connected_signal (bits : Z) : bool :=
  negb (Z.land bits WIFI_CONNECTED_BIT =? 0).

Definition failed_signal (bits : Z) : bool :=
  negb (Z.land bits WIFI_FAIL_BIT =? 0).

Definition launches (t : task_name) (effs : list effect) : bool :=
  existsb (is_task_create t) effs.

(** What the handler and WiFiInit leave alone: the queues; and the task flags
    are only ever raised. *)
Definition queues_kept {codec : BeastCodec} (cm cm' : CommsManager) : Prop :=
  wifi_ap_message_queue_ cm' = wifi_ap_message_queue_ cm
  /\ wifi_sta_decoded_transponder_packet_queue_ cm'
     = wifi_sta_decoded_transponder_packet_queue_ cm
  /\ (run_wifi_ap_task_ cm = true -> run_wifi_ap_task_ cm' = true)
  /\ (run_wifi_sta_task_ cm = true -> run_wifi_sta_task_ cm' = true).

(** ** The hardware tests of the inter-chip register transport
       (test_spi_coprocessor.cc) *)

Module ObjectDictionary.

Inductive Address := kAddrScratch | kAddrSettingsStruct.

End ObjectDictionary.

Module SPICoprocessor.
Import ObjectDictionary.

(** The objects the tests pass: the uint32_t scratch word and the
    SettingsManager::Settings block, seen as its bytes. *)
Inductive Value := U32 (v : Z) | Block (bytes : list Z).

(** SPICoprocessor::Write and SPICoprocessor::Read are declared in
    spi_coprocessor.hh and defined outside the sources at hand; the tests
    call them on the global [esp32]. They are taken as parameters: any pair of
    calls over some state of the link. Write(address, object, require_ack)
    returns success; Read(address, object) fills the object and returns
    success. *)
Record Transport := {
  link : Type;
  Write : Address -> Value -> bool -> link -> bool * link;
  Read : Address -> Value -> link -> Value * bool * link
}.

(** The contract the tests probe: a successful Write followed directly by a
    successful Read of the same address returns the written value. *)
Definition read_back (T : Transport) : Prop :=
  forall a v require_ack object l l1 v' l2,
    Write T a v require_ack l = (true, l1) ->
    Read T a object l1 = (v', true, l2) ->
    v' = v.

(** Outcome of a utest case: ASSERT_* ends the case, EXPECT_* records a
    failure. *)
Inductive TestOutcome := test_ok | test_assert_failed | test_expect_failed.

Definition value_eqb (x y : Value) : bool :=
  match x, y with
  | U32 a, U32 b => a =? b
  | Block a, Block b => if list_eq_dec Z.eq_dec a b then true else false
  | _, _ => false
  end.

(** UTEST(SpiCoprocessor, WriteReadScratchNoAck) and its WithAck twin. *)
Definition WriteReadScratch (T : Transport) (require_ack : bool) (l : link T)
  : TestOutcome :=
  let scratch_out := U32 3735928559 in
  let '(ok_w, l1) := Write T kAddrScratch scratch_out require_ack l in
  if negb ok_w then test_assert_failed else
  let '(scratch_in, ok_r, _) := Read T kAddrScratch (U32 0) l1 in
  if negb ok_r then test_assert_failed else
  if value_eqb scratch_out scratch_in then test_ok else test_expect_failed.

(** uint16_t arithmetic of the loop index. *)
Definition u16 (x : Z) : Z := x mod 2 ^ 16.

(** [for (uint16_t i = 0; i < n; i++) body]: [n] is a size_t, the index is
    promoted for the comparison and wraps at 65536 when incremented. [None]:
    the fuel ran out before the loop ended. *)
Fixpoint for_uint16 {A} (fuel : nat) (i n : Z) (body : Z -> A -> A) (acc : A)
  : option A :=
  if i <? n then
    match fuel with
    | O => None
    | S fuel' => for_uint16 fuel' (u16 (i + 1)) n body (body i acc)
    end
  else Some acc.

(** [((uint8_t * )&object)[i] = b]. The loops only write below sizeof(object);
    a write outside the object is left out of the model. *)
Definition store_byte (i : nat) (b : Z) (object : list Z) : list Z :=
  if (i <? List.length object)%nat
  then firstn i object ++ b :: skipn (S i) object
  else object.

(** [((uint8_t * )&settings_out)[i] = i % UINT8_MAX]. *)
Definition fill_byte (i : Z) (settings_out : list Z) : list Z :=
  store_byte (Z.to_nat i) (i mod 255) settings_out.

(** [EXPECT_EQ(i % UINT8_MAX, ((uint8_t * )&settings_in_modified)[i])]; [ok]
    tells whether every expectation so far held. *)
Definition expect_byte (settings_in_modified : Value) (i : Z) (ok : bool) : bool :=
  ok
  && match settings_in_modified with
     | Block bytes =>
         match nth_error bytes (Z.to_nat i) with
         | Some b => i mod 255 =? b
         | None => false
         end
     | U32 _ => false
     end.

(** What the fill loop leaves in an object of [sizeof_Settings] bytes when it
    ends. *)
Definition settings_pattern (sizeof_Settings : nat) : list Z :=
  map (fun i => Z.of_nat i mod 255) (seq 0 sizeof_Settings).

(** UTEST(SPICoprocessor, ReadWriteReadRewriteRereadBigNoAck) and its WithAck
    twin. [settings_out] and [settings_in_modified] are those objects as
    declared, before the loop and the Read that fill them. [None]: the fuel
    ran out inside one of the two loops. *)
Definition ReadWriteReadRewriteRereadBig (T : Transport) (sizeof_Settings : nat)
    (settings_out settings_in_modified : list Z) (require_ack : bool)
    (fuel : nat) (l : link T) : option TestOutcome :=
  let n := Z.of_nat sizeof_Settings in
  let settings_in_original := Block (repeat 0 sizeof_Settings) in
  let '(settings_in_original, ok1, l1) :=
    Read T kAddrSettingsStruct settings_in_original l in
  if negb ok1 then Some test_assert_failed else
  match for_uint16 fuel 0 n fill_byte settings_out with
  | None => None
  | Some settings_out =>
      let '(ok2, l2) := Write T kAddrSettingsStruct (Block settings_out) require_ack l1 in
      if negb ok2 then Some test_assert_failed else
      let '(settings_in_modified, ok3, l3) :=
        Read T kAddrSettingsStruct (Block settings_in_modified) l2 in
      if negb ok3 then Some test_assert_failed else
      match for_uint16 fuel 0 n (expect_byte settings_in_modified) true with
      | None => None
      | Some expectations_held =>
          let '(ok4, _) :=
            Write T kAddrSettingsStruct settings_in_original require_ack l3 in
          if negb ok4 then Some test_assert_failed else
          Some (if expectations_held then test_ok else test_expect_failed)
      end
  end.

End SPICoprocessor.

(** All ESP-IDF calls of WiFiInit succeed. *)
Definition env_ok (env : InitEnv) : Prop :=
  netif_ap_created env = true /\ netif_sta_created env = true
  /\ esp_netif_set_hostname_ret env = ESP_OK /\ esp_wifi_init_ret env = ESP_OK
  /\ esp_event_handler_register_ret env = ESP_OK
  /\ esp_wifi_set_mode_ret env = ESP_OK
  /\ esp_wifi_set_config_ap_ret env = ESP_OK
  /\ esp_wifi_set_config_sta_ret env = ESP_OK
  /\ esp_wifi_stop_ret env = ESP_OK /\ esp_wifi_start_ret env = ESP_OK.

(** The manager as WiFiInit has it when it starts to wait. *)
Definition state_at_wait {codec : BeastCodec} (cfg : WiFiConfig) (cm : CommsManager)
  : CommsManager :=
  if wifi_ap_enabled cfg
  then set_run_wifi_ap_task_ true (set_wifi_was_initialized_ true cm)
  else set_wifi_was_initialized_ true cm.

(** ** Concrete data, used to run the model on examples *)

Definition example_codec : BeastCodec := {|
  DecodedTransponderPacket := bool * list Z;
  IsValid := fst;
  TransponderPacketToBeastFramePrependReceiverID :=
    fun p receiver_id => receiver_id ++ [26; 50] ++ snd p;
  feed_mps_counter_bits := 16
|}.

Module Examples.

#[local] Existing Instance example_codec.

Definition booted : @CommsManager example_codec :=
  @boot_state example_codec 4 4
    [{| client_mac := [2; 0; 0; 0; 0; 1]; client_ip := 0; client_active := false |}].

Definition disconnects (n : nat) : list (wifi_event * Z) :=
  repeat (WIFI_EVENT_STA_DISCONNECTED 201, ESP_OK) n.

Definition all_ok : InitEnv :=
  {| netif_ap_created := true; netif_sta_created := true;
     esp_netif_set_hostname_ret := 0; esp_wifi_init_ret := 0;
     esp_event_handler_register_ret := 0; esp_wifi_set_mode_ret := 0;
     esp_wifi_set_config_ap_ret := 0; esp_wifi_set_config_sta_ret := 0;
     esp_wifi_stop_ret := 0; esp_wifi_start_ret := 0 |}.

Definition station_only : WiFiConfig :=
  {| wifi_ap_enabled := false; wifi_sta_enabled := true |}.

Definition access_point_only : WiFiConfig :=
  {| wifi_ap_enabled := true; wifi_sta_enabled := false |}.

Definition radio_off : WiFiConfig :=
  {| wifi_ap_enabled := false; wifi_sta_enabled := false |}.

Definition message : NetworkMessage :=
  {| msg_data := [1; 2; 3]; msg_len := 3; msg_port := 6969 |}.

(** Both tasks running, both queues (of length 1) full. *)
Definition queues_full : @CommsManager example_codec :=
  {| s_retry_num := 0;
     wifi_event_group_ := 1;
     wifi_sta_has_ip_ := true;
     wifi_clients_list_ :=
       [{| client_mac := [2; 0; 0; 0; 0; 1]; client_ip := 17; client_active := true |};
        {| client_mac := [2; 0; 0; 0; 0; 2]; client_ip := 18; client_active := false |};
        {| client_mac := [2; 0; 0; 0; 0; 3]; client_ip := 19; client_active := true |}];
     wifi_was_initialized_ := true;
     ip_event_handler_was_initialized_ := true;
     run_wifi_ap_task_ := true;
     run_wifi_sta_task_ := true;
     wifi_ap_message_queue_ := {| q_items := [message]; q_capacity := 1 |};
     wifi_sta_decoded_transponder_packet_queue_ :=
       {| q_items := [(true, [141; 72])]; q_capacity := 1 |};
     feed_mps_last_update_timestamp_ms_ := 0 |}.

(** The same manager, queues as full, with neither task running. *)
Definition tasks_stopped : @CommsManager example_codec :=
  @set_run_wifi_ap_task_ example_codec false
    (@set_run_wifi_sta_task_ example_codec false queues_full).

(** The same manager with nothing left in the packet queue. *)
Definition no_packets : @CommsManager example_codec :=
  @set_wifi_sta_decoded_transponder_packet_queue_ example_codec
    {| q_items := []; q_capacity := 1 |} queues_full.

(** First client: ENOMEM twice, then success. Second active client (slot 2):
    connection refused at once. *)
Definition sendto_results (i k : nat) : SendResult :=
  match i, k with
  | O, O => {| sr_ret := -1; sr_errno := 12 |}
  | O, S O => {| sr_ret := -1; sr_errno := 12 |}
  | O, _ => {| sr_ret := 3; sr_errno := 0 |}
  | _, _ => {| sr_ret := -1; sr_errno := 111 |}
  end.

Definition beast_feed (active : bool) : FeedConfig :=
  {| feed_is_active := active; feed_uris := "192.168.1.7"; feed_ports := 30004;
     feed_protocols := kBeast; feed_receiver_ids := [190; 239] |}.

Definition connected_slot : FeedSlot :=
  {| feed_sock := 54; feed_sock_is_connected := true;
     feed_sock_last_connect_timestamp_ms := 6000;
     feed_mps := 0; feed_mps_counter_ := 7 |}.

(** inet_pton on the one address the examples use: 192.168.1.7 as s_addr. *)
Definition example_inet_pton (text : string) : option Z :=
  if String.eqb text "192.168.1.7" then Some 117549248 else None.

Definition io_at (now send_result : Z) : FeedIO :=
  {| get_time_since_boot_ms_ret := now; socket_ret := 55;
     getaddrinfo_err := 0; getaddrinfo_res := None;
     inet_pton := example_inet_pton; dest_addr_sin_addr := 0;
     connect_ret := 0; send_ret := send_result |}.

Definition turn (active : bool) (now send_result : Z) : IterationInput :=
  {| it_settings := fun _ => beast_feed active;
     it_timestamp_ms := now;
     it_io := fun _ => io_at now send_result |}.

(** Retries exhausted and the failure bit set, as after six disconnects. *)
Definition exhausted : @CommsManager example_codec :=
  set_s_retry_num 5 (set_wifi_event_group_ 2 booted).

Definition valid_packet : @DecodedTransponderPacket example_codec := (true, [141; 72]).

End Examples.

(** ** Further observations and the remaining functions of comms_wifi.cpp *)

Definition is_sys_connect (e : effect) : bool :=
  match e with sys_connect _ _ _ => true | _ => false end.

Definition is_sys_close (e : effect) : bool :=
  match e with sys_close _ => true | _ => false end.

Definition is_sys_getaddrinfo (e : effect) : bool :=
  match e with sys_getaddrinfo _ => true | _ => false end.

Definition is_error_log (e : effect) : bool :=
  match e with console LOG_ERROR => true | _ => false end.

Definition is_vTaskDelay (e : effect) : bool :=
  match e with vTaskDelay _ => true | _ => false end.

(** The handler calls esp_wifi_connect() for this event in this state. *)
Definition calls_esp_wifi_connect {codec : BeastCodec} (ev : wifi_event)
    (cm : CommsManager) : bool :=
  match ev with
  | WIFI_EVENT_STA_START => true
  | WIFI_EVENT_STA_DISCONNECTED _ =>
      s_retry_num cm <? kWiFiStaMaxNumReconnectAttempts
  | _ => false
  end.

(** The ESP-IDF calls whose result WiFiInit checks under a configuration. *)
Definition env_ok_for (cfg : WiFiConfig) (env : InitEnv) : Prop :=
  netif_ap_created env = true /\ netif_sta_created env = true
  /\ esp_netif_set_hostname_ret env = ESP_OK /\ esp_wifi_init_ret env = ESP_OK
  /\ esp_event_handler_register_ret env = ESP_OK
  /\ esp_wifi_set_mode_ret env = ESP_OK
  /\ (wifi_ap_enabled cfg = true -> esp_wifi_set_config_ap_ret env = ESP_OK)
  /\ (wifi_sta_enabled cfg = true -> esp_wifi_set_config_sta_ret env = ESP_OK)
  /\ (if wifi_ap_enabled cfg || wifi_sta_enabled cfg
      then esp_wifi_start_ret env = ESP_OK
      else esp_wifi_stop_ret env = ESP_OK).

(** A queue holds no more items than its length allows. *)
Definition queue_bounded {A} (q : Queue A) : Prop :=
  (List.length (q_items q) <= q_capacity q)%nat.

(** An ASCII letter, as isalpha() sees it in the C locale. *)
Definition ascii_letter (c : ascii) : Prop :=
  (65 <= nat_of_ascii c <= 90 \/ 97 <= nat_of_ascii c <= 122)%nat.

(** What no entry point of comms_wifi.cpp undoes: the failure bit stays, the
    IP flag is never raised here, an initialized manager stays initialized,
    the IP handler flag is not written, and the queues keep their length and
    never hold more than it. *)
Definition manager_kept {codec : BeastCodec} (cm cm' : CommsManager) : Prop :=
  (fail_bit_set cm = true -> fail_bit_set cm' = true)
  /\ (wifi_sta_has_ip_ cm' = true -> wifi_sta_has_ip_ cm = true)
  /\ (wifi_was_initialized_ cm = true -> wifi_was_initialized_ cm' = true)
  /\ ip_event_handler_was_initialized_ cm' = ip_event_handler_was_initialized_ cm
  /\ q_capacity (wifi_ap_message_queue_ cm') = q_capacity (wifi_ap_message_queue_ cm)
  /\ q_capacity (wifi_sta_decoded_transponder_packet_queue_ cm')
     = q_capacity (wifi_sta_decoded_transponder_packet_queue_ cm)
  /\ (queue_bounded (wifi_ap_message_queue_ cm) ->
      queue_bounded (wifi_ap_message_queue_ cm'))
  /\ (queue_bounded (wifi_sta_decoded_transponder_packet_queue_ cm) ->
      queue_bounded (wifi_sta_decoded_transponder_packet_queue_ cm')).

(** getaddrinfo() failed or returned no result. *)
Definition lookup_fails (io : FeedIO) : bool :=
  negb (getaddrinfo_err io =? 0)
  || match getaddrinfo_res io with None => true | Some _ => false end.

(** Every close(), connect() and send() of a trace is made on a descriptor
    that is open at that point, given the descriptors open before it. *)
Fixpoint descriptors_used_open (effs : list effect) (open : list Z) : bool :=
  match effs with
  | [] => true
  | sys_socket fd :: rest =>
      descriptors_used_open rest (if 0 <=? fd then fd :: open else open)
  | sys_close fd :: rest =>
      existsb (Z.eqb fd) open
      && descriptors_used_open rest (remove Z.eq_dec fd open)
  | sys_connect fd _ _ :: rest =>
      existsb (Z.eqb fd) open && descriptors_used_open rest open
  | sys_send fd _ :: rest =>
      existsb (Z.eqb fd) open && descriptors_used_open rest open
  | _ :: rest => descriptors_used_open rest open
  end.

(** wifi_auth_mode_t of esp_wifi_types.h: the enumerators the switch names;
    every other value takes the default branch. *)
Inductive wifi_auth_mode_t :=
| WIFI_AUTH_OPEN
| WIFI_AUTH_WEP
| WIFI_AUTH_WPA_PSK
| WIFI_AUTH_WPA2_PSK
| WIFI_AUTH_WPA_WPA2_PSK
| WIFI_AUTH_WPA3_PSK
| WIFI_AUTH_WPA2_WPA3_PSK
| WIFI_AUTH_OTHER (value : Z).

Definition get_auth_mode_name (auth_mode : wifi_auth_mode_t) : string :=
  match auth_mode with
  | WIFI_AUTH_OPEN => "OPEN"
  | WIFI_AUTH_WEP => "WEP"
  | WIFI_AUTH_WPA_PSK => "WPA_PSK"
  | WIFI_AUTH_WPA2_PSK => "WPA2_PSK"
  | WIFI_AUTH_WPA_WPA2_PSK => "WPA_WPA2_PSK"
  | WIFI_AUTH_WPA3_PSK => "WPA3_PSK"
  | WIFI_AUTH_WPA2_WPA3_PSK => "WPA2_WPA3_PSK"
  | WIFI_AUTH_OTHER _ => "UNKNOWN"
  end.

(** *** WiFiAccessPointTask from entry to exit *)

(** Calls of the task outside the fan-out: setsockopt(SO_RCVTIMEO, 10 s) has
    no counterpart among the effects of the other functions. *)
Inductive ap_task_call :=
| ap_call (e : effect)
| ap_setsockopt_rcvtimeo (seconds : Z)
| ap_sent (slot : nat) (e : effect).

(** Turns of [while (run_wifi_ap_task_)], one per entry of [turns]. *)
Fixpoint WiFiAccessPointTask_loop {codec : BeastCodec} (sock : Z)
    (turns : list (nat -> nat -> SendResult)) (cm : CommsManager)
  : CommsManager * list ap_task_call :=
  match turns with
  | [] => (cm, [])
  | results :: rest =>
      let '(cm1, trace1) := WiFiAccessPointTask_iteration sock results cm in
      let '(cm2, trace2) := WiFiAccessPointTask_loop sock rest cm1 in
      (cm2, map (fun p => ap_sent (fst p) (snd p)) trace1 ++ trace2)
  end.

(** The task: create the UDP socket (return at once when that fails), set the
    receive timeout, loop while run_wifi_ap_task_ is set, then shutdown and
    close the socket. The task does not write the flag; here it is found set
    for the given [turns] and clear afterwards, or clear from the start. *)
Definition WiFiAccessPointTask {codec : BeastCodec} (socket_result : Z)
    (turns : list (nat -> nat -> SendResult)) (cm : CommsManager)
  : CommsManager * list ap_task_call :=
  let sock := socket_result in
  if sock <? 0 then (cm, [ap_call (sys_socket sock); ap_call (console LOG_ERROR)])
  else
    let '(cm', trace) :=
      if run_wifi_ap_task_ cm then WiFiAccessPointTask_loop sock turns cm
      else (cm, []) in
    (cm',
     [ap_call (sys_socket sock); ap_setsockopt_rcvtimeo 10] ++ trace
     ++ [ap_call (sys_shutdown sock); ap_call (sys_close sock)]).

(** The socket calls of the task, for [sockets_open]. *)
Definition ap_socket_calls (trace : list ap_task_call) : list effect :=
  flat_map (fun c => match c with ap_call e => [e] | _ => [] end) trace.

Definition ap_fanout_calls (trace : list ap_task_call) : list effect :=
  flat_map (fun c => match c with ap_sent _ e => [e] | _ => [] end) trace.

(** *** More concrete data *)

Module MoreExamples.
Import Examples.

#[local] Existing Instance example_codec.

(** A transport that keeps, per address, the last object written with the
    address's type, and reads it back. *)
Definition storing_transport : SPICoprocessor.Transport :=
  {| SPICoprocessor.link := (Z * list Z)%type;
     SPICoprocessor.Write := fun a v _ r =>
       match a, v with
       | ObjectDictionary.kAddrScratch, SPICoprocessor.U32 x => (true, (x, snd r))
       | ObjectDictionary.kAddrSettingsStruct, SPICoprocessor.Block bytes =>
           (true, (fst r, bytes))
       | _, _ => (false, r)
       end;
     SPICoprocessor.Read := fun a _ r =>
       (match a with
        | ObjectDictionary.kAddrScratch => SPICoprocessor.U32 (fst r)
        | ObjectDictionary.kAddrSettingsStruct => SPICoprocessor.Block (snd r)
        end, true, r) |}.

(** A transport that reports every write as done and forgets it. *)
Definition forgetful_transport : SPICoprocessor.Transport :=
  {| SPICoprocessor.link := unit;
     SPICoprocessor.Write := fun _ _ _ l => (true, l);
     SPICoprocessor.Read := fun a _ l => (SPICoprocessor.U32 0, true, l) |}.

Definition registers : Z * list Z := (0, [0; 0; 0; 0]).

(** The access point running, one message queued, room for one more. *)
Definition ap_room : @CommsManager example_codec :=
  @set_wifi_ap_message_queue_ example_codec
    {| q_items := [message]; q_capacity := 2 |} queues_full.

Definition second_message : NetworkMessage :=
  {| msg_data := [9; 8]; msg_len := 2; msg_port := 6969 |}.

Definition hostname_feed : FeedConfig :=
  {| feed_is_active := true; feed_uris := "feed.example.org"; feed_ports := 30004;
     feed_protocols := kBeast; feed_receiver_ids := [190; 239] |}.

Definition raw_feed : FeedConfig :=
  {| feed_is_active := true; feed_uris := "192.168.1.7"; feed_ports := 30004;
     feed_protocols := kBeastRaw; feed_receiver_ids := [190; 239] |}.

Definition unsupported_feed : FeedConfig :=
  {| feed_is_active := true; feed_uris := "192.168.1.7"; feed_ports := 30004;
     feed_protocols := kProtocolOther 0; feed_receiver_ids := [190; 239] |}.

Definition lookup_failure (now : Z) : FeedIO :=
  {| get_time_since_boot_ms_ret := now; socket_ret := 55;
     getaddrinfo_err := 202; getaddrinfo_res := None;
     inet_pton := example_inet_pton; dest_addr_sin_addr := 0;
     connect_ret := 0; send_ret := 9 |}.

Definition hostname_turn (now : Z) : IterationInput :=
  {| it_settings := fun _ => hostname_feed;
     it_timestamp_ms := now;
     it_io := fun _ => lookup_failure now |}.

Definition fresh_slot : FeedSlot :=
  {| feed_sock := 0; feed_sock_is_connected := false;
     feed_sock_last_connect_timestamp_ms := 0; feed_mps := 0; feed_mps_counter_ := 0 |}.

Definition invalid_packet : @DecodedTransponderPacket example_codec := (false, [1]).

(** Packets waiting for two turns. *)
Definition two_packets : @CommsManager example_codec :=
  @set_wifi_sta_decoded_transponder_packet_queue_ example_codec
    {| q_items := [valid_packet; valid_packet]; q_capacity := 2 |} queues_full.

End MoreExamples.

(** ** Proof tools for the case analysis of one feed pass *)

Ltac feed_step :=
  match goal with
  | |- context [if ?c then _ else _] =>
      lazymatch type of c with bool => destruct c eqn:? end
  | |- context [match ?c with _ => _ end] =>
      lazymatch type of c with
      | option _ => destruct c eqn:?
      | ReportingProtocol => destruct c eqn:?
      end
  end.

Ltac feed_cases :=
  unfold feed_pass, open_socket, report_packet, send_beast, ResolveURIToIP;
  repeat first [progress cbn -[sub32 incr_counter Z.ltb Z.leb Z.eqb IsNotIPAddress]
               | feed_step].

Ltac leb_to_prop :=
  repeat match goal with
         | H : (_ <=? _) = true |- _ => apply Z.leb_le in H
         | H : (_ <=? _) = false |- _ => apply Z.leb_gt in H
         end.

Ltac sock_simpl :=
  repeat (cbn [sockets_open remove firstn List.length];
          match goal with
          | |- context [0 <=? ?x] => destruct (Z.leb_spec 0 x); try lia
          | |- context [Z.eq_dec ?a ?b] => destruct (Z.eq_dec a b); try congruence
          end);
  cbn [sockets_open remove firstn List.length]; try reflexivity; try lia.

(** * Properties *)

Section HandlerFacts.
Context {codec : BeastCodec}.

Lemma lor_fail_bit (g : Z) : Z.testbit (Z.lor g WIFI_FAIL_BIT) 1 = true.
Proof.
  rewrite Z.lor_spec. unfold WIFI_FAIL_BIT.
  replace (Z.testbit 2 1) with true by reflexivity.
  apply orb_true_r.
Qed.

Lemma ldiff_connected_keeps_fail (g : Z) :
  Z.testbit (Z.ldiff g WIFI_CONNECTED_BIT) 1 = Z.testbit g 1.
Proof.
  rewrite Z.ldiff_spec. unfold WIFI_CONNECTED_BIT.
  replace (Z.testbit 1 1) with false by reflexivity.
  apply andb_true_r.
Qed.

Lemma lor_connected_keeps_fail (g : Z) :
  Z.testbit (Z.lor g WIFI_CONNECTED_BIT) 1 = Z.testbit g 1.
Proof.
  rewrite Z.lor_spec. unfold WIFI_CONNECTED_BIT.
  replace (Z.testbit 1 1) with false by reflexivity.
  apply orb_false_r.
Qed.

(** The retry branch of a station-disconnected event. *)
Lemma sta_disconnected_retry (reason connect_ret : Z) (cm : CommsManager) :
  s_retry_num cm < kWiFiStaMaxNumReconnectAttempts ->
  WiFiEventHandler (WIFI_EVENT_STA_DISCONNECTED reason) connect_ret cm =
  if connect_ret =? ESP_OK then
    Some (set_s_retry_num (s_retry_num cm + 1)
            (set_wifi_sta_has_ip_ false
               (set_wifi_event_group_
                  (Z.ldiff (wifi_event_group_ cm) WIFI_CONNECTED_BIT) cm)),
          [console LOG_WARNING; xEventGroupClearBits WIFI_CONNECTED_BIT;
           esp_wifi_connect; console LOG_INFO])
  else None.
Proof.
  intros Hlt. unfold WiFiEventHandler. cbn [s_retry_num set_wifi_sta_has_ip_ set_wifi_event_group_].
  destruct (Z.ltb_spec (s_retry_num cm) kWiFiStaMaxNumReconnectAttempts); [reflexivity | lia].
Qed.

(** The terminal branch of a station-disconnected event. *)
Lemma sta_disconnected_terminal (reason connect_ret : Z) (cm : CommsManager) :
  kWiFiStaMaxNumReconnectAttempts <= s_retry_num cm ->
  WiFiEventHandler (WIFI_EVENT_STA_DISCONNECTED reason) connect_ret cm =
  Some (set_wifi_event_group_
          (Z.lor (Z.ldiff (wifi_event_group_ cm) WIFI_CONNECTED_BIT) WIFI_FAIL_BIT)
          (set_wifi_sta_has_ip_ false
             (set_wifi_event_group_
                (Z.ldiff (wifi_event_group_ cm) WIFI_CONNECTED_BIT) cm)),
        [console LOG_WARNING; xEventGroupClearBits WIFI_CONNECTED_BIT;
         xEventGroupSetBits WIFI_FAIL_BIT; console LOG_ERROR]).
Proof.
  intros Hge. unfold WiFiEventHandler. cbn [s_retry_num set_wifi_sta_has_ip_ set_wifi_event_group_].
  destruct (Z.ltb_spec (s_retry_num cm) kWiFiStaMaxNumReconnectAttempts); [lia | reflexivity].
Qed.

(** No event lowers the counter, and no event clears the failure bit. *)
Lemma WiFiEventHandler_monotone (ev : wifi_event) (connect_ret : Z)
    (cm cm' : CommsManager) (effs : list effect) :
  WiFiEventHandler ev connect_ret cm = Some (cm', effs) ->
  s_retry_num cm <= s_retry_num cm'
  /\ (fail_bit_set cm = true -> fail_bit_set cm' = true).
Proof.
  unfold fail_bit_set.
  destruct ev; cbn -[Z.ldiff Z.lor Z.testbit].
  - intros H; inversion H; subst; split; [lia | auto].
  - intros H; inversion H; subst; cbn; split; [lia | auto].
  - destruct (connect_ret =? ESP_OK); intros H; inversion H; subst; split; [lia | auto].
  - destruct (s_retry_num cm <? kWiFiStaMaxNumReconnectAttempts).
    + destruct (connect_ret =? ESP_OK); intros H; inversion H; subst;
        cbn -[Z.ldiff Z.lor Z.testbit]; split; [lia |].
      now rewrite ldiff_connected_keeps_fail.
    + intros H; inversion H; subst; cbn -[Z.ldiff Z.lor Z.testbit]; split; [lia |].
      intros _. apply lor_fail_bit.
  - intros H; inversion H; subst; cbn -[Z.ldiff Z.lor Z.testbit]; split; [lia |].
    now rewrite lor_connected_keeps_fail.
  - intros H; inversion H; subst; split; [lia | auto].
Qed.

Lemma handle_events_monotone (evs : list (wifi_event * Z)) :
  forall cm cm' effs,
    handle_events evs cm = Some (cm', effs) ->
    s_retry_num cm <= s_retry_num cm'
    /\ (fail_bit_set cm = true -> fail_bit_set cm' = true).
Proof.
  induction evs as [| [ev r] rest IH]; intros cm cm' effs; cbn [handle_events].
  - intros H; inversion H; subst; split; [lia | auto].
  - destruct (WiFiEventHandler ev r cm) as [[cm1 effs1] |] eqn:Hh; [| discriminate].
    destruct (handle_events rest cm1) as [[cm2 effs2] |] eqn:Hr; [| discriminate].
    intros H; inversion H; subst.
    apply WiFiEventHandler_monotone in Hh. apply IH in Hr.
    split; [lia | tauto].
Qed.

End HandlerFacts.

Section RetryPolicy.
Context {codec : BeastCodec}.

Lemma repeat_app_same {A} (x : A) (n m : nat) :
  repeat x n ++ repeat x m = repeat x (n + m).
Proof. now rewrite repeat_app. Qed.

(** Shape of the retry-relevant calls over a run of station-disconnected
    events: reconnects while the counter is below the bound, then only
    failure signals. *)
Lemma sta_disconnected_run (evs : list (wifi_event * Z)) :
  forall cm cm' effs,
    forallb is_sta_disconnected (map fst evs) = true ->
    0 <= s_retry_num cm <= kWiFiStaMaxNumReconnectAttempts ->
    handle_events evs cm = Some (cm', effs) ->
    let n := Z.of_nat (List.length evs) in
    let k := Z.min n (kWiFiStaMaxNumReconnectAttempts - s_retry_num cm) in
    s_retry_num cm' = s_retry_num cm + k
    /\ filter retry_or_fail effs =
       repeat esp_wifi_connect (Z.to_nat k)
       ++ repeat (xEventGroupSetBits WIFI_FAIL_BIT) (Z.to_nat (n - k))
    /\ (k < n -> fail_bit_set cm' = true).
Proof.
  induction evs as [| [ev r] rest IH]; intros cm cm' effs Hall Hc Hrun.
  - cbn in Hrun. inversion Hrun; subst. cbv zeta.
    unfold kWiFiStaMaxNumReconnectAttempts in *.
    cbn [List.length Z.of_nat].
    replace (Z.min 0 (5 - s_retry_num cm')) with 0 by lia.
    split; [lia |]. split; [reflexivity | lia].
  - cbn [map fst forallb] in Hall. apply andb_true_iff in Hall as [Hev Hall].
    destruct ev; try discriminate.
    cbn [handle_events] in Hrun.
    destruct (Z.lt_ge_cases (s_retry_num cm) kWiFiStaMaxNumReconnectAttempts) as [Hlt | Hge].
    + rewrite (sta_disconnected_retry reason r cm Hlt) in Hrun.
      destruct (r =? ESP_OK); [| discriminate].
      match type of Hrun with
      | context [handle_events rest ?c] => remember c as cm1 eqn:Hcm1
      end.
      destruct (handle_events rest cm1) as [[cm2 effs2] |] eqn:Hr; [| discriminate].
      inversion Hrun; subst cm' effs. clear Hrun.
      assert (Hs : s_retry_num cm1 = s_retry_num cm + 1) by (subst cm1; reflexivity).
      specialize (IH cm1 cm2 effs2 Hall).
      rewrite Hs in IH. specialize (IH ltac:(lia) Hr).
      cbv zeta in IH. destruct IH as (IH1 & IH2 & IH3).
      cbv zeta. rewrite length_cons, Nat2Z.inj_succ.
      unfold kWiFiStaMaxNumReconnectAttempts in *.
      set (n' := Z.of_nat (List.length rest)) in *.
      assert (Hk : Z.min (Z.succ n') (5 - s_retry_num cm)
                   = 1 + Z.min n' (5 - (s_retry_num cm + 1))) by lia.
      rewrite Hk.
      split; [lia |]. split.
      * cbn [app filter retry_or_fail is_esp_wifi_connect is_fail_signal orb].
        rewrite IH2.
        set (k' := Z.min n' (5 - (s_retry_num cm + 1))).
        replace (Z.to_nat (1 + k')) with (S (Z.to_nat k')) by lia.
        replace (Z.succ n' - (1 + k')) with (n' - k') by lia.
        reflexivity.
      * intros Hkn. apply IH3. lia.
    + rewrite (sta_disconnected_terminal reason r cm Hge) in Hrun.
      match type of Hrun with
      | context [handle_events rest ?c] => remember c as cm1 eqn:Hcm1
      end.
      destruct (handle_events rest cm1) as [[cm2 effs2] |] eqn:Hr; [| discriminate].
      inversion Hrun; subst cm' effs. clear Hrun.
      assert (Hs : s_retry_num cm1 = s_retry_num cm) by (subst cm1; reflexivity).
      assert (Hf : fail_bit_set cm1 = true).
      { subst cm1. unfold fail_bit_set. cbn -[Z.lor Z.ldiff Z.testbit]. apply lor_fail_bit. }
      pose proof (handle_events_monotone rest cm1 cm2 effs2 Hr) as [_ Hmono].
      specialize (IH cm1 cm2 effs2 Hall).
      rewrite Hs in IH. specialize (IH Hc Hr).
      cbv zeta in IH. destruct IH as (IH1 & IH2 & IH3).
      cbv zeta. rewrite length_cons, Nat2Z.inj_succ.
      unfold kWiFiStaMaxNumReconnectAttempts in *.
      set (n' := Z.of_nat (List.length rest)) in *.
      assert (Hk' : Z.min n' (5 - s_retry_num cm) = 0) by lia.
      assert (Hk : Z.min (Z.succ n') (5 - s_retry_num cm) = 0) by lia.
      rewrite Hk' in *. rewrite Hk.
      split; [lia |]. split.
      * cbn [app filter retry_or_fail is_esp_wifi_connect is_fail_signal orb].
        replace (negb (Z.land WIFI_FAIL_BIT WIFI_FAIL_BIT =? 0)) with true by reflexivity.
        rewrite IH2.
        cbn [Z.to_nat repeat app].
        replace (Z.to_nat (Z.succ n' - 0)) with (S (Z.to_nat (n' - 0))) by lia.
        reflexivity.
      * intros _. auto.
Qed.

(** The run does not abort while esp_wifi_connect() keeps returning ESP_OK. *)
Lemma handle_events_no_abort (evs : list (wifi_event * Z)) :
  forall cm,
    Forall (fun e => snd e = ESP_OK) evs ->
    handle_events evs cm <> None.
Proof.
  induction evs as [| [ev r] rest IH]; intros cm Hok; cbn [handle_events].
  - discriminate.
  - inversion Hok as [| ? ? Hr Hrest]; subst. cbn in Hr. subst r.
    assert (Hh : exists cm1 effs1, WiFiEventHandler ev ESP_OK cm = Some (cm1, effs1)).
    { destruct ev; cbn; eauto.
      destruct (s_retry_num _ <? kWiFiStaMaxNumReconnectAttempts); eauto. }
    destruct Hh as (cm1 & effs1 & ->).
    specialize (IH cm1 Hrest).
    destruct (handle_events rest cm1) as [[cm2 effs2] |]; [discriminate | contradiction].
Qed.

End RetryPolicy.

Section CounterNeverReset.
Context {codec : BeastCodec}.

Lemma xEventGroupWaitBits_monotone (bits : Z) (events : list (wifi_event * Z)) :
  forall cm r cm' effs,
    xEventGroupWaitBits bits events cm = Some (r, cm', effs) ->
    s_retry_num cm <= s_retry_num cm'.
Proof.
  induction events as [| [ev c] rest IH]; intros cm r cm' effs; cbn [xEventGroupWaitBits].
  - destruct (negb _); intros H; inversion H; subst; lia.
  - destruct (negb _); [intros H; inversion H; subst; lia |].
    destruct (WiFiEventHandler ev c cm) as [[cm1 effs1] |] eqn:Hh; [| discriminate].
    destruct (xEventGroupWaitBits bits rest cm1) as [[[r2 cm2] effs2] |] eqn:Hw;
      [| discriminate].
    intros H; inversion H; subst.
    apply WiFiEventHandler_monotone in Hh. apply IH in Hw. lia.
Qed.

Lemma ESP_ERROR_CHECK_Some {A} (ret : Z) (k : option A) (x : A) :
  ESP_ERROR_CHECK ret k = Some x -> ret = ESP_OK /\ k = Some x.
Proof.
  unfold ESP_ERROR_CHECK. destruct (Z.eqb_spec ret ESP_OK); [auto | discriminate].
Qed.

(** WiFiInit never writes the counter; it can only grow through the events
    handled while the call is blocked. *)
Lemma WiFiInit_s_retry_num (cfg : WiFiConfig) (env : InitEnv)
    (events : list (wifi_event * Z)) (cm cm' : CommsManager)
    (r : InitResult) (effs : list effect) :
  WiFiInit cfg env events cm = Some (r, cm', effs) ->
  s_retry_num cm <= s_retry_num cm'.
Proof.
  unfold WiFiInit.
  destruct (negb (netif_ap_created env)); [discriminate |].
  destruct (negb (netif_sta_created env)); [discriminate |].
  intros H.
  repeat (apply ESP_ERROR_CHECK_Some in H; destruct H as [_ H]).
  destruct (wifi_ap_enabled cfg), (wifi_sta_enabled cfg); cbn [negb andb] in H.
  - apply ESP_ERROR_CHECK_Some in H; destruct H as [_ H].
    destruct (xEventGroupWaitBits _ events _) as [[[[bits |] cm3] ew] |] eqn:Hw;
      [| | discriminate].
    + apply xEventGroupWaitBits_monotone in Hw. cbn in Hw.
      destruct (negb (Z.land bits WIFI_CONNECTED_BIT =? 0));
        [| destruct (negb (Z.land bits WIFI_FAIL_BIT =? 0))];
        inversion H; subst; cbn; lia.
    + apply xEventGroupWaitBits_monotone in Hw. cbn in Hw.
      inversion H; subst; lia.
  - apply ESP_ERROR_CHECK_Some in H; destruct H as [_ H].
    inversion H; subst; cbn; lia.
  - apply ESP_ERROR_CHECK_Some in H; destruct H as [_ H].
    destruct (xEventGroupWaitBits _ events _) as [[[[bits |] cm3] ew] |] eqn:Hw;
      [| | discriminate].
    + apply xEventGroupWaitBits_monotone in Hw. cbn in Hw.
      destruct (negb (Z.land bits WIFI_CONNECTED_BIT =? 0));
        [| destruct (negb (Z.land bits WIFI_FAIL_BIT =? 0))];
        inversion H; subst; cbn; lia.
    + apply xEventGroupWaitBits_monotone in Hw. cbn in Hw.
      inversion H; subst; lia.
  - apply ESP_ERROR_CHECK_Some in H; destruct H as [_ H].
    inversion H; subst; cbn; lia.
Qed.

Lemma update_feed_stats_s_retry_num (t : Z) (cm : CommsManager) (feeds : list FeedSlot) :
  s_retry_num (fst (fst (update_feed_stats t cm feeds))) = s_retry_num cm.
Proof.
  unfold update_feed_stats. destruct (kMsPerSec <? _); reflexivity.
Qed.

(** Apart from the handler's increment, every entry point leaves the counter
    as it found it. *)
Lemma step_s_retry_num (op : operation) (st st' : CommsManager * list FeedSlot) :
  step op st = Some st' ->
  s_retry_num (fst st) <= s_retry_num (fst st').
Proof.
  destruct st as [cm feeds].
  destruct op as [ev c | cfg env events | | p | m | sock results | | inp |];
    cbn [step fst].
  - destruct (WiFiEventHandler ev c cm) as [[cm1 e] |] eqn:Hh; [| discriminate].
    intros H; inversion H; subst. cbn. now apply WiFiEventHandler_monotone in Hh.
  - destruct (WiFiInit cfg env events cm) as [[[r cm1] e] |] eqn:Hi; [| discriminate].
    intros H; inversion H; subst. cbn. now apply WiFiInit_s_retry_num in Hi.
  - unfold WiFiDeInit. destruct (negb _); [| discriminate].
    intros H; inversion H; subst. cbn. lia.
  - unfold WiFiStationSendDecodedTransponderPacket.
    destruct (negb (run_wifi_sta_task_ cm)); [intros H; inversion H; subst; cbn; lia |].
    destruct (xQueueSend _ p) as [err q].
    destruct (err =? errQUEUE_FULL); [| destruct (negb (err =? pdTRUE))];
      intros H; inversion H; subst; cbn; lia.
  - unfold WiFiAccessPointSendMessageToAllStations.
    destruct (negb (run_wifi_ap_task_ cm)); [intros H; inversion H; subst; cbn; lia |].
    destruct (xQueueSend _ m) as [err q].
    destruct (err =? errQUEUE_FULL); [| destruct (negb (err =? pdTRUE))];
      intros H; inversion H; subst; cbn; lia.
  - destruct (run_wifi_ap_task_ cm); [| intros H; inversion H; subst; cbn; lia].
    unfold WiFiAccessPointTask_iteration.
    destruct (xQueueReceive _) as [[message q] |];
      intros H; inversion H; subst; cbn; lia.
  - destruct (wifi_sta_has_ip_ cm); intros H; inversion H; subst; cbn; lia.
  - destruct (run_wifi_sta_task_ cm); [| intros H; inversion H; subst; cbn; lia].
    unfold WiFiStationTask_iteration.
    pose proof (update_feed_stats_s_retry_num (it_timestamp_ms inp) cm feeds) as Hu.
    destruct (update_feed_stats _ cm feeds) as [[cm1 feeds1] es]. cbn [fst] in Hu.
    destruct (xQueueReceive _) as [[pkt q] |].
    + destruct (feed_loop _ _ pkt 0 feeds1) as [feeds2 tr].
      intros H; inversion H; subst; cbn; lia.
    + intros H; inversion H; subst; cbn; lia.
  - intros H; inversion H; subst; cbn; lia.
Qed.

Lemma run_operations_s_retry_num (ops : list operation) :
  forall st st',
    run_operations ops st = Some st' ->
    s_retry_num (fst st) <= s_retry_num (fst st').
Proof.
  induction ops as [| op rest IH]; intros st st'; cbn [run_operations].
  - intros H; inversion H; subst; lia.
  - destruct (step op st) as [st1 |] eqn:Hs; [| discriminate].
    intros H. apply step_s_retry_num in Hs. apply IH in H. lia.
Qed.

End CounterNeverReset.

Section SlotTraces.

Lemma slot_trace_app (i : nat) (a b : list (nat * effect)) :
  slot_trace i (a ++ b) = slot_trace i a ++ slot_trace i b.
Proof. unfold slot_trace. now rewrite filter_app, map_app. Qed.

Lemma slot_trace_tagged (i j : nat) (effs : list effect) :
  slot_trace i (map (pair j) effs) = if Nat.eqb j i then effs else [].
Proof.
  unfold slot_trace. induction effs as [| e rest IH]; cbn [map filter fst].
  - now destruct (Nat.eqb j i).
  - destruct (Nat.eqb j i) eqn:E; cbn [map snd]; rewrite IH; reflexivity.
Qed.

Lemma slot_trace_nil (i : nat) : slot_trace i [] = [].
Proof. reflexivity. Qed.

End SlotTraces.

Section Broadcast.
Context {codec : BeastCodec}.

Lemma enomem_failure_continue (r : SendResult) :
  (0 <=? sr_ret r) || negb (sr_errno r =? ENOMEM) = negb (enomem_failure r).
Proof.
  unfold enomem_failure.
  destruct (Z.leb_spec 0 (sr_ret r)), (Z.ltb_spec (sr_ret r) 0); try lia;
    destruct (sr_errno r =? ENOMEM); reflexivity.
Qed.

(** The retry loop: at most [remaining] calls, one more call exactly after an
    ENOMEM failure, and a call that is not an ENOMEM failure is the last. *)
Lemma sendto_retry_loop_calls (results : nat -> SendResult) (call : effect) :
  is_sys_sendto call = true ->
  forall remaining num_tries ret,
    let '(_, _, effs) := sendto_retry_loop remaining num_tries ret results call in
    let n := sendto_count effs in
    (n <= remaining)%nat
    /\ (0 < remaining -> 0 < n)%nat
    /\ (forall k, (S k < n)%nat -> enomem_failure (results (num_tries + k)%nat) = true)
    /\ (forall k, (S k = n)%nat -> (n < remaining)%nat ->
                  enomem_failure (results (num_tries + k)%nat) = false).
Proof.
  intros Hcall. unfold sendto_count.
  induction remaining as [| rem IH]; intros num_tries ret; cbn [sendto_retry_loop].
  - cbn. repeat split; intros; lia.
  - rewrite enomem_failure_continue.
    destruct (enomem_failure (results num_tries)) eqn:E; cbn [negb].
    + specialize (IH (S num_tries) (sr_ret (results num_tries))).
      destruct (sendto_retry_loop rem (S num_tries) _ results call) as [[ret' n'] effs].
      cbn [filter is_sys_sendto]. rewrite Hcall. cbn [List.length].
      cbv zeta in IH. destruct IH as (I1 & I2 & I3 & I4).
      cbv zeta. repeat split.
      * lia.
      * lia.
      * intros k Hk. destruct k as [| k].
        -- now rewrite Nat.add_0_r.
        -- replace (num_tries + S k)%nat with (S num_tries + k)%nat by lia.
           apply I3. lia.
      * intros k Hk Hn. destruct k as [| k].
        -- destruct rem; [lia |]. specialize (I2 ltac:(lia)). lia.
        -- replace (num_tries + S k)%nat with (S num_tries + k)%nat by lia.
           apply I4; lia.
    + cbn [filter]. rewrite Hcall. cbn [List.length].
      cbv zeta. repeat split.
      * lia.
      * lia.
      * intros k Hk. lia.
      * intros k Hk _. assert (k = 0)%nat by lia. subst. now rewrite Nat.add_0_r.
Qed.

(** The calls made for table slot [i] are those of [send_to_client] on that
    slot's record and that slot's results: other slots do not enter. *)
Lemma broadcast_loop_slot (sock : Z) (message : NetworkMessage)
    (results : nat -> nat -> SendResult) (clients : list ClientRecord) :
  forall j i c,
    nth_error clients i = Some c ->
    slot_trace (j + i) (broadcast_loop sock message j clients results)
    = send_to_client sock message c (results (j + i)%nat).
Proof.
  induction clients as [| c0 rest IH]; intros j i c Hnth.
  - destruct i; discriminate.
  - cbn [broadcast_loop]. rewrite slot_trace_app, slot_trace_tagged.
    destruct i as [| i]; cbn [nth_error] in Hnth.
    + inversion Hnth; subst c0. rewrite Nat.add_0_r, Nat.eqb_refl.
      assert (Hrest : forall l k, (j < k)%nat ->
                slot_trace j (broadcast_loop sock message k l results) = []).
      { clear. induction l as [| c1 l IHl]; intros k Hk; cbn [broadcast_loop].
        - reflexivity.
        - rewrite slot_trace_app, slot_trace_tagged.
          destruct (Nat.eqb_spec k j); [lia |]. cbn [app]. apply IHl. lia. }
      rewrite Hrest by lia. apply app_nil_r.
    + destruct (Nat.eqb_spec j (j + S i)); [lia |]. cbn [app].
      replace (j + S i)%nat with (S j + i)%nat by lia.
      now apply IH.
Qed.

End Broadcast.

Section FeedLoop.
Context {codec : BeastCodec}.

Lemma feed_loop_later_slots (settings : nat -> FeedConfig) (io : nat -> FeedIO)
    (pkt : DecodedTransponderPacket) (feeds : list FeedSlot) :
  forall j k, (j < k)%nat ->
    slot_trace j (snd (feed_loop settings io pkt k feeds)) = [].
Proof.
  induction feeds as [| s rest IH]; intros j k Hjk; cbn [feed_loop].
  - reflexivity.
  - destruct (feed_pass (settings k) (io k) pkt s) as [s' effs].
    specialize (IH j (S k) ltac:(lia)).
    destruct (feed_loop settings io pkt (S k) rest) as [rest' effs'].
    cbn [snd] in *. rewrite slot_trace_app, slot_trace_tagged, IH.
    destruct (Nat.eqb_spec k j); [lia | reflexivity].
Qed.

(** Slot [i] of the array after the feed loop, and the calls made for it, are
    those of [feed_pass] on that slot alone. *)
Lemma feed_loop_slot (settings : nat -> FeedConfig) (io : nat -> FeedIO)
    (pkt : DecodedTransponderPacket) (feeds : list FeedSlot) :
  forall j i s,
    nth_error feeds i = Some s ->
    nth_error (fst (feed_loop settings io pkt j feeds)) i
    = Some (fst (feed_pass (settings (j + i)%nat) (io (j + i)%nat) pkt s))
    /\ slot_trace (j + i) (snd (feed_loop settings io pkt j feeds))
       = snd (feed_pass (settings (j + i)%nat) (io (j + i)%nat) pkt s).
Proof.
  induction feeds as [| s0 rest IH]; intros j i s Hnth.
  - destruct i; discriminate.
  - cbn [feed_loop].
    destruct (feed_pass (settings j) (io j) pkt s0) as [s0' effs0] eqn:Hp.
    pose proof (feed_loop_later_slots settings io pkt rest j (S j) ltac:(lia)) as Hlater.
    specialize (IH (S j)).
    destruct (feed_loop settings io pkt (S j) rest) as [rest' effs'].
    cbn [fst snd] in *. rewrite slot_trace_app, slot_trace_tagged.
    destruct i as [| i]; cbn [nth_error] in *.
    + inversion Hnth; subst s0. rewrite Nat.add_0_r, Nat.eqb_refl, Hp, Hlater.
      cbn [fst snd]. now rewrite app_nil_r.
    + destruct (Nat.eqb_spec j (j + S i)); [lia |]. cbn [app].
      replace (j + S i)%nat with (S j + i)%nat by lia.
      now apply IH.
Qed.

Lemma update_feed_stats_queue (t : Z) (cm : CommsManager) (feeds : list FeedSlot) :
  wifi_sta_decoded_transponder_packet_queue_ (fst (fst (update_feed_stats t cm feeds)))
  = wifi_sta_decoded_transponder_packet_queue_ cm.
Proof. unfold update_feed_stats. destruct (kMsPerSec <? _); reflexivity. Qed.

Lemma update_feed_stats_slot (t : Z) (cm : CommsManager) (feeds : list FeedSlot)
    (i : nat) (s : FeedSlot) :
  nth_error feeds i = Some s ->
  exists s1,
    nth_error (snd (fst (update_feed_stats t cm feeds))) i = Some s1
    /\ connection_of s1 = connection_of s.
Proof.
  intros Hnth. unfold update_feed_stats.
  destruct (kMsPerSec <? _); cbn [fst snd].
  - rewrite nth_error_map, Hnth. cbn. eexists; split; reflexivity.
  - eauto.
Qed.

(** What one turn of the task loop does to slot [i]: nothing to its
    connection when no packet was dequeued, one [feed_pass] otherwise. *)
Lemma WiFiStationTask_iteration_slot (inp : IterationInput) (cm : CommsManager)
    (feeds : list FeedSlot) (i : nat) (s : FeedSlot) :
  nth_error feeds i = Some s ->
  let '(cm1, feeds1, _, trace) := WiFiStationTask_iteration inp (cm, feeds) in
  exists s0,
    connection_of s0 = connection_of s
    /\ ((slot_trace i trace = [] /\ nth_error feeds1 i = Some s0)
        \/ exists pkt,
             nth_error feeds1 i
             = Some (fst (feed_pass (it_settings inp i) (it_io inp i) pkt s0))
             /\ slot_trace i trace
                = snd (feed_pass (it_settings inp i) (it_io inp i) pkt s0)).
Proof.
  intros Hnth. unfold WiFiStationTask_iteration.
  destruct (update_feed_stats_slot (it_timestamp_ms inp) cm feeds i s Hnth)
    as (s0 & Hs0 & Hconn).
  destruct (update_feed_stats _ cm feeds) as [[cm1 feeds1] es]. cbn [fst snd] in Hs0.
  destruct (xQueueReceive _) as [[pkt q] |].
  - pose proof (feed_loop_slot (it_settings inp) (it_io inp) pkt feeds1 0 i s0 Hs0)
      as [H1 H2].
    destruct (feed_loop _ _ pkt 0 feeds1) as [feeds2 trace]. cbn [fst snd plus] in *.
    exists s0. split; [assumption |]. right. exists pkt. split; assumption.
  - exists s0. split; [assumption |]. left. split; [reflexivity | assumption].
Qed.

End FeedLoop.

Section FeedPass.
Context {codec : BeastCodec}.

(** A connection attempt is made only by a disconnected slot whose window has
    elapsed, and it restarts the window; nothing else moves the timestamp. *)
Lemma feed_pass_attempt (cfg : FeedConfig) (io : FeedIO)
    (pkt : DecodedTransponderPacket) (s : FeedSlot) :
  let '(s', effs) := feed_pass cfg io pkt s in
  if existsb is_sys_socket effs then
    feed_sock_is_connected s = false
    /\ kWiFiTCPSocketReconnectIntervalMs
       < sub32 (get_time_since_boot_ms_ret io) (feed_sock_last_connect_timestamp_ms s)
    /\ feed_sock_last_connect_timestamp_ms s' = get_time_since_boot_ms_ret io
  else
    feed_sock_last_connect_timestamp_ms s' = feed_sock_last_connect_timestamp_ms s.
Proof.
  feed_cases; try reflexivity; (split; [| split]); try reflexivity;
    try (apply negb_true_iff; assumption);
    apply Z.leb_gt; assumption.
Qed.

(** A slot that enters a pass disconnected sends only after creating a socket
    in that pass, and stays disconnected when it creates none. *)
Lemma feed_pass_disconnected (cfg : FeedConfig) (io : FeedIO)
    (pkt : DecodedTransponderPacket) (s : FeedSlot) :
  feed_sock_is_connected s = false ->
  let '(s', effs) := feed_pass cfg io pkt s in
  sends_follow_socket false effs = true
  /\ (existsb is_sys_socket effs = false ->
      feed_sock_is_connected s' = false /\ filter is_sys_send effs = []).
Proof.
  intros Hd. unfold feed_pass. rewrite Hd. cbn [negb].
  feed_cases;
    (split; [reflexivity
            | intros H;
              first [discriminate H
                    | split; [assumption || reflexivity | reflexivity]]]).
Qed.

(** A failed send is followed by the error log and close() of that socket,
    and leaves the slot disconnected. *)
Lemma feed_pass_send_failure (cfg : FeedConfig) (io : FeedIO)
    (pkt : DecodedTransponderPacket) (s : FeedSlot) :
  send_ret io < 0 ->
  let '(s', effs) := feed_pass cfg io pkt s in
  forall fd bytes,
    In (sys_send fd bytes) effs ->
    feed_sock_is_connected s' = false
    /\ fd = feed_sock s'
    /\ exists pre,
        effs = pre ++ [sys_send fd bytes; console LOG_ERROR; sys_close fd].
Proof.
  intros Hneg. apply Z.ltb_lt in Hneg.
  feed_cases; intros fd bytes Hin; cbn in Hin;
    repeat (destruct Hin as [Hin | Hin]; try discriminate Hin); try contradiction;
    try congruence;
    inversion Hin; subst; (split; [reflexivity | split; [reflexivity |]]).
  all: match goal with
       | |- exists pre, ?l = _ =>
           first [ exists []; reflexivity
                 | eexists [_]; reflexivity
                 | eexists [_; _]; reflexivity
                 | eexists [_; _; _]; reflexivity
                 | eexists [_; _; _; _]; reflexivity
                 | eexists [_; _; _; _; _]; reflexivity
                 | eexists [_; _; _; _; _; _]; reflexivity ]
       end.
Qed.

(** A slot configured inactive: its socket, if any, is closed; nothing is
    sent; it ends disconnected. *)
Lemma feed_pass_inactive (cfg : FeedConfig) (io : FeedIO)
    (pkt : DecodedTransponderPacket) (s : FeedSlot) :
  feed_is_active cfg = false ->
  feed_pass cfg io pkt s
  = if feed_sock_is_connected s
    then (set_feed_sock_is_connected false s,
          [sys_close (feed_sock s); console LOG_INFO])
    else (s, []).
Proof.
  intros Ha. unfold feed_pass. now rewrite Ha.
Qed.

(** A connected, active Beast slot: the pass is the protocol switch. *)
Lemma feed_pass_connected_beast (cfg : FeedConfig) (io : FeedIO)
    (pkt : DecodedTransponderPacket) (s : FeedSlot) :
  feed_is_active cfg = true ->
  feed_sock_is_connected s = true ->
  feed_protocols cfg = kBeast ->
  feed_pass cfg io pkt s
  = if negb (IsValid pkt) then (s, [])
    else
      let call :=
        sys_send (feed_sock s)
          (TransponderPacketToBeastFramePrependReceiverID pkt (feed_receiver_ids cfg)) in
      if send_ret io <? 0
      then (set_feed_sock_is_connected false s,
            [call; console LOG_ERROR; sys_close (feed_sock s)])
      else (set_feed_mps_counter_ (incr_counter (feed_mps_counter_ s)) s, [call]).
Proof.
  intros Ha Hc Hp. unfold feed_pass, report_packet, send_beast.
  rewrite Ha, Hc, Hp. cbn [negb].
  destruct (negb (IsValid pkt)); [reflexivity |].
  destruct (send_ret io <? 0); reflexivity.
Qed.

(** A pass that takes a connected slot to disconnected has called close() on
    the slot's socket. *)
Lemma feed_pass_close_before_disconnect (cfg : FeedConfig) (io : FeedIO)
    (pkt : DecodedTransponderPacket) (s : FeedSlot) :
  feed_sock_is_connected s = true ->
  feed_sock_is_connected (fst (feed_pass cfg io pkt s)) = false ->
  In (sys_close (feed_sock s)) (snd (feed_pass cfg io pkt s)).
Proof.
  intros Hc. unfold feed_pass. rewrite Hc. cbn [negb].
  feed_cases; intros Hd; try congruence; cbn; auto.
Qed.

(** One pass keeps the slot's descriptors accounted for, and never holds more
    than one of them open, provided socket() does not hand out descriptor 0
    (which the code treats as a failure). *)
Lemma feed_pass_sockets (cfg : FeedConfig) (io : FeedIO)
    (pkt : DecodedTransponderPacket) (s : FeedSlot) (open : list Z) :
  socket_accounted s open ->
  socket_ret io <> 0 ->
  let '(s', effs) := feed_pass cfg io pkt s in
  socket_accounted s' (sockets_open effs open)
  /\ forall k, (List.length (sockets_open (firstn k effs) open) <= 1)%nat.
Proof.
  unfold socket_accounted. intros -> Hfd.
  feed_cases; leb_to_prop;
    (split; [sock_simpl | intros k; do 11 (try destruct k as [| k]); sock_simpl]).
Qed.

End FeedPass.

Section ForwarderRuns.
Context {codec : BeastCodec}.

Lemma connection_of_eq (s0 s : FeedSlot) :
  connection_of s0 = connection_of s ->
  feed_sock s0 = feed_sock s
  /\ feed_sock_is_connected s0 = feed_sock_is_connected s
  /\ feed_sock_last_connect_timestamp_ms s0 = feed_sock_last_connect_timestamp_ms s.
Proof. unfold connection_of. intros H. inversion H. auto. Qed.

Lemma sends_follow_socket_seen (effs : list effect) :
  sends_follow_socket true effs = true.
Proof.
  induction effs as [| e rest IH]; [reflexivity |].
  destruct e; cbn [sends_follow_socket andb]; assumption.
Qed.

Lemma sends_follow_socket_app (a b : list effect) :
  forall seen,
    sends_follow_socket seen (a ++ b)
    = sends_follow_socket seen a
      && sends_follow_socket (seen || existsb is_sys_socket a) b.
Proof.
  induction a as [| e rest IH]; intros seen.
  - cbn. now rewrite orb_false_r.
  - destruct e; cbn [app sends_follow_socket existsb is_sys_socket orb];
      rewrite ?IH, ?orb_true_r, ?andb_assoc; reflexivity.
Qed.

(** Reading of [sends_follow_socket]: before every send() there is a socket(). *)
Lemma sends_follow_socket_before (effs : list effect) :
  sends_follow_socket false effs = true ->
  forall pre e post,
    effs = pre ++ e :: post -> is_sys_send e = true ->
    existsb is_sys_socket pre = true.
Proof.
  intros H pre e post -> He.
  rewrite sends_follow_socket_app in H. apply andb_true_iff in H as [_ H].
  destruct e; try discriminate He. cbn [sends_follow_socket orb] in H.
  now apply andb_true_iff in H as [H _].
Qed.

Lemma sockets_open_app (a b : list effect) :
  forall open, sockets_open (a ++ b) open = sockets_open b (sockets_open a open).
Proof.
  induction a as [| e rest IH]; intros open; [reflexivity |].
  destruct e; cbn [app sockets_open]; apply IH.
Qed.

(** After a send failure (or in any state in which the slot is disconnected),
    every later send on the slot comes after a new connection attempt. *)
Lemma run_sends_follow_socket (i : nat) (inputs : list IterationInput) :
  forall cm feeds s,
    nth_error feeds i = Some s ->
    feed_sock_is_connected s = false ->
    sends_follow_socket false
      (slot_trace i (snd (WiFiStationTask_run inputs (cm, feeds)))) = true.
Proof.
  induction inputs as [| inp rest IH]; intros cm feeds s Hnth Hd.
  - reflexivity.
  - cbn [WiFiStationTask_run].
    pose proof (WiFiStationTask_iteration_slot inp cm feeds i s Hnth) as Hit.
    destruct (WiFiStationTask_iteration inp (cm, feeds)) as [[[cm1 feeds1] es] trace1].
    destruct Hit as (s0 & Hconn & Hcase).
    apply connection_of_eq in Hconn as (_ & Hc & _).
    assert (Hrest : forall s1, nth_error feeds1 i = Some s1 ->
                      feed_sock_is_connected s1 = false ->
                      sends_follow_socket false
                        (slot_trace i (snd (WiFiStationTask_run rest (cm1, feeds1)))) = true)
      by (intros; eapply IH; eauto).
    destruct (WiFiStationTask_run rest (cm1, feeds1)) as [[cm2 feeds2] trace2].
    cbn [snd] in *. rewrite slot_trace_app, sends_follow_socket_app.
    destruct Hcase as [[Ht Hs1] | (pkt & Hs1 & Ht)].
    + rewrite Ht. cbn. apply (Hrest s0 Hs1). congruence.
    + rewrite Ht.
      pose proof (feed_pass_disconnected (it_settings inp i) (it_io inp i) pkt s0
                    ltac:(congruence)) as Hp.
      destruct (feed_pass (it_settings inp i) (it_io inp i) pkt s0) as [s1 effs].
      cbn [fst snd] in *. destruct Hp as [Hp1 Hp2]. rewrite Hp1. cbn [andb orb].
      destruct (existsb is_sys_socket effs).
      * apply sends_follow_socket_seen.
      * destruct (Hp2 eq_refl) as [Hd1 _]. now apply (Hrest s1).
Qed.

(** Connection attempts of a slot are spaced by more than the reconnect
    interval, starting from the slot's stored timestamp. *)
Lemma run_attempts_spaced (i : nat) (inputs : list IterationInput) :
  forall cm feeds s,
    nth_error feeds i = Some s ->
    spaced (feed_sock_last_connect_timestamp_ms s
            :: connect_attempt_times i inputs (cm, feeds)).
Proof.
  induction inputs as [| inp rest IH]; intros cm feeds s Hnth.
  - exact I.
  - cbn [connect_attempt_times].
    pose proof (WiFiStationTask_iteration_slot inp cm feeds i s Hnth) as Hit.
    destruct (WiFiStationTask_iteration inp (cm, feeds)) as [[[cm1 feeds1] es] trace1].
    destruct Hit as (s0 & Hconn & Hcase).
    apply connection_of_eq in Hconn as (_ & _ & Hl).
    destruct Hcase as [[Ht Hs1] | (pkt & Hs1 & Ht)].
    + rewrite Ht. cbn [existsb app]. rewrite <- Hl. now apply IH.
    + rewrite Ht.
      pose proof (feed_pass_attempt (it_settings inp i) (it_io inp i) pkt s0) as Hp.
      destruct (feed_pass (it_settings inp i) (it_io inp i) pkt s0) as [s1 effs].
      cbn [fst snd] in *. specialize (IH cm1 feeds1 s1 Hs1).
      destruct (existsb is_sys_socket effs).
      * destruct Hp as (_ & Hw & Hl1). rewrite Hl1 in IH. cbn [app].
        split; [rewrite <- Hl; exact Hw | exact IH].
      * cbn [app]. rewrite <- Hl, <- Hp. exact IH.
Qed.

(** Over a whole run no slot ever holds more than one descriptor open. *)
Lemma run_sockets (i : nat) (inputs : list IterationInput) :
  forall cm feeds s open,
    nth_error feeds i = Some s ->
    socket_accounted s open ->
    Forall (fun inp => socket_ret (it_io inp i) <> 0) inputs ->
    let '(_, feeds', trace) := WiFiStationTask_run inputs (cm, feeds) in
    (exists s', nth_error feeds' i = Some s'
                /\ socket_accounted s' (sockets_open (slot_trace i trace) open))
    /\ forall k,
         (List.length (sockets_open (firstn k (slot_trace i trace)) open) <= 1)%nat.
Proof.
  induction inputs as [| inp rest IH]; intros cm feeds s open Hnth Hacc Hio.
  - cbn. split; [eauto |]. intros k. rewrite firstn_nil. cbn.
    unfold socket_accounted in Hacc. subst open.
    destruct (feed_sock_is_connected s); cbn; lia.
  - cbn [WiFiStationTask_run].
    inversion Hio as [| ? ? Hio1 Hio2]; subst.
    pose proof (WiFiStationTask_iteration_slot inp cm feeds i s Hnth) as Hit.
    destruct (WiFiStationTask_iteration inp (cm, feeds)) as [[[cm1 feeds1] es] trace1].
    destruct Hit as (s0 & Hconn & Hcase).
    apply connection_of_eq in Hconn as (Hf & Hc & _).
    assert (Hacc0 : socket_accounted s0 open)
      by (unfold socket_accounted in *; now rewrite Hf, Hc).
    assert (Hstep : exists s1,
               nth_error feeds1 i = Some s1
               /\ socket_accounted s1 (sockets_open (slot_trace i trace1) open)
               /\ forall k, (List.length
                               (sockets_open (firstn k (slot_trace i trace1)) open) <= 1)%nat).
    { destruct Hcase as [[Ht Hs1] | (pkt & Hs1 & Ht)].
      - exists s0. rewrite Ht. cbn. repeat split; auto.
        intros k. rewrite firstn_nil. cbn. unfold socket_accounted in Hacc0. subst open.
        destruct (feed_sock_is_connected s0); cbn; lia.
      - pose proof (feed_pass_sockets (it_settings inp i) (it_io inp i) pkt s0 open
                      Hacc0 Hio1) as Hp.
        destruct (feed_pass (it_settings inp i) (it_io inp i) pkt s0) as [s1 effs].
        cbn [fst snd] in *. exists s1. rewrite Ht. destruct Hp. auto. }
    destruct Hstep as (s1 & Hs1 & Hacc1 & Hk1).
    specialize (IH cm1 feeds1 s1 _ Hs1 Hacc1 Hio2).
    destruct (WiFiStationTask_run rest (cm1, feeds1)) as [[cm2 feeds2] trace2].
    destruct IH as [(s2 & Hs2 & Hacc2) Hk2].
    rewrite slot_trace_app. split.
    + exists s2. split; [assumption |]. now rewrite sockets_open_app.
    + intros k. rewrite firstn_app, sockets_open_app.
      destruct (Nat.le_gt_cases k (List.length (slot_trace i trace1))) as [Hle | Hgt].
      * replace (k - List.length (slot_trace i trace1))%nat with 0%nat by lia.
        cbn [firstn sockets_open]. apply Hk1.
      * rewrite (@firstn_all2 _ k (slot_trace i trace1)) by lia. apply Hk2.
Qed.

End ForwarderRuns.

Section Initialization.
Context {codec : BeastCodec}.

Lemma WiFiEventHandler_launches_nothing (t : task_name) (ev : wifi_event)
    (c : Z) (cm cm' : CommsManager) (effs : list effect) :
  WiFiEventHandler ev c cm = Some (cm', effs) -> launches t effs = false.
Proof.
  unfold launches.
  destruct ev; cbn;
    repeat match goal with
           | |- context [if ?b then _ else _] => destruct b
           end;
    intros H; inversion H; subst; reflexivity.
Qed.

Lemma signal_mask (bits : Z) :
  negb (Z.land bits (Z.lor WIFI_CONNECTED_BIT WIFI_FAIL_BIT) =? 0)
  = connected_signal bits || failed_signal bits.
Proof.
  unfold connected_signal, failed_signal.
  rewrite Z.land_lor_distr_r.
  pose proof (Z.lor_eq_0_iff (Z.land bits WIFI_CONNECTED_BIT) (Z.land bits WIFI_FAIL_BIT))
    as Hiff.
  destruct (Z.eqb_spec (Z.lor (Z.land bits WIFI_CONNECTED_BIT)
                              (Z.land bits WIFI_FAIL_BIT)) 0) as [E | E],
    (Z.eqb_spec (Z.land bits WIFI_CONNECTED_BIT) 0) as [E1 | E1],
    (Z.eqb_spec (Z.land bits WIFI_FAIL_BIT) 0) as [E2 | E2];
    cbn; try reflexivity; tauto.
Qed.

(** The wait returns the group's value once a signal is in it, stays blocked
    while none is, and runs nothing but the handler meanwhile. *)
Lemma xEventGroupWaitBits_signals (events : list (wifi_event * Z)) :
  forall cm w cm' effs,
    xEventGroupWaitBits (Z.lor WIFI_CONNECTED_BIT WIFI_FAIL_BIT) events cm
    = Some (w, cm', effs) ->
    launches wifi_sta_task effs = false
    /\ match w with
       | Some bits =>
           bits = wifi_event_group_ cm'
           /\ connected_signal bits || failed_signal bits = true
       | None =>
           connected_signal (wifi_event_group_ cm')
           || failed_signal (wifi_event_group_ cm') = false
       end.
Proof.
  induction events as [| [ev c] rest IH]; intros cm w cm' effs;
    cbn [xEventGroupWaitBits]; rewrite signal_mask.
  - destruct (connected_signal _ || failed_signal _) eqn:E;
      intros H; inversion H; subst; split; auto.
  - destruct (connected_signal _ || failed_signal _) eqn:E.
    + intros H; inversion H; subst; split; auto.
    + destruct (WiFiEventHandler ev c cm) as [[cm1 effs1] |] eqn:Hh; [| discriminate].
      destruct (xEventGroupWaitBits _ rest cm1) as [[[w2 cm2] effs2] |] eqn:Hw;
        [| discriminate].
      intros H; inversion H; subst.
      apply IH in Hw as [Hl Hw]. split; [| exact Hw].
      pose proof (WiFiEventHandler_launches_nothing wifi_sta_task _ _ _ _ _ Hh) as Hl1.
      unfold launches in *. now rewrite existsb_app, Hl, Hl1.
Qed.

Lemma land_bit (g k : Z) :
  0 <= k -> negb (Z.land g (2 ^ k) =? 0) = Z.testbit g k.
Proof.
  intros Hk.
  assert (H : Z.land g (2 ^ k) = if Z.testbit g k then 2 ^ k else 0).
  { apply Z.bits_inj'. intros n Hn. rewrite Z.land_spec, Z.pow2_bits_eqb by lia.
    destruct (Z.eqb_spec k n) as [-> | Hne].
    - rewrite andb_true_r. destruct (Z.testbit g n) eqn:E.
      + rewrite Z.pow2_bits_eqb by lia. now rewrite Z.eqb_refl.
      + now rewrite Z.bits_0.
    - rewrite andb_false_r. destruct (Z.testbit g k).
      + rewrite Z.pow2_bits_eqb by lia. symmetry. now apply Z.eqb_neq.
      + now rewrite Z.bits_0. }
  rewrite H. destruct (Z.testbit g k); [| reflexivity].
  apply negb_true_iff, Z.eqb_neq. pose proof (Z.pow_pos_nonneg 2 k). lia.
Qed.

Lemma connected_signal_bit (g : Z) : connected_signal g = Z.testbit g 0.
Proof. unfold connected_signal, WIFI_CONNECTED_BIT. apply (land_bit g 0). lia. Qed.

Lemma failed_signal_bit (g : Z) : failed_signal g = Z.testbit g 1.
Proof. unfold failed_signal, WIFI_FAIL_BIT. apply (land_bit g 1). lia. Qed.

(** From an event group without a signal, one event brings up at most one. *)
Lemma WiFiEventHandler_one_signal (ev : wifi_event) (c : Z)
    (cm cm' : CommsManager) (effs : list effect) :
  connected_signal (wifi_event_group_ cm) || failed_signal (wifi_event_group_ cm)
  = false ->
  WiFiEventHandler ev c cm = Some (cm', effs) ->
  connected_signal (wifi_event_group_ cm') && failed_signal (wifi_event_group_ cm')
  = false.
Proof.
  rewrite !connected_signal_bit, !failed_signal_bit.
  intros Hnone. apply orb_false_iff in Hnone as [Hc Hf].
  destruct ev; cbn -[Z.ldiff Z.lor Z.testbit].
  - intros H; inversion H; subst. now rewrite Hc.
  - intros H; inversion H; subst. cbn [wifi_event_group_ set_wifi_clients_list_].
    now rewrite Hc.
  - destruct (c =? ESP_OK); intros H; inversion H; subst. now rewrite Hc.
  - destruct (s_retry_num cm <? kWiFiStaMaxNumReconnectAttempts).
    + destruct (c =? ESP_OK); intros H; inversion H; subst.
      cbn -[Z.ldiff Z.lor Z.testbit].
      rewrite ldiff_connected_keeps_fail, Hf. apply andb_false_r.
    + intros H; inversion H; subst. cbn -[Z.ldiff Z.lor Z.testbit].
      rewrite Z.lor_spec, Z.ldiff_spec, Hc. reflexivity.
  - intros H; inversion H; subst. cbn -[Z.ldiff Z.lor Z.testbit].
    rewrite lor_connected_keeps_fail, Hf. apply andb_false_r.
  - intros H; inversion H; subst. now rewrite Hc.
Qed.

(** Entered with at most one signal set, the wait observes at most one. *)
Lemma xEventGroupWaitBits_one_signal (events : list (wifi_event * Z)) :
  forall cm bits cm' effs,
    connected_signal (wifi_event_group_ cm) && failed_signal (wifi_event_group_ cm)
    = false ->
    xEventGroupWaitBits (Z.lor WIFI_CONNECTED_BIT WIFI_FAIL_BIT) events cm
    = Some (Some bits, cm', effs) ->
    connected_signal bits && failed_signal bits = false.
Proof.
  induction events as [| [ev c] rest IH]; intros cm bits cm' effs Hone;
    cbn [xEventGroupWaitBits]; rewrite signal_mask.
  - destruct (connected_signal (wifi_event_group_ cm)
              || failed_signal (wifi_event_group_ cm));
      intros H; inversion H; subst; exact Hone.
  - destruct (connected_signal (wifi_event_group_ cm)
              || failed_signal (wifi_event_group_ cm)) eqn:Hsig.
    + intros H; inversion H; subst; exact Hone.
    + destruct (WiFiEventHandler ev c cm) as [[cm1 effs1] |] eqn:Hh; [| discriminate].
      destruct (xEventGroupWaitBits _ rest cm1) as [[[w2 cm2] effs2] |] eqn:Hw;
        [| discriminate].
      intros H; inversion H; subst.
      eapply IH; [| exact Hw].
      eapply WiFiEventHandler_one_signal; eauto.
Qed.

(** With neither mode enabled WiFiInit stops the radio and returns true
    without waiting and without creating a task. *)
Lemma WiFiInit_disabled (cfg : WiFiConfig) (env : InitEnv)
    (events : list (wifi_event * Z)) (cm : CommsManager) :
  wifi_ap_enabled cfg = false ->
  wifi_sta_enabled cfg = false ->
  forall r cm' effs,
    WiFiInit cfg env events cm = Some (r, cm', effs) ->
    r = InitReturned true
    /\ cm' = set_wifi_was_initialized_ true cm
    /\ (exists setup, effs = setup ++ [esp_wifi_stop; console LOG_INFO]
                      /\ existsb is_esp_wifi_connect setup = false)
    /\ launches wifi_ap_task effs = false
    /\ launches wifi_sta_task effs = false.
Proof.
  intros Hap Hsta r cm' effs. unfold WiFiInit. rewrite Hap, Hsta. cbn [negb andb].
  destruct (negb (netif_ap_created env)); [discriminate |].
  destruct (negb (netif_sta_created env)); [discriminate |].
  intros H. repeat (apply ESP_ERROR_CHECK_Some in H; destruct H as [_ H]).
  inversion H; subst. split; [reflexivity |]. split; [reflexivity |].
  destruct (negb (ip_event_handler_was_initialized_ cm)).
  - split; [| split; reflexivity].
    exists [esp_wifi_init; esp_event_handler_register; IPInit;
            esp_wifi_set_mode WIFI_MODE_STA].
    split; reflexivity.
  - split; [| split; reflexivity].
    exists [esp_wifi_init; esp_event_handler_register; esp_wifi_set_mode WIFI_MODE_STA].
    split; reflexivity.
Qed.

Lemma WiFiInit_disabled_returns (cfg : WiFiConfig) (env : InitEnv)
    (events : list (wifi_event * Z)) (cm : CommsManager) :
  wifi_ap_enabled cfg = false ->
  wifi_sta_enabled cfg = false ->
  netif_ap_created env = true -> netif_sta_created env = true ->
  esp_netif_set_hostname_ret env = ESP_OK -> esp_wifi_init_ret env = ESP_OK ->
  esp_event_handler_register_ret env = ESP_OK -> esp_wifi_set_mode_ret env = ESP_OK ->
  esp_wifi_stop_ret env = ESP_OK ->
  exists effs,
    WiFiInit cfg env events cm
    = Some (InitReturned true, set_wifi_was_initialized_ true cm, effs).
Proof.
  intros Hap Hsta H1 H2 H3 H4 H5 H6 H7. unfold WiFiInit.
  rewrite Hap, Hsta, H1, H2, H3, H4, H5, H6, H7. cbn. eauto.
Qed.

(** With station mode enabled WiFiInit's result is decided by the value the
    wait hands back: connected first, failed otherwise. *)
Lemma WiFiInit_station (cfg : WiFiConfig) (env : InitEnv)
    (events : list (wifi_event * Z)) (cm : CommsManager) :
  wifi_sta_enabled cfg = true ->
  forall r cm' effs,
    WiFiInit cfg env events cm = Some (r, cm', effs) ->
    let bits := wifi_event_group_ cm' in
    match r with
    | InitBlocked =>
        connected_signal bits || failed_signal bits = false
        /\ launches wifi_sta_task effs = false
    | InitReturned ok =>
        connected_signal bits || failed_signal bits = true
        /\ ok = connected_signal bits
        /\ launches wifi_sta_task effs = connected_signal bits
    end.
Proof.
  intros Hsta r cm' effs. unfold WiFiInit. rewrite Hsta.
  destruct (negb (netif_ap_created env)); [discriminate |].
  destruct (negb (netif_sta_created env)); [discriminate |].
  intros H. repeat (apply ESP_ERROR_CHECK_Some in H; destruct H as [_ H]).
  rewrite andb_false_r in H.
  apply ESP_ERROR_CHECK_Some in H; destruct H as [_ H].
  destruct (xEventGroupWaitBits _ events _) as [[[w cm3] ew] |] eqn:Hw; [| discriminate].
  apply xEventGroupWaitBits_signals in Hw as [Hl Hw].
  unfold launches in *.
  destruct w as [bits |].
  - destruct Hw as [-> Hsig]. fold (connected_signal (wifi_event_group_ cm3)) in H.
    fold (failed_signal (wifi_event_group_ cm3)) in H.
    destruct (connected_signal (wifi_event_group_ cm3)) eqn:Hc.
    + inversion H; subst. cbn [wifi_event_group_ set_run_wifi_sta_task_]. rewrite Hc.
      split; [assumption |]. split; [reflexivity |].
      destruct (negb (ip_event_handler_was_initialized_ cm)), (wifi_ap_enabled cfg);
        cbn; rewrite !existsb_app, Hl; cbn; reflexivity.
    + assert (Hr : r = InitReturned false /\ cm' = cm3).
      { destruct (failed_signal (wifi_event_group_ cm3)); inversion H; auto. }
      destruct Hr as [-> ->]. cbv zeta. rewrite Hc.
      split; [assumption |]. split; [reflexivity |].
      destruct (failed_signal (wifi_event_group_ cm3));
        inversion H; subst;
        destruct (negb (ip_event_handler_was_initialized_ cm)), (wifi_ap_enabled cfg);
        cbn; rewrite !existsb_app, Hl; cbn; reflexivity.
  - inversion H; subst. cbv zeta. split; [exact Hw |].
    destruct (negb (ip_event_handler_was_initialized_ cm)), (wifi_ap_enabled cfg);
      cbn; rewrite ?existsb_app, Hl; cbn; reflexivity.
Qed.

(** Called with at most one signal in the event group (none, at a first
    initialization), station-mode WiFiInit returns with at most one. *)
Lemma WiFiInit_one_signal (cfg : WiFiConfig) (env : InitEnv)
    (events : list (wifi_event * Z)) (cm cm' : CommsManager)
    (ok : bool) (effs : list effect) :
  wifi_sta_enabled cfg = true ->
  connected_signal (wifi_event_group_ cm) && failed_signal (wifi_event_group_ cm)
  = false ->
  WiFiInit cfg env events cm = Some (InitReturned ok, cm', effs) ->
  connected_signal (wifi_event_group_ cm') && failed_signal (wifi_event_group_ cm')
  = false.
Proof.
  intros Hsta Hone. unfold WiFiInit. rewrite Hsta.
  destruct (negb (netif_ap_created env)); [discriminate |].
  destruct (negb (netif_sta_created env)); [discriminate |].
  intros H. repeat (apply ESP_ERROR_CHECK_Some in H; destruct H as [_ H]).
  rewrite andb_false_r in H.
  apply ESP_ERROR_CHECK_Some in H; destruct H as [_ H].
  destruct (xEventGroupWaitBits _ events _) as [[[w cm3] ew] |] eqn:Hw; [| discriminate].
  destruct w as [bits |]; [| discriminate].
  pose proof (xEventGroupWaitBits_signals _ _ _ _ _ Hw) as [_ [Hb _]].
  apply xEventGroupWaitBits_one_signal in Hw.
  - subst bits.
    destruct (negb (Z.land (wifi_event_group_ cm3) WIFI_CONNECTED_BIT =? 0));
      [| destruct (negb (Z.land (wifi_event_group_ cm3) WIFI_FAIL_BIT =? 0))];
      inversion H; subst; exact Hw.
  - destruct (wifi_ap_enabled cfg); exact Hone.
Qed.

End Initialization.

Section Queues.
Context {codec : BeastCodec}.

Lemma xQueueSend_full {A} (q : Queue A) (item : A) :
  queue_full q = true -> xQueueSend q item = (errQUEUE_FULL, q).
Proof. unfold xQueueSend. now intros ->. Qed.

Lemma xQueueSend_room {A} (q : Queue A) (item : A) :
  queue_full q = false ->
  xQueueSend q item
  = (pdTRUE, {| q_items := q_items q ++ [item]; q_capacity := q_capacity q |}).
Proof. unfold xQueueSend. now intros ->. Qed.

(** The three outcomes of the broadcast enqueue. *)
Lemma WiFiAccessPointSendMessageToAllStations_cases (m : NetworkMessage)
    (cm : CommsManager) :
  WiFiAccessPointSendMessageToAllStations m cm
  = if negb (run_wifi_ap_task_ cm) then (false, cm, [console LOG_WARNING])
    else if queue_full (wifi_ap_message_queue_ cm) then
      (false, set_wifi_ap_message_queue_ (xQueueReset (wifi_ap_message_queue_ cm)) cm,
       [console LOG_WARNING])
    else
      (true,
       set_wifi_ap_message_queue_
         {| q_items := q_items (wifi_ap_message_queue_ cm) ++ [m];
            q_capacity := q_capacity (wifi_ap_message_queue_ cm) |} cm, []).
Proof.
  unfold WiFiAccessPointSendMessageToAllStations, xQueueSend.
  destruct (negb (run_wifi_ap_task_ cm)); [reflexivity |].
  destruct (queue_full (wifi_ap_message_queue_ cm)); reflexivity.
Qed.

(** The three outcomes of the decoded-packet enqueue. *)
Lemma WiFiStationSendDecodedTransponderPacket_cases (p : DecodedTransponderPacket)
    (cm : CommsManager) :
  WiFiStationSendDecodedTransponderPacket p cm
  = if negb (run_wifi_sta_task_ cm) then (false, cm, [console LOG_WARNING])
    else if queue_full (wifi_sta_decoded_transponder_packet_queue_ cm) then
      (false,
       set_wifi_sta_decoded_transponder_packet_queue_
         (xQueueReset (wifi_sta_decoded_transponder_packet_queue_ cm)) cm,
       [console LOG_WARNING])
    else
      (true,
       set_wifi_sta_decoded_transponder_packet_queue_
         {| q_items := q_items (wifi_sta_decoded_transponder_packet_queue_ cm) ++ [p];
            q_capacity := q_capacity (wifi_sta_decoded_transponder_packet_queue_ cm) |}
         cm, []).
Proof.
  unfold WiFiStationSendDecodedTransponderPacket, xQueueSend.
  destruct (negb (run_wifi_sta_task_ cm)); [reflexivity |].
  destruct (queue_full (wifi_sta_decoded_transponder_packet_queue_ cm)); reflexivity.
Qed.

Lemma queues_kept_refl (cm : CommsManager) : queues_kept cm cm.
Proof. unfold queues_kept; auto. Qed.

Lemma queues_kept_trans (a b c : CommsManager) :
  queues_kept a b -> queues_kept b c -> queues_kept a c.
Proof.
  unfold queues_kept. intros (H1 & H2 & H3 & H4) (K1 & K2 & K3 & K4).
  repeat split; try congruence; auto.
Qed.

Lemma WiFiEventHandler_queues_kept (ev : wifi_event) (c : Z)
    (cm cm' : CommsManager) (effs : list effect) :
  WiFiEventHandler ev c cm = Some (cm', effs) -> queues_kept cm cm'.
Proof.
  destruct ev; cbn;
    repeat match goal with
           | |- context [if ?b then _ else _] => destruct b
           end;
    intros H; inversion H; subst; unfold queues_kept; cbn; auto.
Qed.

Lemma xEventGroupWaitBits_queues_kept (bits : Z) (events : list (wifi_event * Z)) :
  forall cm w cm' effs,
    xEventGroupWaitBits bits events cm = Some (w, cm', effs) -> queues_kept cm cm'.
Proof.
  induction events as [| [ev c] rest IH]; intros cm w cm' effs; cbn [xEventGroupWaitBits].
  - destruct (negb _); intros H; inversion H; subst; apply queues_kept_refl.
  - destruct (negb _); [intros H; inversion H; subst; apply queues_kept_refl |].
    destruct (WiFiEventHandler ev c cm) as [[cm1 effs1] |] eqn:Hh; [| discriminate].
    destruct (xEventGroupWaitBits bits rest cm1) as [[[w2 cm2] effs2] |] eqn:Hw;
      [| discriminate].
    intros H; inversion H; subst.
    eapply queues_kept_trans; [eapply WiFiEventHandler_queues_kept; eauto | eauto].
Qed.

Lemma WiFiInit_queues_kept (cfg : WiFiConfig) (env : InitEnv)
    (events : list (wifi_event * Z)) (cm cm' : CommsManager)
    (r : InitResult) (effs : list effect) :
  WiFiInit cfg env events cm = Some (r, cm', effs) -> queues_kept cm cm'.
Proof.
  unfold WiFiInit.
  destruct (negb (netif_ap_created env)); [discriminate |].
  destruct (negb (netif_sta_created env)); [discriminate |].
  intros H.
  repeat (apply ESP_ERROR_CHECK_Some in H; destruct H as [_ H]).
  destruct (wifi_ap_enabled cfg), (wifi_sta_enabled cfg); cbn [negb andb] in H;
    apply ESP_ERROR_CHECK_Some in H; destruct H as [_ H];
    try (inversion H; subst; unfold queues_kept; cbn; auto; fail);
    (destruct (xEventGroupWaitBits _ events _) as [[[[bits |] cm3] ew] |] eqn:Hw;
     [| | discriminate];
     apply xEventGroupWaitBits_queues_kept in Hw;
     [ destruct (negb (Z.land bits WIFI_CONNECTED_BIT =? 0));
       [| destruct (negb (Z.land bits WIFI_FAIL_BIT =? 0))]
     | ];
     inversion H; subst;
     (eapply queues_kept_trans; [| eapply queues_kept_trans; [exact Hw |]]);
     unfold queues_kept; cbn; auto).
Qed.

(** The guard of both enqueue operations: before the consumer task runs they
    return false and leave the manager as it is. *)
Lemma enqueue_before_task_started (cm : CommsManager) (message : NetworkMessage)
    (decoded_packet : DecodedTransponderPacket) :
  (run_wifi_ap_task_ cm = false ->
   WiFiAccessPointSendMessageToAllStations message cm
   = (false, cm, [console LOG_WARNING]))
  /\ (run_wifi_sta_task_ cm = false ->
      WiFiStationSendDecodedTransponderPacket decoded_packet cm
      = (false, cm, [console LOG_WARNING])).
Proof.
  split; intros Hr.
  - rewrite WiFiAccessPointSendMessageToAllStations_cases, Hr. reflexivity.
  - rewrite WiFiStationSendDecodedTransponderPacket_cases, Hr. reflexivity.
Qed.

End Queues.

Section Shutdown.
Context {codec : BeastCodec}.

Lemma slot_trace_cons (i k : nat) (e : effect) (trace : list (nat * effect)) :
  slot_trace i ((k, e) :: trace)
  = if Nat.eqb k i then e :: slot_trace i trace else slot_trace i trace.
Proof. unfold slot_trace. cbn. now destruct (Nat.eqb k i). Qed.

Lemma WiFiStationTask_shutdown_later_slots (feeds : list FeedSlot) :
  forall j k, (j < k)%nat ->
    slot_trace j (snd (WiFiStationTask_shutdown k feeds)) = [].
Proof.
  induction feeds as [| s rest IH]; intros j k Hjk; cbn [WiFiStationTask_shutdown].
  - reflexivity.
  - specialize (IH j (S k) ltac:(lia)).
    destruct (WiFiStationTask_shutdown (S k) rest) as [rest' effs'].
    destruct (feed_sock_is_connected s); cbn [snd] in *; [| assumption].
    rewrite slot_trace_cons. destruct (Nat.eqb_spec k j); [lia | assumption].
Qed.

(** The exit loop closes the socket of every connected slot and marks every
    slot disconnected; it sends nothing. *)
Lemma WiFiStationTask_shutdown_slot (feeds : list FeedSlot) :
  forall j i s,
    nth_error feeds i = Some s ->
    nth_error (fst (WiFiStationTask_shutdown j feeds)) i
    = Some (set_feed_sock_is_connected false s)
    /\ slot_trace (j + i) (snd (WiFiStationTask_shutdown j feeds))
       = if feed_sock_is_connected s then [sys_close (feed_sock s)] else [].
Proof.
  induction feeds as [| s0 rest IH]; intros j i s Hnth.
  - destruct i; discriminate.
  - cbn [WiFiStationTask_shutdown].
    pose proof (WiFiStationTask_shutdown_later_slots rest j (S j) ltac:(lia)) as Hlater.
    specialize (IH (S j)).
    destruct (WiFiStationTask_shutdown (S j) rest) as [rest' effs'].
    destruct i as [| i]; cbn [nth_error] in Hnth.
    + inversion Hnth; subst s0. rewrite Nat.add_0_r.
      destruct (feed_sock_is_connected s) eqn:Hc; cbn [fst snd nth_error] in *.
      * rewrite slot_trace_cons, Nat.eqb_refl, Hlater. split; reflexivity.
      * split; [| assumption]. destruct s; cbn in *; subst; reflexivity.
    + replace (j + S i)%nat with (S j + i)%nat by lia.
      specialize (IH i s Hnth). cbn [fst snd] in IH.
      destruct (feed_sock_is_connected s0); cbn [fst snd nth_error].
      * rewrite slot_trace_cons. destruct (Nat.eqb_spec j (S j + i)); [lia | exact IH].
      * exact IH.
Qed.

End Shutdown.

Section ClientTable.
Context {codec : BeastCodec}.

Lemma mac_eqb_eq (a b : MACAddress) : mac_eqb a b = true <-> a = b.
Proof.
  unfold mac_eqb. destruct (list_eq_dec Z.eq_dec a b); split; congruence.
Qed.

(** Removing a client keeps the table's size and order, clears the active
    flag of the records carrying the address and touches no other record. *)
Lemma WiFiRemoveClient_slot (mac : MACAddress) (clients : list ClientRecord)
    (i : nat) (c : ClientRecord) :
  nth_error clients i = Some c ->
  nth_error (WiFiRemoveClient mac clients) i
  = Some (if mac_eqb (client_mac c) mac
          then {| client_mac := client_mac c; client_ip := client_ip c;
                  client_active := false |}
          else c).
Proof.
  intros H. unfold WiFiRemoveClient. now rewrite nth_error_map, H.
Qed.

Lemma WiFiRemoveClient_deactivates (mac : MACAddress) (clients : list ClientRecord)
    (c : ClientRecord) :
  In c (WiFiRemoveClient mac clients) -> client_mac c = mac -> client_active c = false.
Proof.
  unfold WiFiRemoveClient. intros Hin Hmac.
  apply in_map_iff in Hin as (c0 & Hc & _).
  destruct (mac_eqb (client_mac c0) mac) eqn:E; subst c; [reflexivity |].
  apply mac_eqb_eq in Hmac. congruence.
Qed.

End ClientTable.

(** * Station reconnection *)

Section StationReconnection.
Context {codec : BeastCodec}.

Lemma filter_fail_of_retry_or_fail (effs : list effect) :
  filter is_fail_signal (filter retry_or_fail effs) = filter is_fail_signal effs.
Proof.
  induction effs as [| e rest IH]; [reflexivity |].
  cbn [filter]. unfold retry_or_fail at 1.
  destruct (is_fail_signal e) eqn:Ef.
  - rewrite orb_true_r. cbn [filter]. rewrite Ef. now f_equal.
  - rewrite orb_false_r. destruct (is_esp_wifi_connect e); [| assumption].
    cbn [filter]. now rewrite Ef.
Qed.

Lemma fail_emissions_shape (k m : nat) :
  fail_emissions (repeat esp_wifi_connect k ++ repeat (xEventGroupSetBits WIFI_FAIL_BIT) m)
  = m.
Proof.
  unfold fail_emissions. rewrite filter_app, length_app.
  assert (H1 : filter is_fail_signal (repeat esp_wifi_connect k) = []).
  { induction k; [reflexivity | assumption]. }
  assert (H2 : filter is_fail_signal (repeat (xEventGroupSetBits WIFI_FAIL_BIT) m)
               = repeat (xEventGroupSetBits WIFI_FAIL_BIT) m).
  { induction m as [| m IH]; [reflexivity |]. cbn [repeat filter].
    replace (is_fail_signal (xEventGroupSetBits WIFI_FAIL_BIT)) with true by reflexivity.
    now f_equal. }
  rewrite H1, H2, repeat_length. reflexivity.
Qed.

(** C1 (amended). Over any run of station-disconnected events, started with
    the retry counter between 0 and 5: the run only aborts if esp_wifi_connect()
    fails; the counter ends at min(start + n, 5) and never exceeds 5; the
    handler reconnects (and increments the counter) exactly on the events it
    meets with the counter below 5, and on every later event of the run it
    raises the failure signal instead, once per event, never reconnecting
    again. The failure bit is set from the first such event on. *)
Theorem sta_reconnect_bounded_then_fail_signal_per_event
    (evs : list (wifi_event * Z)) (cm : CommsManager) :
  forallb is_sta_disconnected (map fst evs) = true ->
  0 <= s_retry_num cm <= kWiFiStaMaxNumReconnectAttempts ->
  (Forall (fun e => snd e = ESP_OK) evs -> handle_events evs cm <> None)
  /\ forall cm' effs,
       handle_events evs cm = Some (cm', effs) ->
       let n := Z.of_nat (List.length evs) in
       let k := Z.min n (kWiFiStaMaxNumReconnectAttempts - s_retry_num cm) in
       s_retry_num cm' = s_retry_num cm + k
       /\ s_retry_num cm' <= kWiFiStaMaxNumReconnectAttempts
       /\ filter retry_or_fail effs
          = repeat esp_wifi_connect (Z.to_nat k)
            ++ repeat (xEventGroupSetBits WIFI_FAIL_BIT) (Z.to_nat (n - k))
       /\ fail_emissions effs = Z.to_nat (n - k)
       /\ (k < n -> fail_bit_set cm' = true).
Proof.
  intros Hall Hc. split; [apply handle_events_no_abort |].
  intros cm' effs Hrun.
  pose proof (sta_disconnected_run evs cm cm' effs Hall Hc Hrun) as H.
  cbv zeta in *. destruct H as (H1 & H2 & H3).
  split; [exact H1 |]. split; [lia |]. split; [exact H2 |]. split; [| exact H3].
  unfold fail_emissions. rewrite <- filter_fail_of_retry_or_fail, H2.
  apply fail_emissions_shape.
Qed.

(** C10. No sequence of operations of the component lowers the retry counter
    (WiFiInit included, which never writes it); hence once the counter has
    reached 5, after any such sequence every station-disconnected event takes
    the terminal branch: it sets the failure bit, does not reconnect and
    leaves the counter where it is. *)
Theorem s_retry_num_never_reset (ops : list operation)
    (st st' : CommsManager * list FeedSlot) :
  run_operations ops st = Some st' ->
  s_retry_num (fst st) <= s_retry_num (fst st')
  /\ (kWiFiStaMaxNumReconnectAttempts <= s_retry_num (fst st) ->
      forall reason connect_ret,
      exists cm'',
        WiFiEventHandler (WIFI_EVENT_STA_DISCONNECTED reason) connect_ret (fst st')
        = Some (cm'', [console LOG_WARNING; xEventGroupClearBits WIFI_CONNECTED_BIT;
                       xEventGroupSetBits WIFI_FAIL_BIT; console LOG_ERROR])
        /\ s_retry_num cm'' = s_retry_num (fst st')
        /\ fail_bit_set cm'' = true).
Proof.
  intros Hrun. apply run_operations_s_retry_num in Hrun. split; [exact Hrun |].
  intros Hmax reason connect_ret.
  rewrite (sta_disconnected_terminal reason connect_ret (fst st')) by lia.
  eexists. split; [reflexivity |]. split; [reflexivity |].
  unfold fail_bit_set. cbn -[Z.lor Z.ldiff Z.testbit]. apply lor_fail_bit.
Qed.

(** C6 (amended). A client-associate event only logs: the manager, and with it
    the client table, is returned unchanged. A client-disassociate event
    replaces the table by WiFiRemoveClient of the event's hardware address:
    same slots, every record carrying that address inactive, every other
    record untouched. *)
Theorem client_events_on_table (mac : MACAddress) (aid connect_ret : Z)
    (cm : CommsManager) :
  WiFiEventHandler (WIFI_EVENT_AP_STACONNECTED mac aid) connect_ret cm
  = Some (cm, [console LOG_INFO])
  /\ exists cm',
       WiFiEventHandler (WIFI_EVENT_AP_STADISCONNECTED mac aid) connect_ret cm
       = Some (cm', [console LOG_INFO])
       /\ wifi_clients_list_ cm' = WiFiRemoveClient mac (wifi_clients_list_ cm)
       /\ List.length (wifi_clients_list_ cm') = List.length (wifi_clients_list_ cm)
       /\ (forall c, In c (wifi_clients_list_ cm') ->
                     client_mac c = mac -> client_active c = false)
       /\ (forall i c, nth_error (wifi_clients_list_ cm) i = Some c ->
                       client_mac c <> mac ->
                       nth_error (wifi_clients_list_ cm') i = Some c).
Proof.
  split; [reflexivity |].
  eexists. split; [reflexivity |]. cbn [wifi_clients_list_ set_wifi_clients_list_].
  split; [reflexivity |]. split; [apply length_map |]. split.
  - intros c. apply WiFiRemoveClient_deactivates.
  - intros i c Hnth Hne. rewrite (WiFiRemoveClient_slot mac _ i c Hnth).
    destruct (mac_eqb (client_mac c) mac) eqn:E; [| reflexivity].
    apply mac_eqb_eq in E. contradiction.
Qed.

End StationReconnection.

(** * Initialization, enqueueing and broadcast *)

Section InitQueuesBroadcast.
Context {codec : BeastCodec}.

(** Once the pending events bring up a signal, the wait returns. *)
Lemma xEventGroupWaitBits_returns (events : list (wifi_event * Z)) :
  forall cm cm1 effs1,
    handle_events events cm = Some (cm1, effs1) ->
    connected_signal (wifi_event_group_ cm1) || failed_signal (wifi_event_group_ cm1)
    = true ->
    exists bits cm' effs,
      xEventGroupWaitBits (Z.lor WIFI_CONNECTED_BIT WIFI_FAIL_BIT) events cm
      = Some (Some bits, cm', effs).
Proof.
  induction events as [| [ev c] rest IH]; intros cm cm1 effs1 Hrun Hsig;
    cbn [xEventGroupWaitBits]; rewrite signal_mask.
  - cbn in Hrun. inversion Hrun; subst. rewrite Hsig. eauto.
  - destruct (connected_signal (wifi_event_group_ cm)
              || failed_signal (wifi_event_group_ cm)); [eauto |].
    cbn [handle_events] in Hrun.
    destruct (WiFiEventHandler ev c cm) as [[cm2 effs2] |]; [| discriminate].
    destruct (handle_events rest cm2) as [[cm3 effs3] |] eqn:Hr; [| discriminate].
    inversion Hrun; subst.
    destruct (IH cm2 cm1 effs3 Hr Hsig) as (bits & cm' & effs & ->). eauto.
Qed.

Lemma WiFiInit_station_returns (cfg : WiFiConfig) (env : InitEnv)
    (events : list (wifi_event * Z)) (cm cm1 : CommsManager) (effs1 : list effect) :
  wifi_sta_enabled cfg = true ->
  env_ok env ->
  handle_events events (state_at_wait cfg cm) = Some (cm1, effs1) ->
  connected_signal (wifi_event_group_ cm1) || failed_signal (wifi_event_group_ cm1)
  = true ->
  exists ok cm' effs, WiFiInit cfg env events cm = Some (InitReturned ok, cm', effs).
Proof.
  intros Hsta (E1 & E2 & E3 & E4 & E5 & E6 & E7 & E8 & E9 & E10) Hrun Hsig.
  unfold WiFiInit, state_at_wait in *.
  rewrite Hsta, E1, E2, E3, E4, E5, E6, E7, E8, E10. rewrite andb_false_r.
  replace (if wifi_ap_enabled cfg then ESP_OK else ESP_OK) with ESP_OK
    by (destruct (wifi_ap_enabled cfg); reflexivity).
  cbn [negb ESP_ERROR_CHECK Z.eqb ESP_OK].
  destruct (xEventGroupWaitBits_returns events _ cm1 effs1 Hrun Hsig)
    as (bits & cm' & effs & ->).
  destruct (negb (Z.land bits WIFI_CONNECTED_BIT =? 0));
    [| destruct (negb (Z.land bits WIFI_FAIL_BIT =? 0))]; eauto.
Qed.

(** C7 (amended). Whenever WiFiInit does not abort: with neither mode enabled
    it stops the radio and returns true at once, creating no task and running
    no event; with station mode enabled it stays blocked as long as neither
    signal is in the event group, returns once one is (and does return when
    the pending events bring one up), creates the forwarder task exactly when
    the connected signal is in the value it observed, and returns that same
    fact: true when connected is observed (also if failed is observed with
    it), false when only failed is. When at most one signal was set at the
    call (none, on a first initialization) at most one is observed, and then
    an observed failed signal always means failure. *)
Theorem WiFiInit_contract (cfg : WiFiConfig) (env : InitEnv)
    (events : list (wifi_event * Z)) (cm cm' : CommsManager)
    (r : InitResult) (effs : list effect) :
  WiFiInit cfg env events cm = Some (r, cm', effs) ->
  (wifi_ap_enabled cfg = false -> wifi_sta_enabled cfg = false ->
     r = InitReturned true
     /\ cm' = set_wifi_was_initialized_ true cm
     /\ (exists setup, effs = setup ++ [esp_wifi_stop; console LOG_INFO]
                       /\ existsb is_esp_wifi_connect setup = false)
     /\ launches wifi_ap_task effs = false
     /\ launches wifi_sta_task effs = false)
  /\ (wifi_sta_enabled cfg = true ->
      let bits := wifi_event_group_ cm' in
      match r with
      | InitBlocked =>
          connected_signal bits || failed_signal bits = false
          /\ launches wifi_sta_task effs = false
      | InitReturned ok =>
          connected_signal bits || failed_signal bits = true
          /\ launches wifi_sta_task effs = connected_signal bits
          /\ ok = connected_signal bits
          /\ (failed_signal bits = true -> connected_signal bits = false -> ok = false)
      end)
  /\ (wifi_sta_enabled cfg = true -> env_ok env ->
      forall cm1 effs1,
        handle_events events (state_at_wait cfg cm) = Some (cm1, effs1) ->
        connected_signal (wifi_event_group_ cm1)
        || failed_signal (wifi_event_group_ cm1) = true ->
        exists ok, r = InitReturned ok)
  /\ (wifi_sta_enabled cfg = true ->
      connected_signal (wifi_event_group_ cm) && failed_signal (wifi_event_group_ cm)
      = false ->
      forall ok, r = InitReturned ok ->
        connected_signal (wifi_event_group_ cm')
        && failed_signal (wifi_event_group_ cm') = false
        /\ (failed_signal (wifi_event_group_ cm') = true -> ok = false)).
Proof.
  intros Hinit. split; [| split; [| split]].
  - intros Hap Hsta. exact (WiFiInit_disabled cfg env events cm Hap Hsta r cm' effs Hinit).
  - intros Hsta.
    pose proof (WiFiInit_station cfg env events cm Hsta r cm' effs Hinit) as H.
    cbv zeta in *. destruct r as [| ok]; [exact H |].
    destruct H as (H1 & H2 & H3). repeat split; auto. intros _ Hc. congruence.
  - intros Hsta Henv cm1 effs1 Hrun Hsig.
    destruct (WiFiInit_station_returns cfg env events cm cm1 effs1 Hsta Henv Hrun Hsig)
      as (ok & cm2 & effs2 & H).
    rewrite H in Hinit. inversion Hinit. eauto.
  - intros Hsta Hone ok ->.
    pose proof (WiFiInit_one_signal cfg env events cm cm' ok effs Hsta Hone Hinit) as H1.
    split; [exact H1 |]. intros Hf. rewrite Hf, andb_true_r in H1.
    pose proof (WiFiInit_station cfg env events cm Hsta _ cm' effs Hinit) as H.
    cbv zeta in H. destruct H as (_ & H & _). congruence.
Qed.

(** C5 (amended). Both enqueue operations first look at the run flag of
    their consumer task. With the task running and the queue full, the call
    returns false, logs a warning and resets that queue to empty; the queue's
    length and the other queue are unchanged. With the task not running the
    call returns false and leaves the manager exactly as it is, a full queue
    included. *)
Theorem enqueue_on_full_queue_fails_and_resets (cm : CommsManager)
    (message : NetworkMessage) (decoded_packet : DecodedTransponderPacket) :
  (run_wifi_ap_task_ cm = true ->
   queue_full (wifi_ap_message_queue_ cm) = true ->
   let '(ok, cm', effs) := WiFiAccessPointSendMessageToAllStations message cm in
   ok = false
   /\ q_items (wifi_ap_message_queue_ cm') = []
   /\ q_capacity (wifi_ap_message_queue_ cm') = q_capacity (wifi_ap_message_queue_ cm)
   /\ wifi_sta_decoded_transponder_packet_queue_ cm'
      = wifi_sta_decoded_transponder_packet_queue_ cm
   /\ effs = [console LOG_WARNING])
  /\ (run_wifi_sta_task_ cm = true ->
      queue_full (wifi_sta_decoded_transponder_packet_queue_ cm) = true ->
      let '(ok, cm', effs) :=
        WiFiStationSendDecodedTransponderPacket decoded_packet cm in
      ok = false
      /\ q_items (wifi_sta_decoded_transponder_packet_queue_ cm') = []
      /\ q_capacity (wifi_sta_decoded_transponder_packet_queue_ cm')
         = q_capacity (wifi_sta_decoded_transponder_packet_queue_ cm)
      /\ wifi_ap_message_queue_ cm' = wifi_ap_message_queue_ cm
      /\ effs = [console LOG_WARNING])
  /\ (run_wifi_ap_task_ cm = false ->
      WiFiAccessPointSendMessageToAllStations message cm
      = (false, cm, [console LOG_WARNING]))
  /\ (run_wifi_sta_task_ cm = false ->
      WiFiStationSendDecodedTransponderPacket decoded_packet cm
      = (false, cm, [console LOG_WARNING])).
Proof.
  pose proof (enqueue_before_task_started cm message decoded_packet) as [Gap Gsta].
  split; [| split; [| split; [exact Gap | exact Gsta]]]; intros Hrun Hfull.
  - rewrite WiFiAccessPointSendMessageToAllStations_cases, Hrun, Hfull.
    cbn. repeat split.
  - rewrite WiFiStationSendDecodedTransponderPacket_cases, Hrun, Hfull.
    cbn. repeat split.
Qed.

(** C4. For the message an iteration of the broadcaster dequeues and every
    slot of the client table: an inactive client gets no sendto(); an active
    client gets between 1 and 3, whatever happened for the other clients;
    attempt k+1 is made only if attempt k failed with ENOMEM; and when fewer
    than 3 attempts were made the last one was a success or a failure other
    than ENOMEM. *)
Theorem broadcast_attempts_per_client (sock : Z) (results : nat -> nat -> SendResult)
    (cm : CommsManager) (message : NetworkMessage) (queued : list NetworkMessage)
    (i : nat) (c : ClientRecord) :
  q_items (wifi_ap_message_queue_ cm) = message :: queued ->
  nth_error (wifi_clients_list_ cm) i = Some c ->
  let trace := snd (WiFiAccessPointTask_iteration sock results cm) in
  let n := sendto_count (slot_trace i trace) in
  (client_active c = false -> n = 0%nat)
  /\ (client_active c = true ->
      (1 <= n <= kWiFiNumRetries)%nat
      /\ (forall k, (S k < n)%nat -> enomem_failure (results i k) = true)
      /\ (forall k, (S k = n)%nat -> (n < kWiFiNumRetries)%nat ->
                    enomem_failure (results i k) = false)).
Proof.
  intros Hq Hnth. unfold WiFiAccessPointTask_iteration, xQueueReceive. rewrite Hq.
  cbn [snd]. cbv zeta.
  pose proof (broadcast_loop_slot sock message results (wifi_clients_list_ cm) 0 i c Hnth)
    as Hslot.
  cbn [plus] in Hslot. rewrite Hslot. unfold send_to_client.
  destruct (client_active c); split; try discriminate; try reflexivity.
  intros _.
  set (call := sys_sendto sock (client_ip c) (msg_port message)
                 (firstn (Z.to_nat (msg_len message)) (msg_data message))).
  pose proof (sendto_retry_loop_calls (results i) call eq_refl kWiFiNumRetries 0 0) as H.
  destruct (sendto_retry_loop kWiFiNumRetries 0 0 (results i) call) as [[ret nt] effs].
  cbv zeta in H. cbn [plus] in H. destruct H as (H1 & H2 & H3 & H4).
  assert (Hcount : sendto_count (if ret <? 0 then effs ++ [console LOG_ERROR] else effs)
                   = sendto_count effs).
  { destruct (ret <? 0); [| reflexivity].
    unfold sendto_count. rewrite filter_app. cbn. now rewrite app_nil_r. }
  rewrite Hcount. unfold kWiFiNumRetries in *.
  split; [specialize (H2 ltac:(lia)); lia |]. split; [exact H3 | exact H4].
Qed.

End InitQueuesBroadcast.

(** * Feed forwarder *)

(** The wrapped difference of two clock readings never exceeds the time that
    really passed between them: a spacing of more than 5000 on the uint32_t
    clock is a spacing of more than 5000 ms. *)
Lemma sub32_le_elapsed (t1 t2 : Z) :
  t1 <= t2 -> sub32 (u32 t2) (u32 t1) <= t2 - t1.
Proof.
  intros Hle. unfold sub32, u32. rewrite <- Zminus_mod.
  apply Z.mod_le; lia.
Qed.

Section Forwarder.
Context {codec : BeastCodec}.

(** C3. In the feed loop run for a dequeued packet, for a slot that is active,
    connected and configured for Beast: an invalid packet makes no call at all
    for the slot and leaves its message counter as it was; a valid packet
    makes exactly one send(), of the frame the codec builds from the packet
    and the feed's receiver id, on the slot's socket, and when that send does
    not fail the counter is incremented (by exactly 1 unless the counter's
    type wraps), while a failed send leaves it unchanged. *)
Theorem beast_feed_sends_valid_packets_only (settings : nat -> FeedConfig)
    (io : nat -> FeedIO) (decoded_packet : DecodedTransponderPacket)
    (feeds : list FeedSlot) (i : nat) (s : FeedSlot) :
  nth_error feeds i = Some s ->
  feed_is_active (settings i) = true ->
  feed_sock_is_connected s = true ->
  feed_protocols (settings i) = kBeast ->
  let '(feeds', trace) := feed_loop settings io decoded_packet 0 feeds in
  exists s',
    nth_error feeds' i = Some s'
    /\ (IsValid decoded_packet = false ->
        slot_trace i trace = []
        /\ feed_mps_counter_ s' = feed_mps_counter_ s)
    /\ (IsValid decoded_packet = true ->
        filter is_sys_send (slot_trace i trace)
        = [sys_send (feed_sock s)
             (TransponderPacketToBeastFramePrependReceiverID decoded_packet
                (feed_receiver_ids (settings i)))]
        /\ (0 <= send_ret (io i) ->
            feed_mps_counter_ s' = incr_counter (feed_mps_counter_ s)
            /\ (0 <= feed_mps_counter_ s ->
                feed_mps_counter_ s + 1 < 2 ^ feed_mps_counter_bits ->
                feed_mps_counter_ s' = feed_mps_counter_ s + 1))
        /\ (send_ret (io i) < 0 -> feed_mps_counter_ s' = feed_mps_counter_ s)).
Proof.
  intros Hnth Ha Hc Hp.
  pose proof (feed_loop_slot settings io decoded_packet feeds 0 i s Hnth) as [H1 H2].
  destruct (feed_loop settings io decoded_packet 0 feeds) as [feeds' trace].
  cbn [fst snd plus] in *.
  rewrite (feed_pass_connected_beast _ _ _ _ Ha Hc Hp) in H1, H2.
  eexists. split; [exact H1 |]. rewrite H2. split.
  - intros Hv. rewrite Hv. cbn. auto.
  - intros Hv. rewrite Hv. cbn [negb].
    destruct (Z.ltb_spec (send_ret (io i)) 0) as [Hneg | Hpos]; cbn.
    + split; [reflexivity |]. split; [lia | reflexivity].
    + split; [reflexivity |]. split; [| lia].
      intros _. split; [reflexivity |].
      intros H0 Hfit. unfold incr_counter. apply Z.mod_small. lia.
Qed.

(** C2 (amended). For every slot: its connection attempts are spaced by more
    than 5000 ms of the millisecond clock ([sub32_le_elapsed]), counted from
    the slot's previous attempt and not from a failed send; and when a send on
    the slot fails in some turn of the task loop, that turn closes the socket
    right after the send and leaves the slot disconnected, and in whatever
    turns follow every further send on the slot comes after a new connection
    attempt, which the same spacing governs. *)
Theorem send_failure_disconnects_and_reconnects_are_rate_limited
    (i : nat) (inp : IterationInput) (cm : CommsManager)
    (feeds : list FeedSlot) (s : FeedSlot) :
  nth_error feeds i = Some s ->
  (forall inputs,
      spaced (feed_sock_last_connect_timestamp_ms s
              :: connect_attempt_times i inputs (cm, feeds)))
  /\ (send_ret (it_io inp i) < 0 ->
      let '(cm1, feeds1, _, trace) := WiFiStationTask_iteration inp (cm, feeds) in
      forall fd bytes,
        In (sys_send fd bytes) (slot_trace i trace) ->
        exists s1,
          nth_error feeds1 i = Some s1
          /\ feed_sock_is_connected s1 = false
          /\ fd = feed_sock s1
          /\ (exists pre,
                 slot_trace i trace
                 = pre ++ [sys_send fd bytes; console LOG_ERROR; sys_close fd])
          /\ forall inputs,
               (forall pre e post,
                   slot_trace i (snd (WiFiStationTask_run inputs (cm1, feeds1)))
                   = pre ++ e :: post ->
                   is_sys_send e = true ->
                   existsb is_sys_socket pre = true)
               /\ spaced (feed_sock_last_connect_timestamp_ms s1
                          :: connect_attempt_times i inputs (cm1, feeds1))).
Proof.
  intros Hnth. split.
  - intros inputs. now apply run_attempts_spaced.
  - intros Hneg.
    pose proof (WiFiStationTask_iteration_slot inp cm feeds i s Hnth) as Hit.
    destruct (WiFiStationTask_iteration inp (cm, feeds)) as [[[cm1 feeds1] es] trace].
    destruct Hit as (s0 & _ & Hcase).
    intros fd bytes Hin.
    destruct Hcase as [[Ht _] | (pkt & Hs1 & Ht)].
    + rewrite Ht in Hin. contradiction.
    + rewrite Ht in *.
      pose proof (feed_pass_send_failure (it_settings inp i) (it_io inp i) pkt s0 Hneg)
        as Hp.
      destruct (feed_pass (it_settings inp i) (it_io inp i) pkt s0) as [s1 effs].
      cbn [fst snd] in *.
      destruct (Hp fd bytes Hin) as (Hd & Hfd & Hpre).
      exists s1. repeat split; auto.
      * intros pre e post Heq He.
        eapply sends_follow_socket_before; [| exact Heq | exact He].
        now apply (run_sends_follow_socket i inputs cm1 feeds1 s1).
      * now apply run_attempts_spaced.
Qed.

Lemma WiFiStationTask_start_slot (feeds : list FeedSlot) (i : nat) (s : FeedSlot) :
  nth_error feeds i = Some s ->
  exists s0,
    nth_error (WiFiStationTask_start feeds) i = Some s0
    /\ feed_sock_is_connected s0 = false.
Proof.
  intros H. unfold WiFiStationTask_start. rewrite nth_error_map, H.
  cbn. eexists. split; reflexivity.
Qed.

(** C8 (amended). For every slot, provided socket() never hands out
    descriptor 0: from task start on, after any number of turns of the task
    loop and at every point of the slot's trace, at most one descriptor is
    open; a socket is created only in a pass the slot enters disconnected;
    whenever a pass leaves the slot disconnected no descriptor of the slot
    remains open (a slot that was connected has had close() called on its
    socket); in a turn that dequeues a packet, a slot configured inactive has
    its socket closed, is left disconnected, and nothing is sent on it; and
    the exit loop of the task closes every socket still open. *)
Theorem feed_sockets_at_most_one_open (i : nat) (feeds : list FeedSlot) (s : FeedSlot) :
  nth_error feeds i = Some s ->
  (forall inputs cm,
      Forall (fun inp => socket_ret (it_io inp i) <> 0) inputs ->
      let trace :=
        slot_trace i (snd (WiFiStationTask_run inputs (cm, WiFiStationTask_start feeds))) in
      forall k, (List.length (sockets_open (firstn k trace) []) <= 1)%nat)
  /\ (forall cfg io pkt,
         existsb is_sys_socket (snd (feed_pass cfg io pkt s)) = true ->
         feed_sock_is_connected s = false)
  /\ (forall cfg io pkt open,
         socket_accounted s open ->
         socket_ret io <> 0 ->
         feed_sock_is_connected (fst (feed_pass cfg io pkt s)) = false ->
         sockets_open (snd (feed_pass cfg io pkt s)) open = []
         /\ (feed_sock_is_connected s = true ->
             In (sys_close (feed_sock s)) (snd (feed_pass cfg io pkt s))))
  /\ (forall inp cm pkt queued,
         q_items (wifi_sta_decoded_transponder_packet_queue_ cm) = pkt :: queued ->
         feed_is_active (it_settings inp i) = false ->
         let '(_, feeds1, _, trace) := WiFiStationTask_iteration inp (cm, feeds) in
         exists s1,
           nth_error feeds1 i = Some s1
           /\ feed_sock_is_connected s1 = false
           /\ slot_trace i trace
              = (if feed_sock_is_connected s
                 then [sys_close (feed_sock s); console LOG_INFO] else [])
           /\ filter is_sys_send (slot_trace i trace) = [])
  /\ (forall open,
         socket_accounted s open ->
         let '(feeds', trace) := WiFiStationTask_shutdown 0 feeds in
         nth_error feeds' i = Some (set_feed_sock_is_connected false s)
         /\ sockets_open (slot_trace i trace) open = []).
Proof.
  intros Hnth. split; [| split; [| split; [| split]]].
  - intros inputs cm Hio. cbv zeta.
    destruct (WiFiStationTask_start_slot feeds i s Hnth) as (s0 & Hs0 & Hd).
    pose proof (run_sockets i inputs cm (WiFiStationTask_start feeds) s0 [] Hs0) as H.
    assert (Hacc : socket_accounted s0 []) by (unfold socket_accounted; now rewrite Hd).
    specialize (H Hacc Hio).
    destruct (WiFiStationTask_run inputs (cm, WiFiStationTask_start feeds))
      as [[cm2 feeds2] trace].
    cbn [snd]. apply H.
  - intros cfg io pkt Hs.
    pose proof (feed_pass_attempt cfg io pkt s) as H.
    destruct (feed_pass cfg io pkt s) as [s' effs]. cbn [snd] in Hs.
    rewrite Hs in H. tauto.
  - intros cfg io pkt open Hacc Hio Hd.
    pose proof (feed_pass_sockets cfg io pkt s open Hacc Hio) as H.
    pose proof (feed_pass_close_before_disconnect cfg io pkt s) as Hclose.
    destruct (feed_pass cfg io pkt s) as [s' effs]. cbn [fst snd] in *.
    destruct H as [H _]. unfold socket_accounted in H. rewrite Hd in H.
    split; [exact H | auto].
  - intros inp cm pkt queued Hq Hinactive.
    unfold WiFiStationTask_iteration.
    destruct (update_feed_stats_slot (it_timestamp_ms inp) cm feeds i s Hnth)
      as (s0 & Hs0 & Hconn).
    pose proof (update_feed_stats_queue (it_timestamp_ms inp) cm feeds) as Hqueue.
    destruct (update_feed_stats _ cm feeds) as [[cm1 feeds1] es]. cbn [fst snd] in *.
    unfold xQueueReceive. rewrite Hqueue, Hq.
    pose proof (feed_loop_slot (it_settings inp) (it_io inp) pkt feeds1 0 i s0 Hs0)
      as [H1 H2].
    destruct (feed_loop _ _ pkt 0 feeds1) as [feeds2 trace]. cbn [fst snd plus] in *.
    rewrite (feed_pass_inactive _ _ _ _ Hinactive) in H1, H2.
    apply connection_of_eq in Hconn as (Hf & Hc & _). rewrite Hf, Hc in *.
    destruct (feed_sock_is_connected s) eqn:Hcs; cbn [fst snd] in *.
    + eexists. split; [exact H1 |]. rewrite H2. repeat split; reflexivity.
    + exists s0. split; [exact H1 |]. rewrite H2. repeat split; auto.
  - intros open Hacc.
    pose proof (WiFiStationTask_shutdown_slot feeds 0 i s Hnth) as [H1 H2].
    destruct (WiFiStationTask_shutdown 0 feeds) as [feeds' trace].
    cbn [fst snd plus] in *. split; [exact H1 |]. rewrite H2.
    unfold socket_accounted in Hacc. subst open.
    destruct (feed_sock_is_connected s); [| reflexivity].
    cbn. destruct (Z.eq_dec (feed_sock s) (feed_sock s)); congruence.
Qed.

End Forwarder.

(** * Further properties of the event handler and of initialization *)

Section ManagerInvariants.
Context {codec : BeastCodec}.

Lemma manager_kept_refl (cm : CommsManager) : manager_kept cm cm.
Proof. unfold manager_kept. repeat split; auto. Qed.

Lemma manager_kept_trans (a b c : CommsManager) :
  manager_kept a b -> manager_kept b c -> manager_kept a c.
Proof.
  unfold manager_kept.
  intros (A1 & A2 & A3 & A4 & A5 & A6 & A7 & A8) (B1 & B2 & B3 & B4 & B5 & B6 & B7 & B8).
  repeat split; auto; congruence.
Qed.

Lemma WiFiEventHandler_manager_kept (ev : wifi_event) (c : Z)
    (cm cm' : CommsManager) (effs : list effect) :
  WiFiEventHandler ev c cm = Some (cm', effs) -> manager_kept cm cm'.
Proof.
  intros H. pose proof (WiFiEventHandler_monotone _ _ _ _ _ H) as [_ Hfail].
  unfold manager_kept. split; [exact Hfail |]. clear Hfail.
  destruct ev; cbn in H;
    repeat match type of H with
           | context [if ?b then _ else _] => destruct b
           end;
    inversion H; subst; cbn; repeat split; auto; discriminate.
Qed.

Lemma xEventGroupWaitBits_manager_kept (bits : Z) (events : list (wifi_event * Z)) :
  forall cm w cm' effs,
    xEventGroupWaitBits bits events cm = Some (w, cm', effs) -> manager_kept cm cm'.
Proof.
  induction events as [| [ev c] rest IH]; intros cm w cm' effs; cbn [xEventGroupWaitBits].
  - destruct (negb _); intros H; inversion H; subst; apply manager_kept_refl.
  - destruct (negb _); [intros H; inversion H; subst; apply manager_kept_refl |].
    destruct (WiFiEventHandler ev c cm) as [[cm1 e1] |] eqn:Hh; [| discriminate].
    destruct (xEventGroupWaitBits bits rest cm1) as [[[w2 cm2] e2] |] eqn:Hw;
      [| discriminate].
    intros H; inversion H; subst.
    eapply manager_kept_trans;
      [eapply WiFiEventHandler_manager_kept | eapply IH]; eassumption.
Qed.

(** WiFiInit read backwards: a call that did not abort met no failing check,
    reached the state at the wait, and with station mode enabled the result is
    read off what the wait returned. *)
Lemma WiFiInit_inv (cfg : WiFiConfig) (env : InitEnv)
    (events : list (wifi_event * Z)) (cm cm' : CommsManager)
    (r : InitResult) (effs : list effect) :
  WiFiInit cfg env events cm = Some (r, cm', effs) ->
  env_ok_for cfg env
  /\ if wifi_sta_enabled cfg then
       exists w cm3 ew,
         xEventGroupWaitBits (Z.lor WIFI_CONNECTED_BIT WIFI_FAIL_BIT) events
           (state_at_wait cfg cm) = Some (w, cm3, ew)
         /\ (r, cm') =
            match w with
            | None => (InitBlocked, cm3)
            | Some bits =>
                if connected_signal bits
                then (InitReturned true, set_run_wifi_sta_task_ true cm3)
                else (InitReturned false, cm3)
            end
     else r = InitReturned true /\ cm' = state_at_wait cfg cm.
Proof.
  unfold WiFiInit, env_ok_for, state_at_wait.
  destruct (netif_ap_created env); [| discriminate].
  destruct (netif_sta_created env); [| discriminate]. cbn [negb].
  intros H.
  apply ESP_ERROR_CHECK_Some in H as [E1 H].
  apply ESP_ERROR_CHECK_Some in H as [E2 H].
  apply ESP_ERROR_CHECK_Some in H as [E3 H].
  apply ESP_ERROR_CHECK_Some in H as [E4 H].
  apply ESP_ERROR_CHECK_Some in H as [E5 H].
  apply ESP_ERROR_CHECK_Some in H as [E6 H].
  assert (Hwait : forall cm2 effs_started,
             match xEventGroupWaitBits (Z.lor WIFI_CONNECTED_BIT WIFI_FAIL_BIT)
                     events cm2 with
             | None => None
             | Some (None, cm3, effs_wait) =>
                 Some (InitBlocked, cm3, effs_started ++ [console LOG_INFO] ++ effs_wait)
             | Some (Some bits, cm3, effs_wait) =>
                 let effs_waited := effs_started ++ [console LOG_INFO] ++ effs_wait in
                 if negb (Z.land bits WIFI_CONNECTED_BIT =? 0) then
                   Some (InitReturned true, set_run_wifi_sta_task_ true cm3,
                         effs_waited
                         ++ [console LOG_INFO; xTaskCreatePinnedToCore wifi_sta_task])
                 else if negb (Z.land bits WIFI_FAIL_BIT =? 0) then
                   Some (InitReturned false, cm3, effs_waited ++ [console LOG_ERROR])
                 else
                   Some (InitReturned false, cm3, effs_waited ++ [console LOG_ERROR])
             end = Some (r, cm', effs) ->
             exists w cm3 ew,
               xEventGroupWaitBits (Z.lor WIFI_CONNECTED_BIT WIFI_FAIL_BIT) events cm2
               = Some (w, cm3, ew)
               /\ (r, cm') =
                  match w with
                  | None => (InitBlocked, cm3)
                  | Some bits =>
                      if connected_signal bits
                      then (InitReturned true, set_run_wifi_sta_task_ true cm3)
                      else (InitReturned false, cm3)
                  end).
  { intros cm2 effs_started.
    destruct (xEventGroupWaitBits _ events cm2) as [[[[bits |] cm3] ew] |];
      [| | discriminate]; intros Hr; do 3 eexists; (split; [reflexivity |]).
    - unfold connected_signal. cbv zeta in Hr.
      destruct (negb (Z.land bits WIFI_CONNECTED_BIT =? 0));
        [| destruct (negb (Z.land bits WIFI_FAIL_BIT =? 0))];
        inversion Hr; subst; reflexivity.
    - inversion Hr; subst; reflexivity. }
  destruct (wifi_ap_enabled cfg), (wifi_sta_enabled cfg); cbn [negb andb orb] in *;
    apply ESP_ERROR_CHECK_Some in H as [E7 H];
    (split; [repeat split; auto; intros; discriminate |]).
  - apply Hwait in H. exact H.
  - inversion H; subst; split; reflexivity.
  - apply Hwait in H. exact H.
  - inversion H; subst; split; reflexivity.
Qed.

Lemma state_at_wait_manager_kept (cfg : WiFiConfig) (cm : CommsManager) :
  manager_kept cm (state_at_wait cfg cm).
Proof.
  unfold state_at_wait, manager_kept.
  destruct (wifi_ap_enabled cfg); cbn; repeat split; auto.
Qed.

Lemma WiFiInit_manager_kept (cfg : WiFiConfig) (env : InitEnv)
    (events : list (wifi_event * Z)) (cm cm' : CommsManager)
    (r : InitResult) (effs : list effect) :
  WiFiInit cfg env events cm = Some (r, cm', effs) -> manager_kept cm cm'.
Proof.
  intros H. apply WiFiInit_inv in H as [_ H].
  destruct (wifi_sta_enabled cfg).
  - destruct H as (w & cm3 & ew & Hw & Hr).
    apply xEventGroupWaitBits_manager_kept in Hw.
    eapply manager_kept_trans; [apply (state_at_wait_manager_kept cfg) |].
    eapply manager_kept_trans; [exact Hw |].
    destruct w as [bits |]; [destruct (connected_signal bits) |];
      inversion Hr; subst; try apply manager_kept_refl.
    unfold manager_kept. cbn. repeat split; auto.
  - destruct H as [_ ->]. apply state_at_wait_manager_kept.
Qed.

Lemma WiFiInit_initializes (cfg : WiFiConfig) (env : InitEnv)
    (events : list (wifi_event * Z)) (cm cm' : CommsManager)
    (r : InitResult) (effs : list effect) :
  WiFiInit cfg env events cm = Some (r, cm', effs) -> wifi_was_initialized_ cm' = true.
Proof.
  intros H. apply WiFiInit_inv in H as [_ H].
  assert (Hs : wifi_was_initialized_ (state_at_wait cfg cm) = true)
    by (unfold state_at_wait; destruct (wifi_ap_enabled cfg); reflexivity).
  destruct (wifi_sta_enabled cfg).
  - destruct H as (w & cm3 & ew & Hw & Hr).
    apply xEventGroupWaitBits_manager_kept in Hw.
    destruct Hw as (_ & _ & Hi & _). specialize (Hi Hs).
    destruct w as [bits |]; [destruct (connected_signal bits) |];
      inversion Hr; subst; assumption.
  - destruct H as [_ ->]. exact Hs.
Qed.

Lemma step_manager_kept (op : operation) (st st' : CommsManager * list FeedSlot) :
  step op st = Some st' -> manager_kept (fst st) (fst st').
Proof.
  destruct st as [cm feeds].
  destruct op as [ev c | cfg env events | | p | m | sock results | | inp |];
    cbn [step fst].
  - destruct (WiFiEventHandler ev c cm) as [[cm1 e] |] eqn:Hh; [| discriminate].
    intros H; inversion H; subst. cbn. eapply WiFiEventHandler_manager_kept; eauto.
  - destruct (WiFiInit cfg env events cm) as [[[r cm1] e] |] eqn:Hi; [| discriminate].
    intros H; inversion H; subst. cbn. eapply WiFiInit_manager_kept; eauto.
  - unfold WiFiDeInit. destruct (negb _); [| discriminate].
    intros H; inversion H; subst. apply manager_kept_refl.
  - rewrite WiFiStationSendDecodedTransponderPacket_cases.
    destruct (negb (run_wifi_sta_task_ cm));
      [intros H; inversion H; subst; apply manager_kept_refl |].
    destruct (queue_full _) eqn:Hf; intros H; inversion H; subst;
      unfold manager_kept, queue_bounded; cbn; repeat split; auto; try lia.
    intros _. rewrite length_app. cbn. unfold queue_full in Hf.
    apply Nat.leb_gt in Hf. lia.
  - rewrite WiFiAccessPointSendMessageToAllStations_cases.
    destruct (negb (run_wifi_ap_task_ cm));
      [intros H; inversion H; subst; apply manager_kept_refl |].
    destruct (queue_full _) eqn:Hf; intros H; inversion H; subst;
      unfold manager_kept, queue_bounded; cbn; repeat split; auto; try lia.
    intros _. rewrite length_app. cbn. unfold queue_full in Hf.
    apply Nat.leb_gt in Hf. lia.
  - destruct (run_wifi_ap_task_ cm);
      [| intros H; inversion H; subst; apply manager_kept_refl].
    unfold WiFiAccessPointTask_iteration, xQueueReceive.
    destruct (q_items (wifi_ap_message_queue_ cm)) as [| message q] eqn:Hq;
      intros H; inversion H; subst; [apply manager_kept_refl |].
    unfold manager_kept, queue_bounded; cbn; repeat split; auto.
    rewrite Hq. cbn. lia.
  - destruct (wifi_sta_has_ip_ cm); intros H; inversion H; subst;
      apply manager_kept_refl.
  - destruct (run_wifi_sta_task_ cm);
      [| intros H; inversion H; subst; apply manager_kept_refl].
    unfold WiFiStationTask_iteration, update_feed_stats.
    destruct (kMsPerSec <? _); cbn [fst snd];
      unfold xQueueReceive;
      cbn [wifi_sta_decoded_transponder_packet_queue_
             set_feed_mps_last_update_timestamp_ms_];
      (destruct (q_items (wifi_sta_decoded_transponder_packet_queue_ cm))
         as [| pkt q] eqn:Hq;
       [intros H; inversion H; subst;
        unfold manager_kept; cbn; repeat split; auto |]);
      destruct (feed_loop _ _ pkt 0 _) as [feeds2 tr];
      intros H; inversion H; subst;
      unfold manager_kept, queue_bounded; cbn; repeat split; auto;
      rewrite Hq; cbn; lia.
  - intros H; inversion H; subst; apply manager_kept_refl.
Qed.

Lemma run_operations_manager_kept (ops : list operation) :
  forall st st',
    run_operations ops st = Some st' -> manager_kept (fst st) (fst st').
Proof.
  induction ops as [| op rest IH]; intros st st'; cbn [run_operations].
  - intros H; inversion H; subst. apply manager_kept_refl.
  - destruct (step op st) as [st1 |] eqn:Hs; [| discriminate].
    intros H. eapply manager_kept_trans; [eapply step_manager_kept | eapply IH]; eauto.
Qed.

End ManagerInvariants.

Section HandlerAndInit.
Context {codec : BeastCodec}.

Lemma connected_signal_ldiff (g : Z) :
  connected_signal (Z.ldiff g WIFI_CONNECTED_BIT) = false.
Proof.
  rewrite connected_signal_bit, Z.ldiff_spec. unfold WIFI_CONNECTED_BIT.
  cbn. apply andb_false_r.
Qed.

Lemma connected_signal_lor_fail (g : Z) :
  connected_signal (Z.lor g WIFI_FAIL_BIT) = connected_signal g.
Proof.
  rewrite !connected_signal_bit, Z.lor_spec. unfold WIFI_FAIL_BIT.
  cbn. apply orb_false_r.
Qed.

Lemma failed_signal_ldiff (g : Z) :
  failed_signal (Z.ldiff g WIFI_CONNECTED_BIT) = failed_signal g.
Proof. rewrite !failed_signal_bit. apply ldiff_connected_keeps_fail. Qed.

Lemma failed_signal_lor_fail (g : Z) : failed_signal (Z.lor g WIFI_FAIL_BIT) = true.
Proof. rewrite failed_signal_bit. apply lor_fail_bit. Qed.

Lemma xEventGroupWaitBits_run_flags (bits : Z) (events : list (wifi_event * Z)) :
  forall cm w cm' effs,
    xEventGroupWaitBits bits events cm = Some (w, cm', effs) ->
    run_wifi_sta_task_ cm' = run_wifi_sta_task_ cm
    /\ run_wifi_ap_task_ cm' = run_wifi_ap_task_ cm.
Proof.
  induction events as [| [ev c] rest IH]; intros cm w cm' effs; cbn [xEventGroupWaitBits].
  - destruct (negb _); intros H; inversion H; subst; auto.
  - destruct (negb _); [intros H; inversion H; subst; auto |].
    destruct (WiFiEventHandler ev c cm) as [[cm1 e1] |] eqn:Hh; [| discriminate].
    destruct (xEventGroupWaitBits bits rest cm1) as [[[w2 cm2] e2] |] eqn:Hw;
      [| discriminate].
    intros H; inversion H; subst. apply IH in Hw as [-> ->].
    destruct ev; cbn in Hh;
      repeat match type of Hh with
             | context [if ?b then _ else _] => destruct b
             end;
      inversion Hh; subst; auto.
Qed.

(** A wait entered with a signal already in the event group returns at once:
    no event is handled. *)
Lemma xEventGroupWaitBits_at_once (events : list (wifi_event * Z)) (cm : CommsManager) :
  connected_signal (wifi_event_group_ cm) || failed_signal (wifi_event_group_ cm) = true ->
  xEventGroupWaitBits (Z.lor WIFI_CONNECTED_BIT WIFI_FAIL_BIT) events cm
  = Some (Some (wifi_event_group_ cm), cm, []).
Proof.
  intros H. destruct events as [| [ev c] rest]; cbn [xEventGroupWaitBits];
    rewrite signal_mask, H; reflexivity.
Qed.

Lemma state_at_wait_event_group (cfg : WiFiConfig) (cm : CommsManager) :
  wifi_event_group_ (state_at_wait cfg cm) = wifi_event_group_ cm.
Proof. unfold state_at_wait. destruct (wifi_ap_enabled cfg); reflexivity. Qed.

(** WiFiInit with every checked call succeeding, up to the wait. *)
Lemma WiFiInit_env_ok (cfg : WiFiConfig) (env : InitEnv)
    (events : list (wifi_event * Z)) (cm : CommsManager) :
  env_ok_for cfg env ->
  exists effs_started,
    existsb is_esp_wifi_connect effs_started = false
    /\ launches wifi_sta_task effs_started = false
    /\ launches wifi_ap_task effs_started = wifi_ap_enabled cfg
    /\ (wifi_ap_enabled cfg = true -> wifi_sta_enabled cfg = false ->
        In (esp_wifi_set_mode WIFI_MODE_AP) effs_started)
    /\ WiFiInit cfg env events cm =
       if wifi_sta_enabled cfg then
         match xEventGroupWaitBits (Z.lor WIFI_CONNECTED_BIT WIFI_FAIL_BIT) events
                 (state_at_wait cfg cm) with
         | None => None
         | Some (None, cm3, effs_wait) =>
             Some (InitBlocked, cm3, effs_started ++ [console LOG_INFO] ++ effs_wait)
         | Some (Some bits, cm3, effs_wait) =>
             if connected_signal bits then
               Some (InitReturned true, set_run_wifi_sta_task_ true cm3,
                     (effs_started ++ [console LOG_INFO] ++ effs_wait)
                     ++ [console LOG_INFO; xTaskCreatePinnedToCore wifi_sta_task])
             else
               Some (InitReturned false, cm3,
                     (effs_started ++ [console LOG_INFO] ++ effs_wait)
                     ++ [console LOG_ERROR])
         end
       else Some (InitReturned true, state_at_wait cfg cm, effs_started).
Proof.
  unfold env_ok_for, WiFiInit, state_at_wait, connected_signal.
  intros (E1 & E2 & E3 & E4 & E5 & E6 & E7 & E8 & E9).
  rewrite E1, E2, E3, E4, E5, E6. cbn [negb ESP_ERROR_CHECK Z.eqb ESP_OK].
  destruct (wifi_ap_enabled cfg), (wifi_sta_enabled cfg); cbn [negb andb orb] in *;
    rewrite ?(E7 eq_refl), ?(E8 eq_refl), E9; cbn [ESP_ERROR_CHECK Z.eqb ESP_OK];
    destruct (negb (ip_event_handler_was_initialized_ cm));
    eexists; (split; [| split; [| split; [| split; [| ]]]]);
    try match goal with
        | |- _ = _ :> option _ =>
            first
              [ reflexivity
              | destruct (xEventGroupWaitBits _ events _) as [[[[bits |] cm3] ew] |];
                [ destruct (negb (Z.land bits WIFI_CONNECTED_BIT =? 0));
                  [| destruct (negb (Z.land bits WIFI_FAIL_BIT =? 0))]
                | | ];
                reflexivity ]
        end;
    try reflexivity; try (intros; discriminate);
    try (intros _ _; cbn; auto 10).
Qed.

(** X1. The handler ends the firmware (ESP_ERROR_CHECK) exactly when it calls
    esp_wifi_connect() and that call does not return ESP_OK, and it makes that
    call exactly on a station-start event and on a station-disconnected event
    met with the retry counter below 5. *)
Theorem WiFiEventHandler_aborts_iff_connect_fails (ev : wifi_event)
    (connect_ret : Z) (cm : CommsManager) :
  (WiFiEventHandler ev connect_ret cm = None
   <-> calls_esp_wifi_connect ev cm = true /\ connect_ret <> ESP_OK)
  /\ forall cm' effs,
       WiFiEventHandler ev connect_ret cm = Some (cm', effs) ->
       existsb is_esp_wifi_connect effs = calls_esp_wifi_connect ev cm.
Proof.
  split.
  - destruct ev; cbn [WiFiEventHandler calls_esp_wifi_connect s_retry_num
                        set_wifi_sta_has_ip_ set_wifi_event_group_];
      try (split; [discriminate | intros [H _]; discriminate H]).
    + destruct (Z.eqb_spec connect_ret ESP_OK) as [-> | Hne].
      * split; [discriminate | intros [_ H]; now contradiction H].
      * split; auto.
    + destruct (s_retry_num cm <? kWiFiStaMaxNumReconnectAttempts).
      * destruct (Z.eqb_spec connect_ret ESP_OK) as [-> | Hne].
        -- split; [discriminate | intros [_ H]; now contradiction H].
        -- split; auto.
      * split; [discriminate | intros [H _]; discriminate H].
  - intros cm' effs.
    destruct ev; cbn [WiFiEventHandler calls_esp_wifi_connect s_retry_num
                        set_wifi_sta_has_ip_ set_wifi_event_group_];
      repeat match goal with
             | |- context [if ?b then _ else _] => destruct b
             end;
      intros H; inversion H; subst; reflexivity.
Qed.

(** X2. Whichever branch a station-disconnected event takes, when the handler
    returns the connected signal is clear and wifi_sta_has_ip_ is false; the
    failure signal is set afterwards exactly if it was set before or the
    retry counter had reached 5. *)
Theorem sta_disconnected_drops_connection (reason connect_ret : Z)
    (cm cm' : CommsManager) (effs : list effect) :
  WiFiEventHandler (WIFI_EVENT_STA_DISCONNECTED reason) connect_ret cm
  = Some (cm', effs) ->
  connected_signal (wifi_event_group_ cm') = false
  /\ wifi_sta_has_ip_ cm' = false
  /\ In (xEventGroupClearBits WIFI_CONNECTED_BIT) effs
  /\ failed_signal (wifi_event_group_ cm')
     = failed_signal (wifi_event_group_ cm)
       || (kWiFiStaMaxNumReconnectAttempts <=? s_retry_num cm).
Proof.
  cbn [WiFiEventHandler s_retry_num set_wifi_sta_has_ip_ set_wifi_event_group_
         wifi_event_group_].
  destruct (Z.ltb_spec (s_retry_num cm) kWiFiStaMaxNumReconnectAttempts) as [Hlt | Hge].
  - destruct (connect_ret =? ESP_OK); [| discriminate].
    intros H; inversion H; subst; cbn.
    rewrite connected_signal_ldiff, failed_signal_ldiff.
    replace (kWiFiStaMaxNumReconnectAttempts <=? s_retry_num cm) with false
      by (symmetry; apply Z.leb_gt; exact Hlt).
    rewrite orb_false_r.
    repeat split; try reflexivity. right; left; reflexivity.
  - intros H; inversion H; subst; cbn.
    rewrite connected_signal_lor_fail, connected_signal_ldiff, failed_signal_lor_fail.
    replace (kWiFiStaMaxNumReconnectAttempts <=? s_retry_num cm) with true
      by (symmetry; apply Z.leb_le; exact Hge).
    rewrite orb_true_r.
    repeat split; try reflexivity. right; left; reflexivity.
Qed.

(** X3. No operation of the component clears the failure signal: once
    WIFI_FAIL_BIT is set it is set after every further sequence of operations,
    and a station-mode WiFiInit called then never stays blocked in its wait. *)
Theorem failure_signal_is_never_cleared (ops : list operation)
    (st st' : CommsManager * list FeedSlot) :
  run_operations ops st = Some st' ->
  fail_bit_set (fst st) = true ->
  fail_bit_set (fst st') = true
  /\ forall cfg env events r cm'' effs,
       wifi_sta_enabled cfg = true ->
       WiFiInit cfg env events (fst st') = Some (r, cm'', effs) ->
       r <> InitBlocked.
Proof.
  intros Hrun Hfail.
  apply run_operations_manager_kept in Hrun as (Hk & _).
  specialize (Hk Hfail). split; [exact Hk |].
  intros cfg env events r cm'' effs Hsta Hinit ->.
  pose proof (WiFiInit_manager_kept _ _ _ _ _ _ _ Hinit) as (Hk2 & _).
  specialize (Hk2 Hk).
  apply (WiFiInit_station _ _ _ _ Hsta) in Hinit. cbv zeta in Hinit.
  destruct Hinit as [Hnone _].
  unfold fail_bit_set in Hk2. rewrite <- failed_signal_bit in Hk2.
  rewrite Hk2, orb_true_r in Hnone. discriminate.
Qed.

(** X4. Nothing in comms_wifi.cpp sets wifi_sta_has_ip_: a sequence of its
    operations can only find the flag set if it was set before (by the IP
    event handler, which lives elsewhere). *)
Theorem wifi_sta_has_ip_is_never_raised (ops : list operation)
    (st st' : CommsManager * list FeedSlot) :
  run_operations ops st = Some st' ->
  wifi_sta_has_ip_ (fst st) = false ->
  wifi_sta_has_ip_ (fst st') = false.
Proof.
  intros Hrun Hno.
  apply run_operations_manager_kept in Hrun as (_ & Hk & _).
  destruct (wifi_sta_has_ip_ (fst st')); [| reflexivity].
  rewrite (Hk eq_refl) in Hno. discriminate.
Qed.

Lemma run_operations_no_deinit (ops : list operation) :
  forall st st',
    run_operations ops st = Some st' ->
    wifi_was_initialized_ (fst st) = true ->
    ~ In op_WiFiDeInit ops.
Proof.
  induction ops as [| op rest IH]; intros st st'; cbn [run_operations In].
  - auto.
  - destruct (step op st) as [st1 |] eqn:Hs; [| discriminate].
    intros Hrun Hinit [Heq | Hin].
    + subst op. destruct st as [cm feeds]. cbn in Hs, Hinit.
      unfold WiFiDeInit in Hs. rewrite Hinit in Hs. discriminate.
    + apply step_manager_kept in Hs as (_ & _ & Hk & _).
      exact (IH _ _ Hrun (Hk Hinit) Hin).
Qed.

(** X5. After any WiFiInit that did not abort, and whatever operations
    followed, WiFiDeInit restarts the chip instead of returning; so a run that
    goes on after WiFiInit contains no WiFiDeInit. *)
Theorem WiFiDeInit_restarts_once_initialized (cfg : WiFiConfig) (env : InitEnv)
    (events : list (wifi_event * Z)) (cm cm1 : CommsManager) (r : InitResult)
    (effs : list effect) (ops : list operation) (feeds : list FeedSlot)
    (st' : CommsManager * list FeedSlot) :
  WiFiInit cfg env events cm = Some (r, cm1, effs) ->
  run_operations ops (cm1, feeds) = Some st' ->
  WiFiDeInit (fst st') = None /\ ~ In op_WiFiDeInit ops.
Proof.
  intros Hinit Hrun. apply WiFiInit_initializes in Hinit.
  split.
  - apply run_operations_manager_kept in Hrun as (_ & _ & Hk & _).
    unfold WiFiDeInit. cbn [fst] in Hk. now rewrite (Hk Hinit).
  - eapply run_operations_no_deinit; eauto.
Qed.

(** X6. WiFiInit runs to its end (returning, or blocked in its wait) exactly
    when every call it checks succeeds: both netifs are created, the
    hostname, init, handler registration and mode calls return ESP_OK,
    esp_wifi_set_config does for each enabled interface, esp_wifi_stop does
    when both are disabled and esp_wifi_start does otherwise; and, in station
    mode, no event handled during the wait aborts. *)
Theorem WiFiInit_completes_iff_calls_succeed (cfg : WiFiConfig) (env : InitEnv)
    (events : list (wifi_event * Z)) (cm : CommsManager) :
  WiFiInit cfg env events cm <> None
  <-> env_ok_for cfg env
      /\ (wifi_sta_enabled cfg = true ->
          xEventGroupWaitBits (Z.lor WIFI_CONNECTED_BIT WIFI_FAIL_BIT) events
            (state_at_wait cfg cm) <> None).
Proof.
  split.
  - destruct (WiFiInit cfg env events cm) as [[[r cm'] effs] |] eqn:Hinit;
      [intros _ | intros H; now contradiction H].
    apply WiFiInit_inv in Hinit as [Henv Hrest]. split; [exact Henv |].
    intros Hsta. rewrite Hsta in Hrest. destruct Hrest as (w & cm3 & ew & -> & _).
    discriminate.
  - intros [Henv Hwait].
    destruct (WiFiInit_env_ok cfg env events cm Henv) as (es & _ & _ & _ & _ & ->).
    destruct (wifi_sta_enabled cfg); [| discriminate].
    specialize (Hwait eq_refl).
    destruct (xEventGroupWaitBits _ events _) as [[[[bits |] cm3] ew] |];
      [destruct (connected_signal bits) | | now contradiction Hwait]; discriminate.
Qed.

(** X7. With only the access point enabled and every checked call
    succeeding, WiFiInit returns true without waiting: it sets the mode to
    AP, raises run_wifi_ap_task_, creates the broadcaster task and nothing
    else; pending events are not handled, no connection is attempted and the
    forwarder task is not created. *)
Theorem WiFiInit_access_point_only (cfg : WiFiConfig) (env : InitEnv)
    (events : list (wifi_event * Z)) (cm : CommsManager) :
  wifi_ap_enabled cfg = true ->
  wifi_sta_enabled cfg = false ->
  env_ok_for cfg env ->
  exists effs,
    WiFiInit cfg env events cm
    = Some (InitReturned true,
            set_run_wifi_ap_task_ true (set_wifi_was_initialized_ true cm), effs)
    /\ In (esp_wifi_set_mode WIFI_MODE_AP) effs
    /\ launches wifi_ap_task effs = true
    /\ launches wifi_sta_task effs = false
    /\ existsb is_esp_wifi_connect effs = false.
Proof.
  intros Hap Hsta Henv.
  destruct (WiFiInit_env_ok cfg env events cm Henv) as (es & H1 & H2 & H3 & H4 & ->).
  unfold state_at_wait. rewrite Hsta, Hap in *. exists es. auto.
Qed.

(** X8. Called in station mode when the failure signal is already set and
    the connected signal is not (as after a terminal failure, which nothing
    clears), WiFiInit returns false at once: it handles none of the pending
    events, attempts no connection and does not create the forwarder task. *)
Theorem WiFiInit_fails_at_once_after_terminal_failure (cfg : WiFiConfig)
    (env : InitEnv) (events : list (wifi_event * Z)) (cm : CommsManager) :
  wifi_sta_enabled cfg = true ->
  env_ok_for cfg env ->
  failed_signal (wifi_event_group_ cm) = true ->
  connected_signal (wifi_event_group_ cm) = false ->
  exists effs,
    WiFiInit cfg env events cm = Some (InitReturned false, state_at_wait cfg cm, effs)
    /\ launches wifi_sta_task effs = false
    /\ existsb is_esp_wifi_connect effs = false.
Proof.
  intros Hsta Henv Hfail Hconn.
  destruct (WiFiInit_env_ok cfg env events cm Henv) as (es & H1 & H2 & _ & _ & ->).
  rewrite Hsta, xEventGroupWaitBits_at_once
    by (rewrite state_at_wait_event_group, Hfail; apply orb_true_r).
  rewrite state_at_wait_event_group, Hconn.
  eexists. split; [reflexivity |]. unfold launches in *.
  rewrite !existsb_app, H1, H2. cbn. auto.
Qed.

(** X9. After a station-mode WiFiInit that started with the forwarder not
    running, the decoded-packet enqueue accepts a packet exactly when WiFiInit
    returned true and the queue has room; after a failed initialization every
    packet is refused. *)
Theorem packet_enqueue_follows_WiFiInit_result (cfg : WiFiConfig) (env : InitEnv)
    (events : list (wifi_event * Z)) (cm cm' : CommsManager) (ok : bool)
    (effs : list effect) (decoded_packet : DecodedTransponderPacket) :
  wifi_sta_enabled cfg = true ->
  run_wifi_sta_task_ cm = false ->
  WiFiInit cfg env events cm = Some (InitReturned ok, cm', effs) ->
  fst (fst (WiFiStationSendDecodedTransponderPacket decoded_packet cm'))
  = ok && negb (queue_full (wifi_sta_decoded_transponder_packet_queue_ cm)).
Proof.
  intros Hsta Hrun Hinit.
  pose proof (WiFiInit_queues_kept _ _ _ _ _ _ _ Hinit) as (_ & Hq & _).
  apply WiFiInit_inv in Hinit as [_ Hinit]. rewrite Hsta in Hinit.
  destruct Hinit as (w & cm3 & ew & Hw & Hr).
  apply xEventGroupWaitBits_run_flags in Hw as [Hflag _].
  assert (Hflag' : run_wifi_sta_task_ cm3 = false).
  { rewrite Hflag. unfold state_at_wait.
    destruct (wifi_ap_enabled cfg); cbn; exact Hrun. }
  rewrite WiFiStationSendDecodedTransponderPacket_cases, Hq.
  destruct w as [bits |]; [| discriminate].
  destruct (connected_signal bits); inversion Hr; subst.
  - cbn [run_wifi_sta_task_ set_run_wifi_sta_task_ negb andb].
    destruct (queue_full _); reflexivity.
  - rewrite Hflag'. reflexivity.
Qed.

(** X10. From boot on, whatever the operations: neither queue ever holds more
    items than its length, and the lengths stay what they were at creation. *)
Theorem queues_never_exceed_their_length (ops : list operation)
    (ap_queue_len sta_queue_len : nat) (clients : list ClientRecord)
    (feeds feeds' : list FeedSlot) (cm : CommsManager) :
  run_operations ops (boot_state ap_queue_len sta_queue_len clients, feeds)
  = Some (cm, feeds') ->
  (List.length (q_items (wifi_ap_message_queue_ cm)) <= ap_queue_len)%nat
  /\ (List.length (q_items (wifi_sta_decoded_transponder_packet_queue_ cm))
      <= sta_queue_len)%nat
  /\ q_capacity (wifi_ap_message_queue_ cm) = ap_queue_len
  /\ q_capacity (wifi_sta_decoded_transponder_packet_queue_ cm) = sta_queue_len.
Proof.
  intros Hrun.
  apply run_operations_manager_kept in Hrun
    as (_ & _ & _ & _ & Hc1 & Hc2 & Hb1 & Hb2).
  cbn [fst boot_state wifi_ap_message_queue_
         wifi_sta_decoded_transponder_packet_queue_ q_capacity] in *.
  unfold queue_bounded in *. cbn [q_items q_capacity List.length] in *.
  specialize (Hb1 (Nat.le_0_l _)). specialize (Hb2 (Nat.le_0_l _)).
  rewrite Hc1 in Hb1. rewrite Hc2 in Hb2. auto.
Qed.

End HandlerAndInit.

(** * Further properties of the access-point broadcaster *)

Section BroadcasterMore.
Context {codec : BeastCodec}.

(** The retry loop in full: it only calls sendto and vTaskDelay(100), it
    delays once after every ENOMEM failure (the last one included), num_tries
    at exit counts those failures, and ret is the result of the last call. *)
Lemma sendto_retry_loop_shape (results : nat -> SendResult) (call : effect) :
  is_sys_sendto call = true ->
  forall remaining num_tries ret,
    let '(ret', nt', effs) := sendto_retry_loop remaining num_tries ret results call in
    let n := sendto_count effs in
    Forall (fun e => e = call \/ e = vTaskDelay kWiFiRetryWaitTimeMs) effs
    /\ List.length (filter is_vTaskDelay effs)
       = List.length (filter enomem_failure (map results (seq num_tries n)))
    /\ nt' = (num_tries + List.length (filter is_vTaskDelay effs))%nat
    /\ ret' = match n with
              | O => ret
              | S k => sr_ret (results (num_tries + k)%nat)
              end
    /\ filter is_error_log effs = [].
Proof.
  intros Hcall.
  assert (Hd : is_vTaskDelay call = false) by (destruct call; try discriminate; reflexivity).
  assert (He : is_error_log call = false) by (destruct call; try discriminate; reflexivity).
  unfold sendto_count.
  induction remaining as [| rem IH]; intros num_tries ret; cbn [sendto_retry_loop].
  - cbn. repeat split; auto.
  - rewrite enomem_failure_continue.
    destruct (enomem_failure (results num_tries)) eqn:E; cbn [negb].
    + specialize (IH (S num_tries) (sr_ret (results num_tries))).
      destruct (sendto_retry_loop rem (S num_tries) _ results call) as [[ret' n'] effs].
      cbv zeta in IH. destruct IH as (I1 & I2 & I3 & I4 & I5).
      cbn [filter is_sys_sendto is_vTaskDelay is_error_log].
      rewrite Hcall, Hd, He. cbn [List.length seq map filter].
      rewrite E. cbn [List.length]. cbv zeta. repeat split.
      * constructor; [now left |]. constructor; [now right | exact I1].
      * now rewrite I2.
      * lia.
      * rewrite I4. destruct (List.length (filter is_sys_sendto effs)) as [| k].
        -- now rewrite Nat.add_0_r.
        -- f_equal. f_equal. lia.
      * exact I5.
    + cbn [filter]. rewrite Hcall, Hd, He. cbn [List.length seq map filter].
      rewrite E. cbn [List.length]. cbv zeta. repeat split.
      * constructor; [now left | constructor].
      * lia.
      * now rewrite Nat.add_0_r.
Qed.

Lemma sendto_count_error_log (effs : list effect) :
  sendto_count (effs ++ [console LOG_ERROR]) = sendto_count effs.
Proof. unfold sendto_count. rewrite filter_app. cbn. now rewrite app_nil_r. Qed.

(** X11. Every call made for a client slot during a broadcast is a sendto()
    on the task's socket to that client's address and the message's port,
    carrying the first len bytes of the message, or the 100 ms delay, or the
    error log: nothing is sent anywhere else. *)
Theorem broadcast_calls_go_to_the_client (sock : Z)
    (results : nat -> nat -> SendResult) (cm : CommsManager)
    (message : NetworkMessage) (queued : list NetworkMessage)
    (i : nat) (c : ClientRecord) :
  q_items (wifi_ap_message_queue_ cm) = message :: queued ->
  nth_error (wifi_clients_list_ cm) i = Some c ->
  Forall (fun e =>
            e = sys_sendto sock (client_ip c) (msg_port message)
                  (firstn (Z.to_nat (msg_len message)) (msg_data message))
            \/ e = vTaskDelay kWiFiRetryWaitTimeMs
            \/ e = console LOG_ERROR)
         (slot_trace i (snd (WiFiAccessPointTask_iteration sock results cm))).
Proof.
  intros Hq Hnth. unfold WiFiAccessPointTask_iteration, xQueueReceive. rewrite Hq.
  cbn [snd].
  pose proof (broadcast_loop_slot sock message results (wifi_clients_list_ cm) 0 i c Hnth)
    as Hslot.
  cbn [plus] in Hslot. rewrite Hslot. unfold send_to_client.
  destruct (client_active c); [| constructor].
  set (call := sys_sendto sock (client_ip c) (msg_port message)
                 (firstn (Z.to_nat (msg_len message)) (msg_data message))).
  pose proof (sendto_retry_loop_shape (results i) call eq_refl kWiFiNumRetries 0 0) as H.
  destruct (sendto_retry_loop kWiFiNumRetries 0 0 (results i) call) as [[ret nt] effs].
  cbv zeta in H. destruct H as (H1 & _).
  assert (H1' : Forall (fun e => e = call \/ e = vTaskDelay kWiFiRetryWaitTimeMs
                                 \/ e = console LOG_ERROR) effs).
  { eapply Forall_impl; [| exact H1]. cbv beta. intros e [He | He]; auto. }
  destruct (ret <? 0); [| exact H1'].
  apply Forall_app. split; [exact H1' |]. constructor; [auto | constructor].
Qed.

(** X12. For an active client the broadcaster delays 100 ms once after every
    attempt that failed with ENOMEM, the third one included, and it logs an
    error exactly when the last attempt it made returned a negative value;
    the log is then the last thing done for that client. *)
Theorem broadcast_delays_and_error_log (sock : Z)
    (results : nat -> nat -> SendResult) (cm : CommsManager)
    (message : NetworkMessage) (queued : list NetworkMessage)
    (i : nat) (c : ClientRecord) :
  q_items (wifi_ap_message_queue_ cm) = message :: queued ->
  nth_error (wifi_clients_list_ cm) i = Some c ->
  client_active c = true ->
  let trace := slot_trace i (snd (WiFiAccessPointTask_iteration sock results cm)) in
  let n := sendto_count trace in
  List.length (filter is_vTaskDelay trace)
  = List.length (filter enomem_failure (map (results i) (seq 0 n)))
  /\ List.length (filter is_error_log trace)
     = (if sr_ret (results i (n - 1)%nat) <? 0 then 1%nat else 0%nat)
  /\ (sr_ret (results i (n - 1)%nat) < 0 ->
      exists pre, trace = pre ++ [console LOG_ERROR]).
Proof.
  intros Hq Hnth Hact. unfold WiFiAccessPointTask_iteration, xQueueReceive. rewrite Hq.
  cbn [snd]. cbv zeta.
  pose proof (broadcast_loop_slot sock message results (wifi_clients_list_ cm) 0 i c Hnth)
    as Hslot.
  cbn [plus] in Hslot. rewrite Hslot. unfold send_to_client. rewrite Hact.
  set (call := sys_sendto sock (client_ip c) (msg_port message)
                 (firstn (Z.to_nat (msg_len message)) (msg_data message))).
  pose proof (sendto_retry_loop_shape (results i) call eq_refl kWiFiNumRetries 0 0) as H.
  pose proof (sendto_retry_loop_calls (results i) call eq_refl kWiFiNumRetries 0 0) as Hc.
  destruct (sendto_retry_loop kWiFiNumRetries 0 0 (results i) call) as [[ret nt] effs].
  cbv zeta in H, Hc. destruct H as (_ & H2 & _ & H4 & H5).
  destruct Hc as (_ & Hpos & _). specialize (Hpos ltac:(unfold kWiFiNumRetries; lia)).
  assert (Hret : ret = sr_ret (results i (sendto_count effs - 1)%nat)).
  { rewrite H4. destruct (sendto_count effs) as [| k]; [lia |].
    cbn [plus]. f_equal. f_equal. lia. }
  destruct (Z.ltb_spec ret 0) as [Hneg | Hpos'].
  - rewrite sendto_count_error_log, !filter_app, !length_app, H5, <- Hret.
    cbn [filter is_vTaskDelay is_error_log List.length app].
    destruct (Z.ltb_spec ret 0); [| lia].
    repeat split; [lia | intros _; now exists effs].
  - rewrite H5, <- Hret. destruct (Z.ltb_spec ret 0); [lia |].
    repeat split; [exact H2 | intros; lia].
Qed.

Lemma broadcast_loop_sendto_total (sock : Z) (message : NetworkMessage)
    (results : nat -> nat -> SendResult) (clients : list ClientRecord) :
  forall i,
    let total := sendto_count (map snd (broadcast_loop sock message i clients results)) in
    let active := List.length (filter client_active clients) in
    (active <= total <= kWiFiNumRetries * active)%nat.
Proof.
  induction clients as [| c rest IH]; intros i; cbn [broadcast_loop].
  - cbn. lia.
  - specialize (IH (S i)). cbv zeta in *.
    unfold sendto_count in *. rewrite map_app, filter_app, length_app, map_map.
    cbn [snd]. rewrite map_id. cbn [filter]. unfold send_to_client.
    destruct (client_active c).
    + set (call := sys_sendto sock (client_ip c) (msg_port message)
                     (firstn (Z.to_nat (msg_len message)) (msg_data message))).
      pose proof (sendto_retry_loop_calls (results i) call eq_refl kWiFiNumRetries 0 0)
        as Hc.
      destruct (sendto_retry_loop kWiFiNumRetries 0 0 (results i) call) as [[ret nt] effs].
      cbv zeta in Hc. destruct Hc as (Hle & Hpos & _).
      specialize (Hpos ltac:(unfold kWiFiNumRetries; lia)).
      unfold sendto_count in *.
      assert (Hcount : List.length
                         (filter is_sys_sendto
                            (if ret <? 0 then effs ++ [console LOG_ERROR] else effs))
                       = List.length (filter is_sys_sendto effs)).
      { destruct (ret <? 0); [| reflexivity].
        rewrite filter_app. cbn. now rewrite app_nil_r. }
      rewrite Hcount. cbn [List.length]. unfold kWiFiNumRetries in *. lia.
    + cbn [filter List.length]. unfold kWiFiNumRetries in *. lia.
Qed.

(** X13. One broadcast makes at least one and at most three sendto() calls
    per active client in total; with no active client it makes none. *)
Theorem broadcast_total_sendto_bound (sock : Z)
    (results : nat -> nat -> SendResult) (cm : CommsManager)
    (message : NetworkMessage) (queued : list NetworkMessage) :
  q_items (wifi_ap_message_queue_ cm) = message :: queued ->
  let total :=
    sendto_count (map snd (snd (WiFiAccessPointTask_iteration sock results cm))) in
  let active := List.length (filter client_active (wifi_clients_list_ cm)) in
  (active <= total <= kWiFiNumRetries * active)%nat.
Proof.
  intros Hq. unfold WiFiAccessPointTask_iteration, xQueueReceive. rewrite Hq.
  cbn [snd]. apply broadcast_loop_sendto_total.
Qed.

Lemma broadcast_loop_on_socket (sock : Z) (message : NetworkMessage)
    (results : nat -> nat -> SendResult) (clients : list ClientRecord) :
  forall i,
    Forall (fun p => forall fd ip port bytes,
                snd p = sys_sendto fd ip port bytes -> fd = sock)
           (broadcast_loop sock message i clients results).
Proof.
  induction clients as [| c rest IH]; intros i; cbn [broadcast_loop]; [constructor |].
  apply Forall_app. split; [| apply IH].
  apply Forall_map. cbn [snd]. unfold send_to_client.
  destruct (client_active c); [| constructor].
  set (call := sys_sendto sock (client_ip c) (msg_port message)
                 (firstn (Z.to_nat (msg_len message)) (msg_data message))).
  pose proof (sendto_retry_loop_shape (results i) call eq_refl kWiFiNumRetries 0 0) as H.
  destruct (sendto_retry_loop kWiFiNumRetries 0 0 (results i) call) as [[ret nt] effs].
  cbv zeta in H. destruct H as (H1 & _).
  assert (H1' : Forall (fun e => forall fd ip port bytes,
                          e = sys_sendto fd ip port bytes -> fd = sock) effs).
  { eapply Forall_impl; [| exact H1]. cbv beta.
    intros e [He | He] fd ip port bytes Heq; subst e; [| discriminate].
    unfold call in Heq. now inversion Heq. }
  destruct (ret <? 0); [| exact H1'].
  apply Forall_app. split; [exact H1' |]. constructor; [| constructor].
  intros; discriminate.
Qed.

(** The turns of the task loop: each takes the oldest message off the queue;
    the client table and the queue's length are not written. *)
Lemma WiFiAccessPointTask_loop_queue (sock : Z)
    (turns : list (nat -> nat -> SendResult)) :
  forall cm,
    let cm' := fst (WiFiAccessPointTask_loop sock turns cm) in
    q_items (wifi_ap_message_queue_ cm')
    = skipn (List.length turns) (q_items (wifi_ap_message_queue_ cm))
    /\ (wifi_clients_list_ cm' = wifi_clients_list_ cm
        /\ q_capacity (wifi_ap_message_queue_ cm')
           = q_capacity (wifi_ap_message_queue_ cm))
    /\ Forall (fun e => forall fd ip port bytes,
                 e = sys_sendto fd ip port bytes -> fd = sock)
              (ap_fanout_calls (snd (WiFiAccessPointTask_loop sock turns cm)))
    /\ ap_socket_calls (snd (WiFiAccessPointTask_loop sock turns cm)) = [].
Proof.
  induction turns as [| results rest IH]; intros cm; cbn [WiFiAccessPointTask_loop].
  - cbn. repeat split; auto.
  - pose proof (broadcast_loop_on_socket sock) as Hsock.
    unfold WiFiAccessPointTask_iteration, xQueueReceive.
    destruct (q_items (wifi_ap_message_queue_ cm)) as [| message q] eqn:Hq.
    + specialize (IH cm). cbv zeta in IH.
      destruct (WiFiAccessPointTask_loop sock rest cm) as [cm2 trace2].
      cbn [fst snd List.length map app] in *. rewrite Hq in IH.
      rewrite skipn_nil in *. exact IH.
    + specialize (IH (set_wifi_ap_message_queue_
                        {| q_items := q; q_capacity := q_capacity (wifi_ap_message_queue_ cm) |}
                        cm)).
      cbv zeta in IH.
      destruct (WiFiAccessPointTask_loop sock rest _) as [cm2 trace2].
      cbn [fst snd List.length skipn wifi_ap_message_queue_ set_wifi_ap_message_queue_
             q_items q_capacity wifi_clients_list_] in *.
      destruct IH as (I1 & I2 & I3 & I4).
      split; [exact I1 |]. split; [exact I2 |].
      unfold ap_fanout_calls, ap_socket_calls in *.
      rewrite !flat_map_app. split.
      * apply Forall_app. split; [| exact I3].
        specialize (Hsock message results (wifi_clients_list_ cm) 0%nat).
        induction Hsock as [| p l Hp Hl IHl]; cbn; [constructor |].
        constructor; [exact Hp | exact IHl].
      * rewrite I4, app_nil_r.
        induction (broadcast_loop sock message 0 (wifi_clients_list_ cm) results)
          as [| p l IHl]; cbn; auto.
Qed.

(** X14. WiFiAccessPointTask as a whole: whether or not socket() succeeds the
    task leaves no descriptor open when it returns; every sendto() it makes is
    on the descriptor socket() returned; when socket() fails nothing is taken
    off the queue and nothing is sent; and the task never writes the client
    table. *)
Theorem WiFiAccessPointTask_socket_lifetime (socket_result : Z)
    (turns : list (nat -> nat -> SendResult)) (cm : CommsManager) :
  let '(cm', trace) := WiFiAccessPointTask socket_result turns cm in
  sockets_open (ap_socket_calls trace) [] = []
  /\ Forall (fun e => forall fd ip port bytes,
               e = sys_sendto fd ip port bytes -> fd = socket_result)
            (ap_fanout_calls trace)
  /\ (socket_result < 0 -> cm' = cm /\ ap_fanout_calls trace = [])
  /\ wifi_clients_list_ cm' = wifi_clients_list_ cm.
Proof.
  unfold WiFiAccessPointTask.
  destruct (Z.ltb_spec socket_result 0) as [Hneg | Hpos].
  - cbn. destruct (Z.leb_spec 0 socket_result); [lia |]. repeat split; constructor.
  - destruct (run_wifi_ap_task_ cm).
    + pose proof (WiFiAccessPointTask_loop_queue socket_result turns cm) as H.
      cbv zeta in H.
      destruct (WiFiAccessPointTask_loop socket_result turns cm) as [cm' trace].
      cbn [fst snd] in H. destruct H as (_ & [H2 _] & H3 & H4).
      unfold ap_socket_calls, ap_fanout_calls in *.
      rewrite !flat_map_app. cbn [flat_map app]. rewrite H4, !app_nil_r.
      cbn [app sockets_open].
      destruct (Z.leb_spec 0 socket_result); [| lia]. cbn [remove].
      destruct (Z.eq_dec socket_result socket_result); [| congruence].
      repeat split; auto; try lia; constructor.
    + cbn. destruct (Z.leb_spec 0 socket_result); [| lia]. cbn [remove].
      destruct (Z.eq_dec socket_result socket_result); [| congruence].
      repeat split; auto; try lia; constructor.
Qed.

(** X15. The broadcast queue is first in, first out: a message accepted by
    WiFiAccessPointSendMessageToAllStations is broadcast in the turn of the
    task loop that follows the turns spent on the messages queued before it,
    to the client table as it is then, and to no one before. *)
Theorem broadcast_in_queue_order (message : NetworkMessage) (cm : CommsManager)
    (sock : Z) (turns : list (nat -> nat -> SendResult))
    (results : nat -> nat -> SendResult) :
  run_wifi_ap_task_ cm = true ->
  queue_full (wifi_ap_message_queue_ cm) = false ->
  List.length turns = List.length (q_items (wifi_ap_message_queue_ cm)) ->
  let '(ok, cm1, _) := WiFiAccessPointSendMessageToAllStations message cm in
  let '(cm2, _) := WiFiAccessPointTask_loop sock turns cm1 in
  ok = true
  /\ q_items (wifi_ap_message_queue_ cm2) = [message]
  /\ WiFiAccessPointTask_iteration sock results cm2
     = (set_wifi_ap_message_queue_
          {| q_items := []; q_capacity := q_capacity (wifi_ap_message_queue_ cm) |} cm2,
        broadcast_loop sock message 0 (wifi_clients_list_ cm) results).
Proof.
  intros Hrun Hroom Hlen.
  rewrite WiFiAccessPointSendMessageToAllStations_cases, Hrun, Hroom. cbn [negb].
  pose proof (WiFiAccessPointTask_loop_queue sock turns
                (set_wifi_ap_message_queue_
                   {| q_items := q_items (wifi_ap_message_queue_ cm) ++ [message];
                      q_capacity := q_capacity (wifi_ap_message_queue_ cm) |} cm)) as H.
  cbv zeta in H.
  destruct (WiFiAccessPointTask_loop sock turns _) as [cm2 trace].
  cbn [fst snd wifi_ap_message_queue_ set_wifi_ap_message_queue_ q_items
         q_capacity wifi_clients_list_] in H.
  destruct H as (H1 & [H2 Hcap] & _).
  rewrite Hlen, skipn_app, skipn_all, Nat.sub_diag in H1. cbn [skipn app] in H1.
  split; [reflexivity |]. split; [exact H1 |].
  unfold WiFiAccessPointTask_iteration, xQueueReceive. rewrite H1, H2, Hcap.
  reflexivity.
Qed.

End BroadcasterMore.

(** * Further properties of the feed forwarder *)

Section ForwarderMore.
Context {codec : BeastCodec}.

(** Induction over the turns of the task loop for one slot: a property of the
    slot's connection and of the slot's calls so far that every feed pass
    keeps is kept by the whole run. *)
Lemma run_slot_induction (i : nat) (ok : IterationInput -> Prop)
    (P : FeedSlot -> list effect -> Prop) :
  (forall s0 s t, connection_of s0 = connection_of s -> P s t -> P s0 t) ->
  (forall inp pkt s t, ok inp -> P s t ->
     P (fst (feed_pass (it_settings inp i) (it_io inp i) pkt s))
       (t ++ snd (feed_pass (it_settings inp i) (it_io inp i) pkt s))) ->
  forall inputs cm feeds s t,
    Forall ok inputs ->
    nth_error feeds i = Some s ->
    P s t ->
    exists s',
      nth_error (snd (fst (WiFiStationTask_run inputs (cm, feeds)))) i = Some s'
      /\ P s' (t ++ slot_trace i (snd (WiFiStationTask_run inputs (cm, feeds)))).
Proof.
  intros Hconn Hpass.
  induction inputs as [| inp rest IH]; intros cm feeds s t Hok Hnth HP.
  - cbn. rewrite app_nil_r. eauto.
  - cbn [WiFiStationTask_run].
    inversion Hok as [| ? ? Hok1 Hok2]; subst.
    pose proof (WiFiStationTask_iteration_slot inp cm feeds i s Hnth) as Hit.
    destruct (WiFiStationTask_iteration inp (cm, feeds)) as [[[cm1 feeds1] es] trace1].
    destruct Hit as (s0 & Hc & Hcase).
    assert (HP0 : P s0 t) by (eapply Hconn; eauto).
    assert (Hstep : exists s1, nth_error feeds1 i = Some s1
                               /\ P s1 (t ++ slot_trace i trace1)).
    { destruct Hcase as [[Ht Hs1] | (pkt & Hs1 & Ht)].
      - exists s0. rewrite Ht, app_nil_r. auto.
      - eexists. split; [exact Hs1 |]. rewrite Ht. now apply Hpass. }
    destruct Hstep as (s1 & Hs1 & HP1).
    destruct (IH cm1 feeds1 s1 _ Hok2 Hs1 HP1) as (s2 & Hs2 & HP2).
    destruct (WiFiStationTask_run rest (cm1, feeds1)) as [[cm2 feeds2] trace2].
    cbn [fst snd] in *. exists s2. split; [exact Hs2 |].
    now rewrite slot_trace_app, app_assoc.
Qed.

Lemma descriptors_used_open_app (a b : list effect) :
  forall open,
    descriptors_used_open (a ++ b) open
    = descriptors_used_open a open && descriptors_used_open b (sockets_open a open).
Proof.
  induction a as [| e rest IH]; intros open; [reflexivity |].
  destruct e; cbn [app descriptors_used_open sockets_open];
    rewrite ?IH, ?andb_assoc; reflexivity.
Qed.

Lemma existsb_eqb_In (fd : Z) (open : list Z) :
  In fd open -> existsb (Z.eqb fd) open = true.
Proof.
  intros H. apply existsb_exists. exists fd. split; [exact H | apply Z.eqb_refl].
Qed.

(** One pass only uses descriptors that are open: the socket of a connected
    slot, or the one it has just created. *)
Lemma feed_pass_descriptors (cfg : FeedConfig) (io : FeedIO)
    (pkt : DecodedTransponderPacket) (s : FeedSlot) (open : list Z) :
  (feed_sock_is_connected s = true -> In (feed_sock s) open) ->
  descriptors_used_open (snd (feed_pass cfg io pkt s)) open = true
  /\ (feed_sock_is_connected (fst (feed_pass cfg io pkt s)) = true ->
      In (feed_sock (fst (feed_pass cfg io pkt s)))
         (sockets_open (snd (feed_pass cfg io pkt s)) open)).
Proof.
  intros Hopen.
  assert (Hopen' : feed_sock_is_connected s = true ->
                   existsb (Z.eqb (feed_sock s)) open = true)
    by (intros H; apply existsb_eqb_In; auto).
  unfold feed_pass.
  destruct (feed_sock_is_connected s) eqn:Hc;
    [specialize (Hopen eq_refl); specialize (Hopen' eq_refl) | clear Hopen Hopen'];
    feed_cases; leb_to_prop; try lia;
    cbn [fst snd descriptors_used_open sockets_open app feed_sock
           feed_sock_is_connected set_feed_sock_is_connected set_feed_sock
           set_feed_mps_counter_ set_feed_sock_last_connect_timestamp_ms];
    repeat match goal with
           | |- context [0 <=? ?x] => destruct (Z.leb_spec 0 x); try lia
           end;
    cbn [existsb]; rewrite ?Z.eqb_refl; cbn [orb andb];
    rewrite ?Hopen'; cbn [andb];
    (split; [reflexivity
            | intros H; first [discriminate H | congruence | auto using in_eq]]).
Qed.

(** An unresolvable host name: the pass creates a socket at most, closes it
    again, and never gets to connect() or send(). *)
Lemma feed_pass_lookup_fails (cfg : FeedConfig) (io : FeedIO)
    (pkt : DecodedTransponderPacket) (s : FeedSlot) :
  IsNotIPAddress (feed_uris cfg) = true ->
  lookup_fails io = true ->
  feed_sock_is_connected s = false ->
  feed_sock_is_connected (fst (feed_pass cfg io pkt s)) = false
  /\ filter is_sys_connect (snd (feed_pass cfg io pkt s)) = []
  /\ filter is_sys_send (snd (feed_pass cfg io pkt s)) = [].
Proof.
  unfold lookup_fails. intros Hname Hfail Hd.
  feed_cases; repeat split; try reflexivity; try congruence;
    exfalso; cbn in Hfail; try discriminate Hfail;
    rewrite Hd in *; discriminate.
Qed.

(** X16. During one pass over a slot each of socket(), getaddrinfo(),
    connect(), send() and close() is called at most once. *)
Theorem feed_pass_makes_each_call_at_most_once (cfg : FeedConfig) (io : FeedIO)
    (decoded_packet : DecodedTransponderPacket) (s : FeedSlot) :
  let effs := snd (feed_pass cfg io decoded_packet s) in
  (List.length (filter is_sys_socket effs) <= 1)%nat
  /\ (List.length (filter is_sys_getaddrinfo effs) <= 1)%nat
  /\ (List.length (filter is_sys_connect effs) <= 1)%nat
  /\ (List.length (filter is_sys_send effs) <= 1)%nat
  /\ (List.length (filter is_sys_close effs) <= 1)%nat.
Proof.
  cbv zeta. feed_cases; cbn; repeat split; lia.
Qed.

(** X17. A connect() made for a feed is made for a slot that was
    disconnected, on the positive descriptor socket() has just returned, to
    the feed's port, and to the address inet_pton() reads out of a text: the
    feed's URI itself when that holds no letter, else the address
    getaddrinfo() resolved it to. The result of inet_pton() is not checked:
    when it rejects the text, connect() is made to whatever the dest_addr
    declared without initialiser holds. The slot ends connected exactly if
    connect() returned 0 and no close() followed in the pass. *)
Theorem feed_connect_destination (cfg : FeedConfig) (io : FeedIO)
    (decoded_packet : DecodedTransponderPacket) (s : FeedSlot)
    (fd sin_addr port : Z) :
  In (sys_connect fd sin_addr port) (snd (feed_pass cfg io decoded_packet s)) ->
  feed_sock_is_connected s = false
  /\ fd = socket_ret io /\ 0 < fd
  /\ port = feed_ports cfg
  /\ (exists text,
        (if IsNotIPAddress (feed_uris cfg)
         then getaddrinfo_err io = 0 /\ getaddrinfo_res io = Some text
         else text = feed_uris cfg)
        /\ sin_addr = match inet_pton io text with
                      | Some addr => addr
                      | None => dest_addr_sin_addr io
                      end)
  /\ feed_sock_is_connected (fst (feed_pass cfg io decoded_packet s))
     = (connect_ret io =? 0)
       && negb (existsb is_sys_close (snd (feed_pass cfg io decoded_packet s))).
Proof.
  unfold feed_pass, open_socket, report_packet, send_beast, ResolveURIToIP.
  repeat first [progress cbn -[sub32 incr_counter Z.ltb Z.leb Z.eqb IsNotIPAddress]
               | match goal with
                 | |- context [if ?c then _ else _] =>
                     lazymatch type of c with bool => destruct c eqn:? end
                 | |- context [match feed_protocols cfg with _ => _ end] =>
                     destruct (feed_protocols cfg) eqn:?
                 | |- context [match getaddrinfo_res io with _ => _ end] =>
                     destruct (getaddrinfo_res io) eqn:?
                 end];
    leb_to_prop; cbn [In fst snd app];
    intros H;
    repeat match type of H with
           | _ \/ _ => destruct H as [H | H]
           end;
    try discriminate H; try contradiction H;
    inversion H; subst;
    repeat match goal with
           | H : negb _ = false |- _ => apply negb_false_iff in H
           | H : negb _ = true |- _ => apply negb_true_iff in H
           | H : (_ =? _) = true |- _ => apply Z.eqb_eq in H
           | H : (_ <? _) = true |- _ => apply Z.ltb_lt in H
           | H : (_ <? _) = false |- _ => apply Z.ltb_ge in H
           end;
    cbn [feed_sock set_feed_sock set_feed_sock_last_connect_timestamp_ms
           set_feed_sock_is_connected set_feed_mps_counter_ feed_sock_is_connected
           existsb is_sys_close orb negb andb] in *;
    repeat match goal with
           | H : ?a = 0 |- context [?a =? 0] => rewrite H
           | H : (?a =? 0) = false |- context [?a =? 0] => rewrite H
           end;
    cbn [Z.eqb andb];
    (split; [congruence |]); (split; [reflexivity |]); (split; [lia |]);
    (split; [reflexivity |]); (split; [| first [reflexivity | congruence]]);
    eexists; (split; [| reflexivity]); auto.
Qed.

(** X18. A connected kBeastRaw feed is sent every dequeued packet, valid or
    not: exactly one send() of the Beast frame on the slot's socket. *)
Theorem raw_feed_sends_every_packet (cfg : FeedConfig) (io : FeedIO)
    (decoded_packet : DecodedTransponderPacket) (s : FeedSlot) :
  feed_is_active cfg = true ->
  feed_sock_is_connected s = true ->
  feed_protocols cfg = kBeastRaw ->
  filter is_sys_send (snd (feed_pass cfg io decoded_packet s))
  = [sys_send (feed_sock s)
       (TransponderPacketToBeastFramePrependReceiverID decoded_packet
          (feed_receiver_ids cfg))].
Proof.
  intros Hact Hconn Hproto.
  unfold feed_pass, report_packet, send_beast. rewrite Hact, Hconn, Hproto.
  cbn [negb]. destruct (send_ret io <? 0); reflexivity.
Qed.

(** X19. A feed whose protocol is neither kBeast nor kBeastRaw is never sent
    anything and its message counter stays as it is; the forwarder still
    opens and keeps a connection to it. *)
Theorem unsupported_protocol_connects_but_never_sends (cfg : FeedConfig)
    (io : FeedIO) (decoded_packet : DecodedTransponderPacket) (s : FeedSlot)
    (id : Z) :
  feed_protocols cfg = kProtocolOther id ->
  let '(s', effs) := feed_pass cfg io decoded_packet s in
  filter is_sys_send effs = []
  /\ feed_mps_counter_ s' = feed_mps_counter_ s
  /\ (feed_is_active cfg = true ->
      feed_sock_is_connected s = true -> s' = s /\ effs = [])
  /\ (feed_is_active cfg = true ->
      feed_sock_is_connected s = false ->
      kWiFiTCPSocketReconnectIntervalMs
      < sub32 (get_time_since_boot_ms_ret io) (feed_sock_last_connect_timestamp_ms s) ->
      0 < socket_ret io ->
      IsNotIPAddress (feed_uris cfg) = false ->
      connect_ret io = 0 ->
      feed_sock_is_connected s' = true
      /\ In (sys_connect (socket_ret io)
               match inet_pton io (feed_uris cfg) with
               | Some addr => addr
               | None => dest_addr_sin_addr io
               end (feed_ports cfg)) effs).
Proof.
  intros Hproto. unfold feed_pass, open_socket, report_packet, ResolveURIToIP.
  rewrite Hproto.
  repeat first [progress cbn -[sub32 incr_counter Z.ltb Z.leb Z.eqb IsNotIPAddress]
               | feed_step];
    leb_to_prop;
    repeat split; try reflexivity; try discriminate;
    intros;
    repeat match goal with
           | H : negb _ = false |- _ => apply negb_false_iff in H
           | H : negb _ = true |- _ => apply negb_true_iff in H
           | H : (_ =? _) = false |- _ => apply Z.eqb_neq in H
           end;
    cbn [feed_sock set_feed_sock set_feed_sock_last_connect_timestamp_ms
           set_feed_sock_is_connected feed_sock_is_connected In app] in *;
    try congruence; try lia; auto 10.
Qed.

(** The message counter of a slot moves only through a send() that did not
    fail; a pass never writes the reported rate. *)
Lemma feed_pass_counter (cfg : FeedConfig) (io : FeedIO)
    (pkt : DecodedTransponderPacket) (s : FeedSlot) :
  let '(s', effs) := feed_pass cfg io pkt s in
  feed_mps_counter_ s'
  = (if existsb is_sys_send effs && (0 <=? send_ret io)
     then incr_counter (feed_mps_counter_ s) else feed_mps_counter_ s)
  /\ feed_mps s' = feed_mps s.
Proof.
  feed_cases;
    repeat match goal with
           | H : (_ <? _) = true |- _ => apply Z.ltb_lt in H
           | H : (_ <? _) = false |- _ => apply Z.ltb_ge in H
           end;
    leb_to_prop; try lia;
    try (split; reflexivity);
    cbn [existsb is_sys_send app orb andb] in *;
    rewrite ?existsb_app in *; cbn [existsb is_sys_send app orb andb] in *;
    try discriminate; try (split; reflexivity).
Qed.

(** X20. Feed statistics over one turn of the task loop: when more than
    1000 ms have passed on the uint32_t clock since the last update, the
    reported rate of a slot becomes its message counter and the counter
    restarts from zero, otherwise both are kept; after that the counter is
    incremented (in its unsigned type) exactly if the turn made a send() for
    the slot that did not fail, so a message sent in the turn of an update
    counts for the next interval. *)
Theorem statistics_count_successful_sends (inp : IterationInput)
    (cm : CommsManager) (feeds : list FeedSlot) (i : nat) (s : FeedSlot) :
  nth_error feeds i = Some s ->
  let '(cm1, feeds1, effs, trace) := WiFiStationTask_iteration inp (cm, feeds) in
  let tick :=
    kMsPerSec <? sub32 (it_timestamp_ms inp) (feed_mps_last_update_timestamp_ms_ cm) in
  let sent :=
    existsb is_sys_send (slot_trace i trace) && (0 <=? send_ret (it_io inp i)) in
  exists s1,
    nth_error feeds1 i = Some s1
    /\ feed_mps s1 = (if tick then feed_mps_counter_ s else feed_mps s)
    /\ feed_mps_counter_ s1
       = (let c := if tick then 0 else feed_mps_counter_ s in
          if sent then incr_counter c else c)
    /\ feed_mps_last_update_timestamp_ms_ cm1
       = (if tick then it_timestamp_ms inp else feed_mps_last_update_timestamp_ms_ cm)
    /\ effs = (if tick then [console LOG_INFO] else []).
Proof.
  intros Hnth. unfold WiFiStationTask_iteration, update_feed_stats.
  set (f := fun s => set_feed_mps_counter_ 0 (set_feed_mps (feed_mps_counter_ s) s)).
  assert (Hpass : forall (cm1 : CommsManager) feeds0 s0 (es : list effect),
             nth_error feeds0 i = Some s0 ->
             let '(cm2, feeds2, effs, trace) :=
               match xQueueReceive (wifi_sta_decoded_transponder_packet_queue_ cm1) with
               | Some (decoded_packet, q) =>
                   let '(feeds2, trace) :=
                     feed_loop (it_settings inp) (it_io inp) decoded_packet 0 feeds0 in
                   (set_wifi_sta_decoded_transponder_packet_queue_ q cm1, feeds2, es,
                    trace)
               | None => (cm1, feeds0, es, [])
               end in
             exists s1,
               nth_error feeds2 i = Some s1
               /\ feed_mps s1 = feed_mps s0
               /\ feed_mps_counter_ s1
                  = (if existsb is_sys_send (slot_trace i trace)
                        && (0 <=? send_ret (it_io inp i))
                     then incr_counter (feed_mps_counter_ s0) else feed_mps_counter_ s0)
               /\ feed_mps_last_update_timestamp_ms_ cm2
                  = feed_mps_last_update_timestamp_ms_ cm1
               /\ effs = es).
  { intros cm1 feeds0 s0 es H0.
    destruct (xQueueReceive _) as [[pkt q] |].
    - pose proof (feed_loop_slot (it_settings inp) (it_io inp) pkt feeds0 0 i s0 H0)
        as [A1 A2].
      destruct (feed_loop _ _ pkt 0 feeds0) as [feeds2 trace].
      cbn [fst snd plus] in A1, A2.
      pose proof (feed_pass_counter (it_settings inp i) (it_io inp i) pkt s0) as B.
      destruct (feed_pass (it_settings inp i) (it_io inp i) pkt s0) as [s1 effs1].
      cbn [fst snd] in A1, A2. destruct B as [B1 B2].
      exists s1. split; [exact A1 |]. rewrite A2. repeat split; auto.
    - exists s0. cbn. repeat split; auto. }
  destruct (kMsPerSec <? sub32 _ _).
  - specialize (Hpass (set_feed_mps_last_update_timestamp_ms_ (it_timestamp_ms inp) cm)
                  (map f feeds) (f s) [console LOG_INFO]
                  (map_nth_error f i feeds Hnth)).
    cbn [wifi_sta_decoded_transponder_packet_queue_
           set_feed_mps_last_update_timestamp_ms_] in *.
    destruct (xQueueReceive _) as [[pkt q] |];
      [destruct (feed_loop _ _ pkt 0 (map f feeds)) as [feeds2 trace] |];
      exact Hpass.
  - specialize (Hpass cm feeds s [] Hnth).
    destruct (xQueueReceive _) as [[pkt q] |];
      [destruct (feed_loop _ _ pkt 0 feeds) as [feeds2 trace] |];
      exact Hpass.
Qed.

(** X21. From task start on, through any turns of the task loop and the exit
    loop, every connect(), send() and close() made for a slot is made on a
    descriptor that socket() returned for that slot and that has not been
    closed since. *)
Theorem forwarder_uses_open_descriptors (i : nat) (inputs : list IterationInput)
    (cm : CommsManager) (feeds : list FeedSlot) (s : FeedSlot) :
  nth_error feeds i = Some s ->
  let '(_, feeds1, trace) :=
    WiFiStationTask_run inputs (cm, WiFiStationTask_start feeds) in
  let '(_, closing) := WiFiStationTask_shutdown 0 feeds1 in
  descriptors_used_open (slot_trace i (trace ++ closing)) [] = true.
Proof.
  intros Hnth.
  destruct (WiFiStationTask_start_slot feeds i s Hnth) as (s0 & Hs0 & Hd0).
  pose (P := fun (s : FeedSlot) (t : list effect) =>
               descriptors_used_open t [] = true
               /\ (feed_sock_is_connected s = true ->
                   In (feed_sock s) (sockets_open t []))).
  assert (Hrun : exists s',
             nth_error (snd (fst (WiFiStationTask_run inputs
                                    (cm, WiFiStationTask_start feeds)))) i = Some s'
             /\ P s' ([] ++ slot_trace i (snd (WiFiStationTask_run inputs
                                          (cm, WiFiStationTask_start feeds))))).
  { apply (run_slot_induction i (fun _ => True) P) with (s := s0).
    - intros sa sb t Hc [H1 H2]. apply connection_of_eq in Hc as (Hf & Hc & _).
      split; [exact H1 |]. rewrite Hf, Hc. exact H2.
    - intros inp pkt sa t _ [H1 H2].
      pose proof (feed_pass_descriptors (it_settings inp i) (it_io inp i) pkt sa
                    (sockets_open t []) H2) as [H3 H4].
      split.
      + rewrite descriptors_used_open_app, H1, H3. reflexivity.
      + rewrite sockets_open_app. exact H4.
    - clear. induction inputs; constructor; auto.
    - exact Hs0.
    - split; [reflexivity |]. rewrite Hd0. discriminate. }
  destruct (WiFiStationTask_run inputs (cm, WiFiStationTask_start feeds))
    as [[cm1 feeds1] trace].
  cbn [fst snd app] in Hrun. destruct Hrun as (s1 & Hs1 & Hu & Hin).
  pose proof (WiFiStationTask_shutdown_slot feeds1 0 i s1 Hs1) as [_ Hclose].
  destruct (WiFiStationTask_shutdown 0 feeds1) as [feeds2 closing].
  cbn [fst snd plus] in Hclose.
  rewrite slot_trace_app, descriptors_used_open_app, Hu, Hclose. cbn [andb].
  destruct (feed_sock_is_connected s1); [| reflexivity].
  cbn [descriptors_used_open]. rewrite (existsb_eqb_In _ _ (Hin eq_refl)). reflexivity.
Qed.

(** X22. A feed given by a host name that getaddrinfo() keeps failing to
    resolve is never connected to and never sent anything, however many
    turns the task loop makes; its slot stays disconnected. *)
Theorem unresolvable_hostname_never_connects (i : nat)
    (inputs : list IterationInput) (cm : CommsManager)
    (feeds : list FeedSlot) (s : FeedSlot) :
  nth_error feeds i = Some s ->
  feed_sock_is_connected s = false ->
  Forall (fun inp =>
            IsNotIPAddress (feed_uris (it_settings inp i)) = true
            /\ lookup_fails (it_io inp i) = true) inputs ->
  let '(_, feeds', trace) := WiFiStationTask_run inputs (cm, feeds) in
  filter is_sys_connect (slot_trace i trace) = []
  /\ filter is_sys_send (slot_trace i trace) = []
  /\ exists s', nth_error feeds' i = Some s' /\ feed_sock_is_connected s' = false.
Proof.
  intros Hnth Hd Hok.
  pose (P := fun (s : FeedSlot) (t : list effect) =>
               feed_sock_is_connected s = false
               /\ filter is_sys_connect t = []
               /\ filter is_sys_send t = []).
  assert (Hrun : exists s',
             nth_error (snd (fst (WiFiStationTask_run inputs (cm, feeds)))) i = Some s'
             /\ P s' ([] ++ slot_trace i (snd (WiFiStationTask_run inputs (cm, feeds))))).
  { apply (run_slot_induction i
             (fun inp => IsNotIPAddress (feed_uris (it_settings inp i)) = true
                         /\ lookup_fails (it_io inp i) = true) P) with (s := s).
    - intros sa sb t Hc (H1 & H2 & H3). apply connection_of_eq in Hc as (_ & Hc & _).
      repeat split; auto. congruence.
    - intros inp pkt sa t [Hn Hf] (H1 & H2 & H3).
      pose proof (feed_pass_lookup_fails (it_settings inp i) (it_io inp i) pkt sa
                    Hn Hf H1) as (H4 & H5 & H6).
      repeat split; [exact H4 | |]; rewrite filter_app; [rewrite H2, H5 | rewrite H3, H6];
        reflexivity.
    - exact Hok.
    - exact Hnth.
    - repeat split; auto. }
  destruct (WiFiStationTask_run inputs (cm, feeds)) as [[cm1 feeds1] trace].
  cbn [fst snd app] in Hrun. destruct Hrun as (s1 & Hs1 & H1 & H2 & H3).
  repeat split; eauto.
Qed.

(** X23. The exit loop closes the socket of every connected slot, once each
    and in slot order, makes no other call, and leaves every slot
    disconnected; run again on its own result it does nothing. *)
Theorem WiFiStationTask_shutdown_closes_once (feeds : list FeedSlot) (j : nat) :
  let '(feeds', trace) := WiFiStationTask_shutdown j feeds in
  Forall (fun s => feed_sock_is_connected s = false) feeds'
  /\ map snd trace
     = map (fun s => sys_close (feed_sock s)) (filter feed_sock_is_connected feeds)
  /\ WiFiStationTask_shutdown j feeds' = (feeds', []).
Proof.
  revert j. induction feeds as [| s rest IH]; intros j; cbn [WiFiStationTask_shutdown].
  - repeat split; constructor.
  - specialize (IH (S j)).
    destruct (WiFiStationTask_shutdown (S j) rest) as [rest' effs'].
    destruct IH as (I1 & I2 & I3). cbn [filter].
    destruct (feed_sock_is_connected s) eqn:Hs; cbn [map snd WiFiStationTask_shutdown];
      rewrite I3; cbn [feed_sock_is_connected set_feed_sock_is_connected];
      rewrite ?Hs; repeat split; try (constructor; auto); now rewrite I2.
Qed.

(** X24. A turn of the task loop in which no packet is waiting makes no
    socket call at all and leaves every slot's connection as it is: feeds
    are opened, closed and reconnected only when a packet is dequeued. *)
Theorem turn_without_packet_touches_no_socket (inp : IterationInput)
    (cm : CommsManager) (feeds : list FeedSlot) :
  q_items (wifi_sta_decoded_transponder_packet_queue_ cm) = [] ->
  let '(cm1, feeds1, effs, trace) := WiFiStationTask_iteration inp (cm, feeds) in
  trace = []
  /\ map connection_of feeds1 = map connection_of feeds
  /\ wifi_sta_decoded_transponder_packet_queue_ cm1
     = wifi_sta_decoded_transponder_packet_queue_ cm
  /\ Forall (fun e => e = console LOG_INFO) effs.
Proof.
  intros Hq. unfold WiFiStationTask_iteration, update_feed_stats, xQueueReceive.
  destruct (kMsPerSec <? _);
    cbn [wifi_sta_decoded_transponder_packet_queue_
           set_feed_mps_last_update_timestamp_ms_]; rewrite Hq.
  - repeat split; [| repeat constructor].
    rewrite map_map. apply map_ext. intros s. reflexivity.
  - repeat split; constructor.
Qed.

Lemma isalpha_letter (c : ascii) : isalpha c = true <-> ascii_letter c.
Proof.
  unfold isalpha, ascii_letter.
  rewrite orb_true_iff, !andb_true_iff, !Nat.leb_le. reflexivity.
Qed.

(** X26. getaddrinfo() is called for a feed exactly when the pass has created
    a socket for it (a positive descriptor) and the feed's URI holds at least
    one ASCII letter; a URI without letters, the empty one included, is handed
    to connect() as it is. *)
Theorem dns_lookup_iff_letter_in_uri (cfg : FeedConfig) (io : FeedIO)
    (decoded_packet : DecodedTransponderPacket) (s : FeedSlot) :
  let effs := snd (feed_pass cfg io decoded_packet s) in
  (existsb is_sys_getaddrinfo effs = true
   <-> (exists c, In c (list_ascii_of_string (feed_uris cfg)) /\ ascii_letter c)
       /\ In (sys_socket (socket_ret io)) effs /\ 0 < socket_ret io)
  /\ (existsb is_sys_getaddrinfo effs = true ->
      In (sys_getaddrinfo (feed_uris cfg)) effs).
Proof.
  cbv zeta.
  assert (Hname : IsNotIPAddress (feed_uris cfg) = true
                  <-> exists c, In c (list_ascii_of_string (feed_uris cfg))
                                /\ ascii_letter c).
  { unfold IsNotIPAddress. rewrite existsb_exists.
    split; intros (c & Hin & Hc); exists c; (split; [exact Hin |]);
      now apply isalpha_letter. }
  rewrite <- Hname. clear Hname.
  feed_cases; leb_to_prop; cbn [existsb is_sys_getaddrinfo In orb app fst snd];
    (split; [split |]);
    try discriminate; try (intros _; auto 10; fail);
    try (intros (Hn & Hin & Hpos); exfalso;
         repeat match type of Hin with
                | _ \/ _ => destruct Hin as [Hin | Hin]
                end;
         try discriminate Hin; try contradiction Hin; try congruence; try lia).
Qed.

End ForwarderMore.

(** * The remaining functions *)

Section AuthModeNames.

(** X27. get_auth_mode_name gives the seven authentication modes it lists
    seven different names, and names a mode UNKNOWN exactly when it is none
    of them. *)
Theorem get_auth_mode_name_distinguishes_modes (a b : wifi_auth_mode_t) :
  (get_auth_mode_name a = get_auth_mode_name b ->
   get_auth_mode_name a <> "UNKNOWN"%string -> a = b)
  /\ (get_auth_mode_name a = "UNKNOWN"%string <-> exists v, a = WIFI_AUTH_OTHER v).
Proof.
  split.
  - destruct a, b; cbn; intros H Hu; try discriminate H; try reflexivity.
    now contradiction Hu.
  - destruct a; cbn;
      (split; [intros H; try discriminate H; eauto
              | intros [v H]; try discriminate H; reflexivity]).
Qed.

End AuthModeNames.

Section HardwareTests.
Import ObjectDictionary SPICoprocessor.

Lemma value_eqb_refl (v : Value) : value_eqb v v = true.
Proof.
  destruct v as [x | bytes]; cbn; [apply Z.eqb_refl |].
  destruct (list_eq_dec Z.eq_dec bytes bytes); congruence.
Qed.

Lemma for_uint16_eq {A} (fuel : nat) (i n : Z) (body : Z -> A -> A) (acc : A) :
  for_uint16 fuel i n body acc
  = if i <? n then
      match fuel with
      | O => None
      | S fuel' => for_uint16 fuel' (u16 (i + 1)) n body (body i acc)
      end
    else Some acc.
Proof. destruct fuel; reflexivity. Qed.

(** Up to 65535 the index never wraps: the loop runs the body on
    i, i + 1, ..., n - 1 and ends, given that much fuel. *)
Lemma for_uint16_ends {A} (body : Z -> A -> A) (n : Z) :
  n <= 65535 ->
  forall m i fuel acc,
    0 <= i -> i + Z.of_nat m = n -> (m <= fuel)%nat ->
    for_uint16 fuel i n body acc
    = Some (fold_left (fun a j => body (Z.of_nat j) a) (seq (Z.to_nat i) m) acc).
Proof.
  intros Hn. induction m as [| m IH]; intros i fuel acc Hi Hsum Hfuel;
    rewrite for_uint16_eq.
  - destruct (Z.ltb_spec i n); [lia | reflexivity].
  - destruct (Z.ltb_spec i n); [| lia].
    destruct fuel as [| fuel]; [lia |].
    assert (Hw : u16 (i + 1) = i + 1) by (unfold u16; apply Z.mod_small; lia).
    rewrite Hw, (IH (i + 1)) by lia.
    cbn [seq fold_left]. rewrite Z2Nat.id by lia.
    replace (Z.to_nat (i + 1)) with (S (Z.to_nat i)) by lia. reflexivity.
Qed.

(** Above 65535 the index wraps to 0 before it reaches the bound: the loop
    does not end, whatever the fuel. *)
Lemma for_uint16_never_ends {A} (body : Z -> A -> A) (n : Z) :
  65535 < n ->
  forall fuel i acc, 0 <= i <= 65535 -> for_uint16 fuel i n body acc = None.
Proof.
  intros Hn. induction fuel as [| fuel IH]; intros i acc Hi; rewrite for_uint16_eq;
    (destruct (Z.ltb_spec i n); [| lia]); [reflexivity |].
  apply IH. unfold u16.
  pose proof (Z.mod_pos_bound (i + 1) (2 ^ 16) ltac:(lia)). lia.
Qed.

Lemma store_byte_fills (object : list Z) :
  forall m k,
    List.length object = (k + m)%nat ->
    fold_left (fun a j => fill_byte (Z.of_nat j) a) (seq k m) object
    = firstn k object ++ map (fun j => Z.of_nat j mod 255) (seq k m).
Proof.
  intros m. revert object. induction m as [| m IH]; intros object k Hlen.
  - cbn. rewrite app_nil_r, firstn_all2 by lia. reflexivity.
  - cbn [seq fold_left map]. unfold fill_byte at 2, store_byte.
    rewrite Nat2Z.id.
    destruct (Nat.ltb_spec k (List.length object)); [| lia].
    assert (Hk : List.length (firstn k object) = k)
      by (rewrite length_firstn; lia).
    rewrite IH.
    + replace (firstn (S k) (firstn k object ++ Z.of_nat k mod 255 :: skipn (S k) object))
        with (firstn k object ++ [Z.of_nat k mod 255]).
      * now rewrite <- app_assoc.
      * rewrite firstn_app, Hk.
        replace (S k - k)%nat with 1%nat by lia.
        rewrite (@firstn_all2 _ (S k) (firstn k object)) by lia. reflexivity.
    + rewrite length_app. cbn [List.length]. rewrite Hk, length_skipn. lia.
Qed.

Lemma settings_pattern_byte (sizeof_Settings j : nat) :
  (j < sizeof_Settings)%nat ->
  nth_error (settings_pattern sizeof_Settings) j = Some (Z.of_nat j mod 255).
Proof.
  intros Hj. unfold settings_pattern.
  rewrite nth_error_map, nth_error_seq.
  destruct (Nat.ltb_spec j sizeof_Settings); [reflexivity | lia].
Qed.

Lemma expectations_hold (sizeof_Settings : nat) (indices : list nat) :
  Forall (fun j => (j < sizeof_Settings)%nat) indices ->
  fold_left
    (fun ok j => expect_byte (Block (settings_pattern sizeof_Settings)) (Z.of_nat j) ok)
    indices true = true.
Proof.
  induction 1 as [| j rest Hj _ IH]; [reflexivity |].
  cbn [fold_left]. unfold expect_byte at 2.
  rewrite Nat2Z.id, (settings_pattern_byte _ _ Hj), Z.eqb_refl. exact IH.
Qed.

(** X28. On any transport whose successful Read returns what the preceding
    successful Write to the same address stored, and for a settings block of
    at most 65535 bytes (so that the uint16_t loops of the test end), neither
    hardware test can record an EXPECT_EQ failure, with or without
    acknowledgment: the scratch test passes or stops at an ASSERT_TRUE, and
    the settings test, given the fuel for its loops, returns and passes or
    stops at an ASSERT_TRUE. *)
Theorem tests_expect_nothing_beyond_read_back (T : Transport)
    (sizeof_Settings : nat) (settings_out settings_in_modified : list Z)
    (require_ack : bool) (l : link T) :
  read_back T ->
  Z.of_nat sizeof_Settings <= 65535 ->
  List.length settings_out = sizeof_Settings ->
  WriteReadScratch T require_ack l <> test_expect_failed
  /\ forall fuel,
       (sizeof_Settings <= fuel)%nat ->
       exists outcome,
         ReadWriteReadRewriteRereadBig T sizeof_Settings settings_out
           settings_in_modified require_ack fuel l = Some outcome
         /\ outcome <> test_expect_failed.
Proof.
  intros Hrb Hsize Hlen. split.
  - unfold WriteReadScratch.
    destruct (Write T kAddrScratch _ require_ack l) as [ok_w l1] eqn:Hw.
    destruct ok_w; cbn [negb]; [| discriminate].
    destruct (Read T kAddrScratch _ l1) as [[v ok_r] l2] eqn:Hr.
    destruct ok_r; cbn [negb]; [| discriminate].
    rewrite (Hrb _ _ _ _ _ _ _ _ Hw Hr), value_eqb_refl. discriminate.
  - intros fuel Hfuel. unfold ReadWriteReadRewriteRereadBig. cbv zeta.
    destruct (Read T kAddrSettingsStruct _ l) as [[v1 ok1] l1].
    destruct ok1; cbn [negb]; [| eexists; split; [reflexivity | discriminate]].
    rewrite (for_uint16_ends fill_byte (Z.of_nat sizeof_Settings) ltac:(lia)
               sizeof_Settings 0 fuel settings_out) by lia.
    cbn [Z.to_nat]. rewrite (store_byte_fills settings_out sizeof_Settings 0) by lia.
    cbn [firstn app]. fold (settings_pattern sizeof_Settings).
    destruct (Write T kAddrSettingsStruct _ require_ack l1) as [ok2 l2] eqn:Hw.
    destruct ok2; cbn [negb]; [| eexists; split; [reflexivity | discriminate]].
    destruct (Read T kAddrSettingsStruct _ l2) as [[v3 ok3] l3] eqn:Hr.
    destruct ok3; cbn [negb]; [| eexists; split; [reflexivity | discriminate]].
    rewrite (Hrb _ _ _ _ _ _ _ _ Hw Hr).
    rewrite (for_uint16_ends (expect_byte (Block (settings_pattern sizeof_Settings)))
               (Z.of_nat sizeof_Settings) ltac:(lia) sizeof_Settings 0 fuel true)
      by lia.
    cbn [Z.to_nat]. rewrite expectations_hold
      by (apply Forall_forall; intros j Hj; apply in_seq in Hj; lia).
    destruct (Write T kAddrSettingsStruct v1 require_ack l3) as [ok4 l4].
    destruct ok4; cbn [negb]; eexists; (split; [reflexivity | discriminate]).
Qed.

(** X29. For a settings block of more than 65535 bytes the settings test
    never finishes: either its first Read fails and it stops at the
    ASSERT_TRUE, or it enters the loop that fills settings_out, whose uint16_t
    index wraps to 0 before it can reach the size, and stays there whatever
    the fuel. *)
Theorem settings_test_never_ends_above_uint16 (T : Transport)
    (sizeof_Settings : nat) (settings_out settings_in_modified : list Z)
    (require_ack : bool) (fuel : nat) (l : link T) :
  65535 < Z.of_nat sizeof_Settings ->
  ReadWriteReadRewriteRereadBig T sizeof_Settings settings_out settings_in_modified
    require_ack fuel l
  = if snd (fst (Read T kAddrSettingsStruct (Block (repeat 0 sizeof_Settings)) l))
    then None else Some test_assert_failed.
Proof.
  intros Hsize. unfold ReadWriteReadRewriteRereadBig. cbv zeta.
  destruct (Read T kAddrSettingsStruct _ l) as [[v1 ok1] l1].
  cbn [fst snd]. destruct ok1; cbn [negb]; [| reflexivity].
  rewrite (for_uint16_never_ends fill_byte (Z.of_nat sizeof_Settings)) by lia.
  reflexivity.
Qed.

End HardwareTests.

(** * The statements on concrete runs *)

Module Runs.
Import Examples.

(** Seven station-disconnected events after boot: five reconnects, then the
    failure signal is raised on the sixth event and again on the seventh. *)
Lemma seven_disconnects_raise_failure_twice :
  exists cm' effs,
    @handle_events example_codec (disconnects 7) booted = Some (cm', effs)
    /\ filter retry_or_fail effs
       = repeat esp_wifi_connect 5 ++ repeat (xEventGroupSetBits WIFI_FAIL_BIT) 2
    /\ fail_emissions effs = 2%nat.
Proof.
  eexists. eexists. split; [vm_compute; reflexivity |].
  split; vm_compute; reflexivity.
Qed.

(** With exactly six events the signal is raised once. *)
Example six_disconnects_raise_failure_once :
  exists cm' effs,
    @handle_events example_codec (disconnects 6) booted = Some (cm', effs)
    /\ fail_emissions effs = 1%nat
    /\ s_retry_num cm' = 5.
Proof.
  eexists. eexists. split; [vm_compute; reflexivity |]. split; reflexivity.
Qed.

Lemma sta_reconnect_bounded_witness :
  forallb is_sta_disconnected (map fst (disconnects 7)) = true
  /\ 0 <= @s_retry_num example_codec booted <= kWiFiStaMaxNumReconnectAttempts
  /\ ((Forall (fun e => snd e = ESP_OK) (disconnects 7) ->
       @handle_events example_codec (disconnects 7) booted <> None)
      /\ forall cm' effs,
           @handle_events example_codec (disconnects 7) booted = Some (cm', effs) ->
           let n := Z.of_nat (List.length (disconnects 7)) in
           let k := Z.min n (kWiFiStaMaxNumReconnectAttempts - s_retry_num booted) in
           s_retry_num cm' = s_retry_num booted + k
           /\ s_retry_num cm' <= kWiFiStaMaxNumReconnectAttempts
           /\ filter retry_or_fail effs
              = repeat esp_wifi_connect (Z.to_nat k)
                ++ repeat (xEventGroupSetBits WIFI_FAIL_BIT) (Z.to_nat (n - k))
           /\ fail_emissions effs = Z.to_nat (n - k)
           /\ (k < n -> fail_bit_set cm' = true)).
Proof.
  split; [reflexivity |]. split; [vm_compute; split; discriminate |].
  apply (@sta_reconnect_bounded_then_fail_signal_per_event example_codec
           (disconnects 7) booted).
  - reflexivity.
  - vm_compute; split; discriminate.
Defined.

(** A client-associate event on the booted manager: the one slot of the table
    is as inactive afterwards as it was before. *)
Lemma associate_event_activates_no_record :
  exists cm' effs,
    @WiFiEventHandler example_codec
      (WIFI_EVENT_AP_STACONNECTED [2; 0; 0; 0; 0; 1] 1) ESP_OK booted
    = Some (cm', effs)
    /\ wifi_clients_list_ cm' = wifi_clients_list_ booted
    /\ existsb client_active (wifi_clients_list_ cm') = false.
Proof.
  eexists. eexists. split; [reflexivity |]. split; reflexivity.
Qed.

Lemma s_retry_num_never_reset_witness :
  exists st',
    @run_operations example_codec
      [op_WiFiInit station_only all_ok [];
       op_WiFiEventHandler WIFI_EVENT_STA_CONNECTED ESP_OK]
      (exhausted, [connected_slot]) = Some st'
    /\ s_retry_num exhausted <= s_retry_num (fst st')
    /\ (kWiFiStaMaxNumReconnectAttempts <= s_retry_num exhausted ->
        forall reason connect_ret,
        exists cm'',
          WiFiEventHandler (WIFI_EVENT_STA_DISCONNECTED reason) connect_ret (fst st')
          = Some (cm'', [console LOG_WARNING; xEventGroupClearBits WIFI_CONNECTED_BIT;
                         xEventGroupSetBits WIFI_FAIL_BIT; console LOG_ERROR])
          /\ s_retry_num cm'' = s_retry_num (fst st')
          /\ fail_bit_set cm'' = true).
Proof.
  eexists. split; [vm_compute; reflexivity |].
  apply (@s_retry_num_never_reset example_codec
           [op_WiFiInit station_only all_ok [];
            op_WiFiEventHandler WIFI_EVENT_STA_CONNECTED ESP_OK]
           (exhausted, [connected_slot])).
  vm_compute; reflexivity.
Defined.

(** Station mode, six disconnects while WiFiInit waits: it returns false. *)
Lemma WiFiInit_contract_witness :
  exists cm' effs,
    @WiFiInit example_codec station_only all_ok (disconnects 6) booted
    = Some (InitReturned false, cm', effs)
    /\ (wifi_sta_enabled station_only = true ->
        connected_signal (wifi_event_group_ cm') || failed_signal (wifi_event_group_ cm')
        = true
        /\ launches wifi_sta_task effs = connected_signal (wifi_event_group_ cm')
        /\ false = connected_signal (wifi_event_group_ cm')
        /\ (failed_signal (wifi_event_group_ cm') = true ->
            connected_signal (wifi_event_group_ cm') = false -> false = false)).
Proof.
  eexists. eexists. split; [vm_compute; reflexivity |].
  refine (proj1 (proj2 (@WiFiInit_contract example_codec station_only all_ok
                          (disconnects 6) booted _ (InitReturned false) _ _))).
  vm_compute; reflexivity.
Defined.

(** Neither mode enabled: WiFiInit stops the radio and returns true although
    events are pending; none of them is handled. *)
Example WiFiInit_radio_off :
  @WiFiInit example_codec radio_off all_ok (disconnects 3) booted
  = Some (InitReturned true, set_wifi_was_initialized_ true booted,
          [esp_wifi_init; esp_event_handler_register; IPInit;
           esp_wifi_set_mode WIFI_MODE_STA; esp_wifi_stop; console LOG_INFO]).
Proof. reflexivity. Qed.

(** A first WiFiInit fails after six disconnects; the link comes up later;
    both signals are then in the event group, and a second WiFiInit observes
    the failed signal and still returns true and creates the forwarder task. *)
Lemma WiFiInit_returns_true_with_failed_signal_observed :
  exists cm cm' effs,
    @run_operations example_codec
      [op_WiFiInit station_only all_ok (disconnects 6);
       op_WiFiEventHandler WIFI_EVENT_STA_CONNECTED ESP_OK]
      (booted, []) = Some (cm, [])
    /\ @WiFiInit example_codec station_only all_ok [] cm
       = Some (InitReturned true, cm', effs)
    /\ failed_signal (wifi_event_group_ cm') = true
    /\ launches wifi_sta_task effs = true.
Proof.
  eexists. eexists. eexists.
  split; [vm_compute; reflexivity |].
  split; [vm_compute; reflexivity |].
  split; vm_compute; reflexivity.
Qed.

(** Both tasks running and both queues full: each enqueue resets its queue. *)
Lemma enqueue_on_full_queue_witness :
  run_wifi_ap_task_ queues_full = true
  /\ queue_full (wifi_ap_message_queue_ queues_full) = true
  /\ run_wifi_sta_task_ queues_full = true
  /\ queue_full (wifi_sta_decoded_transponder_packet_queue_ queues_full) = true
  /\ (let '(ok, cm', effs) :=
        @WiFiAccessPointSendMessageToAllStations example_codec message queues_full in
      ok = false
      /\ q_items (wifi_ap_message_queue_ cm') = []
      /\ q_capacity (wifi_ap_message_queue_ cm')
         = q_capacity (wifi_ap_message_queue_ queues_full)
      /\ wifi_sta_decoded_transponder_packet_queue_ cm'
         = wifi_sta_decoded_transponder_packet_queue_ queues_full
      /\ effs = [console LOG_WARNING])
  /\ (let '(ok, cm', effs) :=
        @WiFiStationSendDecodedTransponderPacket example_codec valid_packet
          queues_full in
      ok = false
      /\ q_items (wifi_sta_decoded_transponder_packet_queue_ cm') = []
      /\ q_capacity (wifi_sta_decoded_transponder_packet_queue_ cm')
         = q_capacity (wifi_sta_decoded_transponder_packet_queue_ queues_full)
      /\ wifi_ap_message_queue_ cm' = wifi_ap_message_queue_ queues_full
      /\ effs = [console LOG_WARNING]).
Proof.
  do 4 (split; [reflexivity |]).
  pose proof (@enqueue_on_full_queue_fails_and_resets example_codec queues_full
                message valid_packet) as (Hap & Hsta & _).
  split; [exact (Hap eq_refl eq_refl) | exact (Hsta eq_refl eq_refl)].
Defined.

(** Both queues full while neither task runs: each enqueue returns false at
    its guard and the queue is as full afterwards as it was before. *)
Lemma full_queue_is_kept_while_task_not_running :
  run_wifi_ap_task_ tasks_stopped = false
  /\ run_wifi_sta_task_ tasks_stopped = false
  /\ queue_full (wifi_ap_message_queue_ tasks_stopped) = true
  /\ queue_full (wifi_sta_decoded_transponder_packet_queue_ tasks_stopped) = true
  /\ (exists cm' effs,
        @WiFiAccessPointSendMessageToAllStations example_codec message tasks_stopped
        = (false, cm', effs)
        /\ q_items (wifi_ap_message_queue_ cm') = [message]
        /\ queue_full (wifi_ap_message_queue_ cm') = true)
  /\ (exists cm' effs,
        @WiFiStationSendDecodedTransponderPacket example_codec valid_packet
          tasks_stopped
        = (false, cm', effs)
        /\ q_items (wifi_sta_decoded_transponder_packet_queue_ cm') = [valid_packet]
        /\ queue_full (wifi_sta_decoded_transponder_packet_queue_ cm') = true).
Proof.
  do 4 (split; [reflexivity |]).
  split; eexists; eexists; (split; [reflexivity |]); split; reflexivity.
Qed.

(** The whole fan-out of one message over the example table: three attempts
    for slot 0, none for the inactive slot 1, one failed attempt for slot 2. *)
Example broadcast_trace :
  snd (@WiFiAccessPointTask_iteration example_codec 3 sendto_results queues_full)
  = [(0%nat, sys_sendto 3 17 6969 [1; 2; 3]); (0%nat, vTaskDelay 100);
     (0%nat, sys_sendto 3 17 6969 [1; 2; 3]); (0%nat, vTaskDelay 100);
     (0%nat, sys_sendto 3 17 6969 [1; 2; 3]);
     (2%nat, sys_sendto 3 19 6969 [1; 2; 3]); (2%nat, console LOG_ERROR)].
Proof. reflexivity. Qed.

(** A feed given by host name whose lookup fails: the socket just created is
    closed again and the slot stays disconnected. *)
Example hostname_lookup_fails :
  @feed_pass example_codec
    {| feed_is_active := true; feed_uris := "feed.example.org"; feed_ports := 30004;
       feed_protocols := kBeast; feed_receiver_ids := [190; 239] |}
    {| get_time_since_boot_ms_ret := 20000; socket_ret := 55;
       getaddrinfo_err := 202; getaddrinfo_res := None;
       inet_pton := example_inet_pton; dest_addr_sin_addr := 0;
       connect_ret := 0; send_ret := 9 |}
    valid_packet
    {| feed_sock := 0; feed_sock_is_connected := false;
       feed_sock_last_connect_timestamp_ms := 0; feed_mps := 0; feed_mps_counter_ := 0 |}
  = ({| feed_sock := 55; feed_sock_is_connected := false;
        feed_sock_last_connect_timestamp_ms := 20000; feed_mps := 0;
        feed_mps_counter_ := 0 |},
     [sys_socket 55; console LOG_INFO; sys_getaddrinfo "feed.example.org";
      console LOG_ERROR; console LOG_ERROR; sys_close 55]).
Proof. reflexivity. Qed.

(** First client of the table: ENOMEM twice, then delivered. *)
Lemma broadcast_attempts_witness :
  q_items (wifi_ap_message_queue_ queues_full) = message :: []
  /\ nth_error (wifi_clients_list_ queues_full) 0
     = Some {| client_mac := [2; 0; 0; 0; 0; 1]; client_ip := 17; client_active := true |}
  /\ (let trace :=
        snd (@WiFiAccessPointTask_iteration example_codec 3 sendto_results queues_full) in
      let n := sendto_count (slot_trace 0 trace) in
      (true = false -> n = 0%nat)
      /\ (true = true ->
          (1 <= n <= kWiFiNumRetries)%nat
          /\ (forall k, (S k < n)%nat -> enomem_failure (sendto_results 0%nat k) = true)
          /\ (forall k, (S k = n)%nat -> (n < kWiFiNumRetries)%nat ->
                        enomem_failure (sendto_results 0%nat k) = false))).
Proof.
  split; [reflexivity |]. split; [reflexivity |].
  apply (@broadcast_attempts_per_client example_codec 3 sendto_results queues_full
           message [] 0%nat
           {| client_mac := [2; 0; 0; 0; 0; 1]; client_ip := 17; client_active := true |});
    reflexivity.
Defined.

(** A valid packet on a connected Beast feed: one frame, counter 7 -> 8. *)
Lemma beast_feed_witness :
  nth_error [connected_slot] 0 = Some connected_slot
  /\ feed_is_active (beast_feed true) = true
  /\ feed_sock_is_connected connected_slot = true
  /\ feed_protocols (beast_feed true) = kBeast
  /\ (let '(feeds', trace) :=
        @feed_loop example_codec (fun _ => beast_feed true) (fun _ => io_at 20000 9)
          valid_packet 0 [connected_slot] in
      exists s',
        nth_error feeds' 0 = Some s'
        /\ (@IsValid example_codec valid_packet = false ->
            slot_trace 0 trace = []
            /\ feed_mps_counter_ s' = feed_mps_counter_ connected_slot)
        /\ (@IsValid example_codec valid_packet = true ->
            filter is_sys_send (slot_trace 0 trace)
            = [sys_send (feed_sock connected_slot)
                 (@TransponderPacketToBeastFramePrependReceiverID example_codec
                    valid_packet (feed_receiver_ids (beast_feed true)))]
            /\ (0 <= send_ret (io_at 20000 9) ->
                feed_mps_counter_ s'
                = @incr_counter example_codec (feed_mps_counter_ connected_slot)
                /\ (0 <= feed_mps_counter_ connected_slot ->
                    feed_mps_counter_ connected_slot + 1
                    < 2 ^ @feed_mps_counter_bits example_codec ->
                    feed_mps_counter_ s' = feed_mps_counter_ connected_slot + 1))
            /\ (send_ret (io_at 20000 9) < 0 ->
                feed_mps_counter_ s' = feed_mps_counter_ connected_slot))).
Proof.
  split; [reflexivity |]. split; [reflexivity |]. split; [reflexivity |].
  split; [reflexivity |].
  apply (@beast_feed_sends_valid_packets_only example_codec
           (fun _ => beast_feed true) (fun _ => io_at 20000 9) valid_packet
           [connected_slot] 0%nat connected_slot); reflexivity.
Defined.

(** A turn in which the send on slot 0 fails. *)
Lemma send_failure_witness :
  nth_error [connected_slot] 0 = Some connected_slot
  /\ send_ret (it_io (turn true 20000 (-1)) 0%nat) < 0
  /\ In (sys_send 54 [190; 239; 26; 50; 141; 72])
        (slot_trace 0
           (snd (@WiFiStationTask_iteration example_codec (turn true 20000 (-1))
                   (queues_full, [connected_slot]))))
  /\ ((forall inputs,
          spaced (feed_sock_last_connect_timestamp_ms connected_slot
                  :: @connect_attempt_times example_codec 0 inputs
                       (queues_full, [connected_slot])))
      /\ (send_ret (it_io (turn true 20000 (-1)) 0%nat) < 0 ->
          let '(cm1, feeds1, _, trace) :=
            @WiFiStationTask_iteration example_codec (turn true 20000 (-1))
              (queues_full, [connected_slot]) in
          forall fd bytes,
            In (sys_send fd bytes) (slot_trace 0 trace) ->
            exists s1,
              nth_error feeds1 0 = Some s1
              /\ feed_sock_is_connected s1 = false
              /\ fd = feed_sock s1
              /\ (exists pre,
                     slot_trace 0 trace
                     = pre ++ [sys_send fd bytes; console LOG_ERROR; sys_close fd])
              /\ forall inputs,
                   (forall pre e post,
                       slot_trace 0
                         (snd (@WiFiStationTask_run example_codec inputs (cm1, feeds1)))
                       = pre ++ e :: post ->
                       is_sys_send e = true ->
                       existsb is_sys_socket pre = true)
                   /\ spaced (feed_sock_last_connect_timestamp_ms s1
                              :: @connect_attempt_times example_codec 0 inputs
                                   (cm1, feeds1)))).
Proof.
  split; [reflexivity |]. split; [reflexivity |].
  split; [vm_compute; left; reflexivity |].
  apply (@send_failure_disconnects_and_reconnects_are_rate_limited example_codec
           0%nat (turn true 20000 (-1)) queues_full [connected_slot] connected_slot).
  reflexivity.
Defined.

(** The slot reconnected long ago; its send fails at 20000 ms and the next
    packet, 1 ms later, is sent over a fresh connection: the window that
    governs the reconnect started at the previous attempt, not at the failure. *)
Lemma reconnect_right_after_failure :
  exists cm1 feeds1 effs1 trace1 cm2 feeds2 effs2 trace2,
    @WiFiStationTask_iteration example_codec (turn true 20000 (-1))
      (@set_wifi_sta_decoded_transponder_packet_queue_ example_codec
         {| q_items := [valid_packet; valid_packet]; q_capacity := 2 |} queues_full,
       [connected_slot])
    = (cm1, feeds1, effs1, trace1)
    /\ WiFiStationTask_iteration (turn true 20001 9) (cm1, feeds1)
       = (cm2, feeds2, effs2, trace2)
    /\ feed_is_active (it_settings (turn true 20000 (-1)) 0%nat) = true
    /\ send_ret (it_io (turn true 20000 (-1)) 0%nat) < 0
    /\ slot_trace 0 trace1
       = [sys_send 54 [190; 239; 26; 50; 141; 72]; console LOG_ERROR; sys_close 54]
    /\ sub32 (get_time_since_boot_ms_ret (it_io (turn true 20001 9) 0%nat))
             (get_time_since_boot_ms_ret (it_io (turn true 20000 (-1)) 0%nat))
       = 1
    /\ slot_trace 0 trace2
       = [sys_socket 55; console LOG_INFO; sys_connect 55 117549248 30004;
          console LOG_INFO; sys_send 55 [190; 239; 26; 50; 141; 72]].
Proof.
  do 8 eexists. split; [vm_compute; reflexivity |].
  split; [vm_compute; reflexivity |].
  repeat split; vm_compute; reflexivity.
Qed.

Lemma feed_sockets_witness :
  nth_error [connected_slot] 0 = Some connected_slot
  /\ (forall inp cm pkt queued,
         q_items (@wifi_sta_decoded_transponder_packet_queue_ example_codec cm)
         = pkt :: queued ->
         feed_is_active (it_settings inp 0%nat) = false ->
         let '(_, feeds1, _, trace) :=
           @WiFiStationTask_iteration example_codec inp (cm, [connected_slot]) in
         exists s1,
           nth_error feeds1 0 = Some s1
           /\ feed_sock_is_connected s1 = false
           /\ slot_trace 0 trace
              = (if feed_sock_is_connected connected_slot
                 then [sys_close (feed_sock connected_slot); console LOG_INFO] else [])
           /\ filter is_sys_send (slot_trace 0 trace) = [])
  /\ q_items (wifi_sta_decoded_transponder_packet_queue_ queues_full)
     = valid_packet :: []
  /\ feed_is_active (it_settings (turn false 20000 9) 0%nat) = false.
Proof.
  split; [reflexivity |]. split; [| split; reflexivity].
  exact (proj1 (proj2 (proj2 (proj2
           (@feed_sockets_at_most_one_open example_codec 0%nat [connected_slot]
              connected_slot eq_refl))))).
Defined.

(** A turn of the task loop in which no packet is waiting: the socket of a
    slot that is connected but configured inactive is not closed, the slot
    stays connected. *)
Lemma inactive_slot_stays_open_without_packet :
  feed_is_active (it_settings (turn false 20000 9) 0%nat) = false
  /\ exists cm1 s1 effs,
       @WiFiStationTask_iteration example_codec (turn false 20000 9)
         (no_packets, [connected_slot]) = (cm1, [s1], effs, [])
       /\ feed_sock_is_connected s1 = true
       /\ sockets_open [] [feed_sock connected_slot] = [54].
Proof.
  split; [reflexivity |].
  eexists. eexists. eexists. split; [vm_compute; reflexivity |].
  split; reflexivity.
Qed.

End Runs.

(** * The further properties on concrete runs *)

Module MoreRuns.
Import Examples MoreExamples.

#[local] Existing Instance example_codec.

(** A disconnect of a station that was connected and had an address. *)
Lemma sta_disconnected_drops_connection_witness :
  exists cm' effs,
    @WiFiEventHandler example_codec (WIFI_EVENT_STA_DISCONNECTED 201) ESP_OK queues_full
    = Some (cm', effs)
    /\ connected_signal (wifi_event_group_ cm') = false
    /\ wifi_sta_has_ip_ cm' = false
    /\ In (xEventGroupClearBits WIFI_CONNECTED_BIT) effs
    /\ failed_signal (wifi_event_group_ cm')
       = failed_signal (wifi_event_group_ queues_full)
         || (kWiFiStaMaxNumReconnectAttempts <=? s_retry_num queues_full).
Proof.
  eexists. eexists. split; [vm_compute; reflexivity |].
  apply (@sta_disconnected_drops_connection example_codec 201 ESP_OK queues_full).
  vm_compute; reflexivity.
Defined.

(** After the terminal failure: a connected event and a new WiFiInit. *)
Lemma failure_signal_is_never_cleared_witness :
  exists st',
    @run_operations example_codec
      [op_WiFiEventHandler WIFI_EVENT_STA_CONNECTED ESP_OK;
       op_WiFiInit station_only all_ok []]
      (exhausted, []) = Some st'
    /\ fail_bit_set exhausted = true
    /\ fail_bit_set (fst st') = true
    /\ forall cfg env events r cm'' effs,
         wifi_sta_enabled cfg = true ->
         WiFiInit cfg env events (fst st') = Some (r, cm'', effs) ->
         r <> InitBlocked.
Proof.
  eexists. split; [vm_compute; reflexivity |]. split; [reflexivity |].
  apply (@failure_signal_is_never_cleared example_codec
           [op_WiFiEventHandler WIFI_EVENT_STA_CONNECTED ESP_OK;
            op_WiFiInit station_only all_ok []]
           (exhausted, [])).
  - vm_compute; reflexivity.
  - reflexivity.
Defined.

Lemma wifi_sta_has_ip_is_never_raised_witness :
  exists st',
    @run_operations example_codec
      [op_WiFiEventHandler WIFI_EVENT_STA_CONNECTED ESP_OK;
       op_WiFiInit station_only all_ok [];
       op_WiFiStationTask_start;
       op_WiFiStationSendDecodedTransponderPacket valid_packet]
      (booted, [connected_slot]) = Some st'
    /\ wifi_sta_has_ip_ booted = false
    /\ wifi_sta_has_ip_ (fst st') = false.
Proof.
  eexists. split; [vm_compute; reflexivity |]. split; [reflexivity |].
  apply (@wifi_sta_has_ip_is_never_raised example_codec
           [op_WiFiEventHandler WIFI_EVENT_STA_CONNECTED ESP_OK;
            op_WiFiInit station_only all_ok [];
            op_WiFiStationTask_start;
            op_WiFiStationSendDecodedTransponderPacket valid_packet]
           (booted, [connected_slot])).
  - vm_compute; reflexivity.
  - reflexivity.
Defined.

Lemma WiFiDeInit_restarts_once_initialized_witness :
  exists r cm1 effs st',
    @WiFiInit example_codec radio_off all_ok [] booted = Some (r, cm1, effs)
    /\ run_operations [op_WiFiEventHandler (WIFI_EVENT_OTHER 7) ESP_OK] (cm1, [])
       = Some st'
    /\ WiFiDeInit (fst st') = None
    /\ ~ In op_WiFiDeInit [op_WiFiEventHandler (WIFI_EVENT_OTHER 7) ESP_OK].
Proof.
  do 4 eexists. split; [vm_compute; reflexivity |].
  split; [vm_compute; reflexivity |].
  eapply (@WiFiDeInit_restarts_once_initialized example_codec radio_off all_ok []
           booted _ _ _ [op_WiFiEventHandler (WIFI_EVENT_OTHER 7) ESP_OK] [] _
           eq_refl).
  vm_compute; reflexivity.
Defined.

(** Before any initialization WiFiDeInit returns true and changes nothing. *)
Example WiFiDeInit_before_WiFiInit :
  @WiFiDeInit example_codec booted = Some (true, booted).
Proof. reflexivity. Qed.

Lemma WiFiInit_access_point_only_witness :
  wifi_ap_enabled access_point_only = true
  /\ wifi_sta_enabled access_point_only = false
  /\ env_ok_for access_point_only all_ok
  /\ exists effs,
       @WiFiInit example_codec access_point_only all_ok (disconnects 2) booted
       = Some (InitReturned true,
               set_run_wifi_ap_task_ true (set_wifi_was_initialized_ true booted), effs)
       /\ In (esp_wifi_set_mode WIFI_MODE_AP) effs
       /\ launches wifi_ap_task effs = true
       /\ launches wifi_sta_task effs = false
       /\ existsb is_esp_wifi_connect effs = false.
Proof.
  split; [reflexivity |]. split; [reflexivity |].
  assert (Henv : env_ok_for access_point_only all_ok)
    by (unfold env_ok_for; cbn; repeat split; intros; reflexivity).
  split; [exact Henv |].
  apply (@WiFiInit_access_point_only example_codec access_point_only all_ok
           (disconnects 2) booted eq_refl eq_refl Henv).
Defined.

Lemma WiFiInit_fails_at_once_after_terminal_failure_witness :
  wifi_sta_enabled station_only = true
  /\ env_ok_for station_only all_ok
  /\ failed_signal (wifi_event_group_ exhausted) = true
  /\ connected_signal (wifi_event_group_ exhausted) = false
  /\ exists effs,
       @WiFiInit example_codec station_only all_ok
         [(WIFI_EVENT_STA_CONNECTED, ESP_OK)] exhausted
       = Some (InitReturned false, state_at_wait station_only exhausted, effs)
       /\ launches wifi_sta_task effs = false
       /\ existsb is_esp_wifi_connect effs = false.
Proof.
  split; [reflexivity |].
  assert (Henv : env_ok_for station_only all_ok)
    by (unfold env_ok_for; cbn; repeat split; intros; reflexivity).
  split; [exact Henv |]. split; [reflexivity |]. split; [reflexivity |].
  apply (@WiFiInit_fails_at_once_after_terminal_failure example_codec station_only
           all_ok [(WIFI_EVENT_STA_CONNECTED, ESP_OK)] exhausted
           eq_refl Henv eq_refl eq_refl).
Defined.

Lemma packet_enqueue_follows_WiFiInit_result_witness :
  wifi_sta_enabled station_only = true
  /\ run_wifi_sta_task_ booted = false
  /\ exists cm' effs,
       @WiFiInit example_codec station_only all_ok (disconnects 6) booted
       = Some (InitReturned false, cm', effs)
       /\ fst (fst (WiFiStationSendDecodedTransponderPacket valid_packet cm'))
          = false
            && negb (queue_full (wifi_sta_decoded_transponder_packet_queue_ booted)).
Proof.
  split; [reflexivity |]. split; [reflexivity |].
  eexists. eexists. split; [vm_compute; reflexivity |].
  eapply (@packet_enqueue_follows_WiFiInit_result example_codec station_only all_ok
           (disconnects 6) booted _ false _ valid_packet eq_refl eq_refl).
  vm_compute; reflexivity.
Defined.

(** Three broadcasts into a queue of length 4 and an overflow of the packet
    queue never started. *)
Lemma queues_never_exceed_their_length_witness :
  exists cm feeds',
    @run_operations example_codec
      [op_WiFiInit access_point_only all_ok [];
       op_WiFiAccessPointSendMessageToAllStations message;
       op_WiFiAccessPointSendMessageToAllStations second_message;
       op_WiFiAccessPointSendMessageToAllStations message;
       op_WiFiStationSendDecodedTransponderPacket valid_packet]
      (boot_state 4 4 [], [connected_slot]) = Some (cm, feeds')
    /\ (List.length (q_items (wifi_ap_message_queue_ cm)) <= 4)%nat
    /\ (List.length (q_items (wifi_sta_decoded_transponder_packet_queue_ cm)) <= 4)%nat
    /\ q_capacity (wifi_ap_message_queue_ cm) = 4%nat
    /\ q_capacity (wifi_sta_decoded_transponder_packet_queue_ cm) = 4%nat.
Proof.
  eexists. eexists. split; [vm_compute; reflexivity |].
  eapply (@queues_never_exceed_their_length example_codec
            [op_WiFiInit access_point_only all_ok [];
             op_WiFiAccessPointSendMessageToAllStations message;
             op_WiFiAccessPointSendMessageToAllStations second_message;
             op_WiFiAccessPointSendMessageToAllStations message;
             op_WiFiStationSendDecodedTransponderPacket valid_packet]
            4 4 [] [connected_slot]).
  vm_compute; reflexivity.
Defined.

Lemma broadcast_calls_go_to_the_client_witness :
  q_items (wifi_ap_message_queue_ queues_full) = [message]
  /\ nth_error (wifi_clients_list_ queues_full) 0
     = Some {| client_mac := [2; 0; 0; 0; 0; 1]; client_ip := 17;
               client_active := true |}
  /\ Forall (fun e =>
               e = sys_sendto 7 17 (msg_port message)
                     (firstn (Z.to_nat (msg_len message)) (msg_data message))
               \/ e = vTaskDelay kWiFiRetryWaitTimeMs
               \/ e = console LOG_ERROR)
            (slot_trace 0
               (snd (@WiFiAccessPointTask_iteration example_codec 7 sendto_results
                       queues_full))).
Proof.
  split; [reflexivity |]. split; [reflexivity |].
  apply (@broadcast_calls_go_to_the_client example_codec 7 sendto_results queues_full
           message [] 0
           {| client_mac := [2; 0; 0; 0; 0; 1]; client_ip := 17; client_active := true |}
           eq_refl eq_refl).
Defined.

(** Slot 0: two ENOMEM failures, then success: two delays, no error log. *)
Lemma broadcast_delays_and_error_log_witness :
  q_items (wifi_ap_message_queue_ queues_full) = [message]
  /\ nth_error (wifi_clients_list_ queues_full) 0
     = Some {| client_mac := [2; 0; 0; 0; 0; 1]; client_ip := 17;
               client_active := true |}
  /\ (let trace :=
        slot_trace 0
          (snd (@WiFiAccessPointTask_iteration example_codec 7 sendto_results
                  queues_full)) in
      let n := sendto_count trace in
      List.length (filter is_vTaskDelay trace)
      = List.length (filter enomem_failure (map (sendto_results 0) (seq 0 n)))
      /\ List.length (filter is_error_log trace)
         = (if sr_ret (sendto_results 0 (n - 1)%nat) <? 0 then 1%nat else 0%nat)
      /\ (sr_ret (sendto_results 0 (n - 1)%nat) < 0 ->
          exists pre, trace = pre ++ [console LOG_ERROR])).
Proof.
  split; [reflexivity |]. split; [reflexivity |].
  apply (@broadcast_delays_and_error_log example_codec 7 sendto_results queues_full
           message [] 0
           {| client_mac := [2; 0; 0; 0; 0; 1]; client_ip := 17; client_active := true |}
           eq_refl eq_refl eq_refl).
Defined.

(** Slot 2 is refused at once: one attempt, no delay, the error log last. *)
Example broadcast_refused_client :
  slot_trace 2
    (snd (@WiFiAccessPointTask_iteration example_codec 7 sendto_results queues_full))
  = [sys_sendto 7 19 6969 [1; 2; 3]; console LOG_ERROR].
Proof. reflexivity. Qed.

Lemma broadcast_total_sendto_bound_witness :
  q_items (wifi_ap_message_queue_ queues_full) = [message]
  /\ (let total :=
        sendto_count
          (map snd (snd (@WiFiAccessPointTask_iteration example_codec 7 sendto_results
                           queues_full))) in
      let active := List.length (filter client_active (wifi_clients_list_ queues_full)) in
      (active <= total <= kWiFiNumRetries * active)%nat).
Proof.
  split; [reflexivity |].
  apply (@broadcast_total_sendto_bound example_codec 7 sendto_results queues_full
           message [] eq_refl).
Defined.

(** socket() fails: the queued message stays where it is. *)
Example WiFiAccessPointTask_without_socket :
  @WiFiAccessPointTask example_codec (-1) [sendto_results] queues_full
  = (queues_full, [ap_call (sys_socket (-1)); ap_call (console LOG_ERROR)]).
Proof. reflexivity. Qed.

Lemma broadcast_in_queue_order_witness :
  run_wifi_ap_task_ ap_room = true
  /\ queue_full (wifi_ap_message_queue_ ap_room) = false
  /\ List.length [sendto_results] = List.length (q_items (wifi_ap_message_queue_ ap_room))
  /\ (let '(ok, cm1, _) :=
        @WiFiAccessPointSendMessageToAllStations example_codec second_message ap_room in
      let '(cm2, _) := WiFiAccessPointTask_loop 7 [sendto_results] cm1 in
      ok = true
      /\ q_items (wifi_ap_message_queue_ cm2) = [second_message]
      /\ WiFiAccessPointTask_iteration 7 sendto_results cm2
         = (set_wifi_ap_message_queue_
              {| q_items := [];
                 q_capacity := q_capacity (wifi_ap_message_queue_ ap_room) |} cm2,
            broadcast_loop 7 second_message 0 (wifi_clients_list_ ap_room)
              sendto_results)).
Proof.
  split; [reflexivity |]. split; [reflexivity |]. split; [reflexivity |].
  apply (@broadcast_in_queue_order example_codec second_message ap_room 7
           [sendto_results] sendto_results eq_refl eq_refl eq_refl).
Defined.

(** A literal address: connect() goes to what inet_pton() read from it. *)
Lemma feed_connect_destination_witness :
  In (sys_connect 55 117549248 30004)
     (snd (@feed_pass example_codec (beast_feed true) (io_at 20000 9) valid_packet
             fresh_slot))
  /\ feed_sock_is_connected fresh_slot = false
  /\ 55 = socket_ret (io_at 20000 9) /\ 0 < 55
  /\ 30004 = feed_ports (beast_feed true)
  /\ (exists text,
        (if IsNotIPAddress (feed_uris (beast_feed true))
         then getaddrinfo_err (io_at 20000 9) = 0
              /\ getaddrinfo_res (io_at 20000 9) = Some text
         else text = feed_uris (beast_feed true))
        /\ 117549248 = match inet_pton (io_at 20000 9) text with
                       | Some addr => addr
                       | None => dest_addr_sin_addr (io_at 20000 9)
                       end)
  /\ feed_sock_is_connected
       (fst (@feed_pass example_codec (beast_feed true) (io_at 20000 9) valid_packet
               fresh_slot))
     = (connect_ret (io_at 20000 9) =? 0)
       && negb (existsb is_sys_close
                  (snd (@feed_pass example_codec (beast_feed true) (io_at 20000 9)
                          valid_packet fresh_slot))).
Proof.
  assert (Hin : In (sys_connect 55 117549248 30004)
                  (snd (@feed_pass example_codec (beast_feed true) (io_at 20000 9)
                          valid_packet fresh_slot)))
    by (vm_compute; do 2 right; left; reflexivity).
  split; [exact Hin |].
  apply (@feed_connect_destination example_codec (beast_feed true)
           (io_at 20000 9) valid_packet fresh_slot 55 117549248 30004 Hin).
Defined.

(** A URI without letters that is no address, here the empty one: connect()
    is made all the same, to what the uninitialised dest_addr holds (here the
    address of another feed). *)
Example malformed_uri_connects_to_stale_address :
  snd (@feed_pass example_codec
         {| feed_is_active := true; feed_uris := ""; feed_ports := 30005;
            feed_protocols := kBeast; feed_receiver_ids := [190; 239] |}
         {| get_time_since_boot_ms_ret := 20000; socket_ret := 56;
            getaddrinfo_err := 0; getaddrinfo_res := None;
            inet_pton := example_inet_pton; dest_addr_sin_addr := 117549248;
            connect_ret := 0; send_ret := 9 |}
         valid_packet fresh_slot)
  = [sys_socket 56; console LOG_INFO; sys_connect 56 117549248 30005;
     console LOG_INFO; sys_send 56 [190; 239; 26; 50; 141; 72]].
Proof. vm_compute. reflexivity. Qed.

(** An invalid packet on a raw Beast feed is sent all the same. *)
Lemma raw_feed_sends_every_packet_witness :
  feed_is_active raw_feed = true
  /\ feed_sock_is_connected connected_slot = true
  /\ feed_protocols raw_feed = kBeastRaw
  /\ filter is_sys_send
       (snd (@feed_pass example_codec raw_feed (io_at 7000 9) invalid_packet
               connected_slot))
     = [sys_send (feed_sock connected_slot)
          (@TransponderPacketToBeastFramePrependReceiverID example_codec invalid_packet
             (feed_receiver_ids raw_feed))].
Proof.
  split; [reflexivity |]. split; [reflexivity |]. split; [reflexivity |].
  apply (@raw_feed_sends_every_packet example_codec raw_feed (io_at 7000 9)
           invalid_packet connected_slot eq_refl eq_refl eq_refl).
Defined.

Lemma unsupported_protocol_connects_but_never_sends_witness :
  feed_protocols unsupported_feed = kProtocolOther 0
  /\ (let '(s', effs) :=
        @feed_pass example_codec unsupported_feed (io_at 20000 9) valid_packet
          fresh_slot in
      filter is_sys_send effs = []
      /\ feed_mps_counter_ s' = feed_mps_counter_ fresh_slot
      /\ (feed_is_active unsupported_feed = true ->
          feed_sock_is_connected fresh_slot = true -> s' = fresh_slot /\ effs = [])
      /\ (feed_is_active unsupported_feed = true ->
          feed_sock_is_connected fresh_slot = false ->
          kWiFiTCPSocketReconnectIntervalMs
          < sub32 (get_time_since_boot_ms_ret (io_at 20000 9))
              (feed_sock_last_connect_timestamp_ms fresh_slot) ->
          0 < socket_ret (io_at 20000 9) ->
          IsNotIPAddress (feed_uris unsupported_feed) = false ->
          connect_ret (io_at 20000 9) = 0 ->
          feed_sock_is_connected s' = true
          /\ In (sys_connect (socket_ret (io_at 20000 9))
                   match inet_pton (io_at 20000 9) (feed_uris unsupported_feed) with
                   | Some addr => addr
                   | None => dest_addr_sin_addr (io_at 20000 9)
                   end (feed_ports unsupported_feed)) effs)).
Proof.
  split; [reflexivity |].
  apply (@unsupported_protocol_connects_but_never_sends example_codec unsupported_feed
           (io_at 20000 9) valid_packet fresh_slot 0 eq_refl).
Defined.

(** An update is due and a packet is sent in the same turn: the rate becomes
    the old count of 7 and the new count starts at 1. *)
Lemma statistics_count_successful_sends_witness :
  nth_error [connected_slot] 0 = Some connected_slot
  /\ exists s1,
       nth_error
         (snd (fst (fst (@WiFiStationTask_iteration example_codec (turn true 7000 9)
                           (queues_full, [connected_slot]))))) 0 = Some s1
       /\ feed_mps s1 = 7 /\ feed_mps_counter_ s1 = 1.
Proof.
  split; [reflexivity |].
  pose proof (@statistics_count_successful_sends example_codec (turn true 7000 9)
                queues_full [connected_slot] 0 connected_slot eq_refl) as H.
  destruct (@WiFiStationTask_iteration example_codec (turn true 7000 9)
              (queues_full, [connected_slot])) as [[[cm1 feeds1] effs] trace] eqn:E.
  cbv zeta in H. destruct H as (s1 & H1 & H2 & H3 & _).
  exists s1. split; [exact H1 |].
  assert (Htrace : trace = [(0%nat, sys_send 54 [190; 239; 26; 50; 141; 72])])
    by (vm_compute in E; inversion E; reflexivity).
  subst trace. split; [exact H2 | exact H3].
Defined.

(** A send fails, the feed reconnects one minute later, the task exits. *)
Lemma forwarder_uses_open_descriptors_witness :
  nth_error [connected_slot] 0 = Some connected_slot
  /\ (let '(_, feeds1, trace) :=
        @WiFiStationTask_run example_codec [turn true 20000 (-1); turn true 80000 9]
          (two_packets, WiFiStationTask_start [connected_slot]) in
      let '(_, closing) := WiFiStationTask_shutdown 0 feeds1 in
      descriptors_used_open (slot_trace 0 (trace ++ closing)) [] = true).
Proof.
  split; [reflexivity |].
  apply (@forwarder_uses_open_descriptors example_codec 0
           [turn true 20000 (-1); turn true 80000 9] two_packets [connected_slot]
           connected_slot eq_refl).
Defined.

Example forwarder_reconnects_after_failed_send :
  slot_trace 0
    (snd (@WiFiStationTask_run example_codec [turn true 20000 (-1); turn true 80000 9]
            (two_packets, WiFiStationTask_start [connected_slot])))
  = [sys_socket 55; console LOG_INFO; sys_connect 55 117549248 30004;
     console LOG_INFO; sys_send 55 [190; 239; 26; 50; 141; 72]; console LOG_ERROR;
     sys_close 55;
     sys_socket 55; console LOG_INFO; sys_connect 55 117549248 30004;
     console LOG_INFO; sys_send 55 [190; 239; 26; 50; 141; 72]].
Proof. vm_compute. reflexivity. Qed.

Lemma unresolvable_hostname_never_connects_witness :
  nth_error [fresh_slot] 0 = Some fresh_slot
  /\ feed_sock_is_connected fresh_slot = false
  /\ Forall (fun inp =>
               IsNotIPAddress (feed_uris (it_settings inp 0%nat)) = true
               /\ lookup_fails (it_io inp 0%nat) = true)
            [hostname_turn 20000; hostname_turn 80000]
  /\ (let '(_, feeds', trace) :=
        @WiFiStationTask_run example_codec [hostname_turn 20000; hostname_turn 80000]
          (two_packets, [fresh_slot]) in
      filter is_sys_connect (slot_trace 0 trace) = []
      /\ filter is_sys_send (slot_trace 0 trace) = []
      /\ exists s', nth_error feeds' 0 = Some s' /\ feed_sock_is_connected s' = false).
Proof.
  split; [reflexivity |]. split; [reflexivity |].
  assert (Hok : Forall (fun inp =>
                          IsNotIPAddress (feed_uris (it_settings inp 0%nat)) = true
                          /\ lookup_fails (it_io inp 0%nat) = true)
                       [hostname_turn 20000; hostname_turn 80000])
    by (repeat (constructor; [split; vm_compute; reflexivity |]); constructor).
  split; [exact Hok |].
  apply (@unresolvable_hostname_never_connects example_codec 0
           [hostname_turn 20000; hostname_turn 80000] two_packets [fresh_slot]
           fresh_slot eq_refl eq_refl Hok).
Defined.

Example unresolvable_hostname_trace :
  slot_trace 0
    (snd (@WiFiStationTask_run example_codec [hostname_turn 20000]
            (two_packets, [fresh_slot])))
  = [sys_socket 55; console LOG_INFO; sys_getaddrinfo "feed.example.org";
     console LOG_ERROR; console LOG_ERROR; sys_close 55].
Proof. vm_compute. reflexivity. Qed.

Lemma turn_without_packet_touches_no_socket_witness :
  q_items (wifi_sta_decoded_transponder_packet_queue_ no_packets) = []
  /\ (let '(cm1, feeds1, effs, trace) :=
        @WiFiStationTask_iteration example_codec (turn false 7000 9)
          (no_packets, [connected_slot]) in
      trace = []
      /\ map connection_of feeds1 = map connection_of [connected_slot]
      /\ wifi_sta_decoded_transponder_packet_queue_ cm1
         = wifi_sta_decoded_transponder_packet_queue_ no_packets
      /\ Forall (fun e => e = console LOG_INFO) effs).
Proof.
  split; [reflexivity |].
  apply (@turn_without_packet_touches_no_socket example_codec (turn false 7000 9)
           no_packets [connected_slot] eq_refl).
Defined.

(** An IPv6 literal holds letters and is looked up like a host name; an
    empty URI holds none. *)
Example IsNotIPAddress_examples :
  IsNotIPAddress "fe80::1" = true
  /\ IsNotIPAddress "" = false
  /\ IsNotIPAddress "192.168.1.7" = false.
Proof. repeat split. Qed.

Lemma storing_transport_read_back : SPICoprocessor.read_back storing_transport.
Proof.
  intros a v require_ack object l l1 v' l2 Hw Hr. cbn in Hw, Hr.
  inversion Hr; subst. destruct a, v; inversion Hw; subst; reflexivity.
Qed.

Lemma tests_expect_nothing_beyond_read_back_witness :
  SPICoprocessor.read_back storing_transport
  /\ Z.of_nat 4 <= 65535
  /\ List.length [7; 7; 7; 7] = 4%nat
  /\ SPICoprocessor.WriteReadScratch storing_transport true registers
     <> SPICoprocessor.test_expect_failed
  /\ forall fuel,
       (4 <= fuel)%nat ->
       exists outcome,
         SPICoprocessor.ReadWriteReadRewriteRereadBig storing_transport 4
           [7; 7; 7; 7] [9; 9; 9; 9] true fuel registers = Some outcome
         /\ outcome <> SPICoprocessor.test_expect_failed.
Proof.
  split; [exact storing_transport_read_back |].
  split; [lia |]. split; [reflexivity |].
  apply (tests_expect_nothing_beyond_read_back storing_transport 4
           [7; 7; 7; 7] [9; 9; 9; 9] true registers
           storing_transport_read_back ltac:(lia) eq_refl).
Defined.

(** The settings test on the storing transport: four bytes, fuel for four
    turns of each loop. *)
Example settings_test_passes :
  SPICoprocessor.ReadWriteReadRewriteRereadBig storing_transport 4
    [7; 7; 7; 7] [9; 9; 9; 9] false 4 registers
  = Some SPICoprocessor.test_ok.
Proof. vm_compute. reflexivity. Qed.

(** On a transport that drops what is written both tests record a failed
    expectation. *)
Example tests_catch_a_forgetful_transport :
  SPICoprocessor.WriteReadScratch forgetful_transport false tt
  = SPICoprocessor.test_expect_failed
  /\ SPICoprocessor.ReadWriteReadRewriteRereadBig forgetful_transport 4
       [7; 7; 7; 7] [9; 9; 9; 9] false 4 tt
     = Some SPICoprocessor.test_expect_failed.
Proof. split; vm_compute; reflexivity. Qed.

Lemma settings_test_never_ends_above_uint16_witness :
  65535 < Z.of_nat (Z.to_nat 65536)
  /\ forall fuel,
       SPICoprocessor.ReadWriteReadRewriteRereadBig forgetful_transport
         (Z.to_nat 65536) [] [] false fuel tt
       = if snd (fst (SPICoprocessor.Read forgetful_transport
                        ObjectDictionary.kAddrSettingsStruct
                        (SPICoprocessor.Block (repeat 0 (Z.to_nat 65536))) tt))
         then None else Some SPICoprocessor.test_assert_failed.
Proof.
  split; [lia |]. intros fuel.
  apply (settings_test_never_ends_above_uint16 forgetful_transport
           (Z.to_nat 65536) [] [] false fuel tt).
  lia.
Defined.

End MoreRuns.
